(** * Trade validation and order execution of the Kraken trading service

    A shallow embedding of [src/services/tradeValidator.ts] and
    [src/services/krakenService.ts], and the properties the specification
    states about them.

    Conventions of the embedding.
    - A JavaScript [number] is an exact rational or [NaN]: comparisons,
      truthiness and [Math.max] follow ECMAScript on these values, products
      and sums are exact (no binary64 rounding, no infinities, no signed
      zero).
    - A JavaScript object used as a dictionary is given by its own entries:
      a finite map when it is only looked up ([minOrderSizes],
      [cryptoPrices], [normalizations]) and a list in enumeration order when
      it is iterated ([balances]).  A lookup [obj[key]] that finds no own
      entry answers from [Object.prototype] ([Js.get]): for ["toString"],
      ["constructor"] and the like it yields a function, which is truthy and
      reads as [NaN] wherever a number is expected.
    - The built-ins that turn text into numbers and back ([parseFloat],
      [Number.prototype.toString], [toFixed]) are a parameter of the
      development (class [JsRuntime]); [Reference] gives an executable
      instance for plain decimal literals, used to run the scenarios.
    - [async] methods are written in a state-and-exception monad over a
      [World] that holds the service instance, the heap of order objects,
      the clock, the console and the trace of remote calls; the answers of
      the price feed and of the gateway come from an environment.  Times
      ([Date.now()], the two intervals) are integers, in milliseconds. *)

From Stdlib Require Import ZArith QArith Qreduction Qabs Qround Lqa Lia String Ascii List Bool DecimalString.
From stdpp Require Import base option list gmap strings.

(** ** JavaScript values *)

Module Js.

(** [number]: an exact rational or [NaN]. *)
Inductive number : Type :=
| NaN
| Num (q : Q).

Definition mul (x y : number) : number :=
  match x, y with
  | Num a, Num b => Num (Qred (a * b))
  | _, _ => NaN
  end.

Definition add (x y : number) : number :=
  match x, y with
  | Num a, Num b => Num (Qred (a + b))
  | _, _ => NaN
  end.

(** [x < y], [x <= y], [x > y]: false as soon as one side is [NaN]. *)
Definition ltb (x y : number) : bool :=
  match x, y with
  | Num a, Num b => negb (Qle_bool b a)
  | _, _ => false
  end.

Definition leb (x y : number) : bool :=
  match x, y with
  | Num a, Num b => Qle_bool a b
  | _, _ => false
  end.

Definition gtb (x y : number) : bool := ltb y x.

(** [Math.max(x, y)]. *)
Definition Math_max (x y : number) : number :=
  match x, y with
  | Num a, Num b => if Qle_bool a b then Num b else Num a
  | _, _ => NaN
  end.

(** ToBoolean on a number: [0] and [NaN] are falsy. *)
Definition truthy (x : number) : bool :=
  match x with
  | NaN => false
  | Num q => negb (Qeq_bool q 0)
  end.

(** ToBoolean on a string: the empty string is falsy. *)
Definition truthy_string (s : string) : bool :=
  match s with
  | EmptyString => false
  | String _ _ => true
  end.

(** [o || d] where [o] is a possibly [undefined] number. *)
Definition or_number (o : option number) (d : number) : number :=
  match o with
  | Some x => if truthy x then x else d
  | None => d
  end.

(** [o || d] where [o] is a possibly [undefined] string. *)
Definition or_string (o : option string) (d : string) : string :=
  match o with
  | Some s => if truthy_string s then s else d
  | None => d
  end.

(** Numeric equality (the value, not its representation as a fraction). *)
Definition eqv (x y : number) : Prop :=
  match x, y with
  | Num a, Num b => Qeq a b
  | _, _ => False
  end.

Definition lt (x y : number) : Prop := ltb x y = true.
Definition le (x y : number) : Prop := leb x y = true.

(** *** Strings *)

(** [s.includes(sub)]. *)
Definition includes (s sub : string) : bool :=
  match String.index 0 sub s with
  | Some _ => true
  | None => false
  end.

(** [s.split(sep)] for a one-character separator. *)
Fixpoint split (sep : ascii) (s : string) : list string :=
  match s with
  | EmptyString => [EmptyString]
  | String c s' =>
      if Ascii.eqb c sep then EmptyString :: split sep s'
      else match split sep s' with
           | p :: ps => String c p :: ps
           | [] => [String c EmptyString]
           end
  end.

(** [s.endsWith(suffix)]. *)
Definition endsWith (s suffix : string) : bool :=
  let n := String.length s in
  let k := String.length suffix in
  (k <=? n)%nat && String.eqb (String.substring (n - k) k s) suffix.

(** [s.slice(0, -k)]. *)
Definition slice_to_minus (k : nat) (s : string) : string :=
  String.substring 0 (String.length s - k) s.

Definition upper_ascii (c : ascii) : ascii :=
  let n := nat_of_ascii c in
  if (97 <=? n)%nat && (n <=? 122)%nat then ascii_of_nat (n - 32) else c.

(** [s.toUpperCase()] on the ASCII letters. *)
Fixpoint toUpperCase (s : string) : string :=
  match s with
  | EmptyString => EmptyString
  | String c s' => String (upper_ascii c) (toUpperCase s')
  end.

(** *** Plain objects *)

(** The string-keyed members of [Object.prototype], which every plain object
    (an object literal, or what [JSON.parse] gives) inherits. *)
Definition inheritedNames : list string :=
  [ "constructor"; "hasOwnProperty"; "isPrototypeOf"; "propertyIsEnumerable";
    "toLocaleString"; "toString"; "valueOf";
    "__defineGetter__"; "__defineSetter__"; "__lookupGetter__"; "__lookupSetter__";
    "__proto__" ].

Definition inherits (key : string) : bool := existsb (String.eqb key) inheritedNames.

(** What [obj[key]] yields when it is not [undefined]: a value of the
    object's own, or the member of [Object.prototype] of that name (a
    function; the prototype object itself for ["__proto__"]). *)
Inductive property (V : Type) : Type :=
| own (value : V)
| inherited (name : string).
Arguments own {V} _.
Arguments inherited {V} _.

(** [obj[key]], from the own entry for [key] if there is one. *)
Definition get {V : Type} (ownEntry : option V) (key : string) : option (property V) :=
  match ownEntry with
  | Some value => Some (own value)
  | None => if inherits key then Some (inherited key) else None
  end.

(** ToBoolean: functions and objects are truthy. *)
Definition truthy_property {V : Type} (truthyV : V -> bool) (p : property V) : bool :=
  match p with
  | own value => truthyV value
  | inherited _ => true
  end.

(** [o || d] where [o] comes from a lookup. *)
Definition or_property {V : Type} (truthyV : V -> bool) (o : option (property V))
    (d : property V) : property V :=
  match o with
  | Some p => if truthy_property truthyV p then p else d
  | None => d
  end.

(** ToNumber, as [<], [*] and [Math.max] apply it to an operand: a function
    or an object whose text is not a numeric literal reads as [NaN]. *)
Definition toNumber (p : property number) : number :=
  match p with
  | own x => x
  | inherited _ => NaN
  end.

(** [obj[key] = value] on an object given by its own entries in enumeration
    order: an existing key keeps its place, a new key goes last. *)
Fixpoint obj_put {V : Type} (key : string) (value : V) (obj : list (string * V))
  : list (string * V) :=
  match obj with
  | [] => [(key, value)]
  | (k, v) :: rest =>
      if String.eqb k key then (k, value) :: rest
      else (k, v) :: obj_put key value rest
  end.

(** [obj[key] = value] on an object created by [{}]: the key ["__proto__"]
    reaches the setter of [Object.prototype], which sets the prototype (or
    does nothing, for a number) and creates no own entry. *)
Definition obj_set {V : Type} (key : string) (value : V) (obj : list (string * V))
  : list (string * V) :=
  if String.eqb key "__proto__" then obj else obj_put key value obj.

(** *** Conversions between text and numbers *)

Class JsRuntime : Type := {
  parseFloat : string -> number;
  Number_toString : number -> string;
  Number_toFixed : number -> nat -> string
}.

(** [parseFloat(x)] where [x] comes from a lookup: the text of a function
    ("function ...") or of the prototype ("[object Object]") does not start
    with a number. *)
Definition parseFloatOf `{JsRuntime} (p : property string) : number :=
  match p with
  | own text => parseFloat text
  | inherited _ => NaN
  end.

End Js.

Export Js.

#[warning="-uniform-inheritance"] Coercion Js.toNumber : Js.property >-> Js.number.

Declare Scope number_scope.
Delimit Scope number_scope with num.
Bind Scope number_scope with number.
Notation "x * y" := (Js.mul x y) : number_scope.
Notation "x + y" := (Js.add x y) : number_scope.
Notation "x <? y" := (Js.ltb x y) : number_scope.
Notation "x <=? y" := (Js.leb x y) : number_scope.
Notation "x >? y" := (Js.gtb x y) : number_scope.
Notation "x < y" := (Js.lt x y) : number_scope.
Notation "x <= y" := (Js.le x y) : number_scope.
Notation "x == y" := (Js.eqv x y) : number_scope.

(** ** [tradeValidator.ts] *)

Module TradeValidator.

Inductive Side : Type := buy | sell.

Record TradeValidationResult : Type := {
  isValid : bool;
  error : option string;
  adjustedAmount : option number;
  requiredBalance : option number;
  availableBalance : option number
}.

Record TradeRequest : Type := {
  pair : string;
  side : Side;
  amount : number;
  price : option number
}.

(** [{ [currency: string]: string }], own entries in enumeration order. *)
Definition Balances : Type := list (string * string).

(** [balances[currency]]. *)
Definition balance_of (b : Balances) (currency : string) : option string :=
  snd <$> List.find (fun e => String.eqb (fst e) currency) b.

Record t : Type := {
  balances : Balances;
  minOrderSizes : gmap string number;
  maxOrderSizes : gmap string number;
  cryptoPrices : gmap string number
}.

Definition defaultCryptoPrices : gmap string number :=
  list_to_map
    [ ("XBT", Num 45000); ("XXBT", Num 45000);
      ("ETH", Num 2500); ("XETH", Num 2500);
      ("XRP", Num 0.6); ("XXRP", Num 0.6);
      ("LTC", Num 100); ("XLTC", Num 100);
      ("ADA", Num 0.5); ("DOT", Num 7);
      ("USD", Num 1); ("ZUSD", Num 1) ].

Definition minOrderSizeTable : list (string * number) :=
  [ ("BTC/USD", Num 0.0001);
    ("ETH/USD", Num 0.001);
    ("XRP/USD", Num 1);
    ("LTC/USD", Num 0.01);
    ("ADA/USD", Num 10);
    ("DOT/USD", Num 0.1);
    ("XBTUSD", Num 0.0001);
    ("ETHUSD", Num 0.001);
    ("XRPUSD", Num 1);
    ("LTCUSD", Num 0.01);
    ("ADAUSD", Num 10);
    ("DOTUSD", Num 0.1) ].

Definition maxOrderSizeTable : list (string * number) :=
  [ ("BTC/USD", Num 0.9);
    ("ETH/USD", Num 0.9);
    ("XRP/USD", Num 0.9);
    ("LTC/USD", Num 0.9);
    ("ADA/USD", Num 0.9);
    ("DOT/USD", Num 0.9);
    ("XBTUSD", Num 0.9);
    ("ETHUSD", Num 0.9);
    ("XRPUSD", Num 0.9);
    ("LTCUSD", Num 0.9);
    ("ADAUSD", Num 0.9);
    ("DOTUSD", Num 0.9) ].

(** [constructor(balances, cryptoPrices?)]. *)
Definition new (balances : Balances) (cryptoPrices : option (gmap string number)) : t :=
  {| balances := balances;
     cryptoPrices := default defaultCryptoPrices cryptoPrices;
     minOrderSizes := list_to_map minOrderSizeTable;
     maxOrderSizes := list_to_map maxOrderSizeTable |}.

Definition normalizations : gmap string string :=
  list_to_map
    [ ("BTC", "XXBT");
      ("BITCOIN", "XXBT");
      ("ETH", "XETH");
      ("ETHEREUM", "XETH");
      ("XRP", "XXRP");
      ("RIPPLE", "XXRP");
      ("LTC", "XLTC");
      ("LITECOIN", "XLTC");
      ("USD", "ZUSD") ].

(** [normalizations[currency.toUpperCase()] || currency.toUpperCase()].  The
    key is upper-case and every member of [Object.prototype] has a
    lower-case letter in its name (lemma [inherits_toUpperCase]), so this
    lookup finds an own entry or nothing. *)
Definition normalizeCurrency (currency : string) : string :=
  or_string (normalizations !! toUpperCase currency) (toUpperCase currency).

(** [parsePair].  In the first branch [pair] contains a slash, so the split
    has at least two pieces; the last arm of the inner match is never
    taken (lemma [split_includes]). *)
Definition parsePair (pair : string) : string * string :=
  if includes pair "/" then
    match split "/" pair with
    | base :: quote :: _ => (normalizeCurrency base, normalizeCurrency quote)
    | _ => (pair, "ZUSD")
    end
  else if String.eqb pair "XBTUSD" then ("XXBT", "ZUSD")
  else if String.eqb pair "ETHUSD" then ("XETH", "ZUSD")
  else if String.eqb pair "XRPUSD" then ("XXRP", "ZUSD")
  else if String.eqb pair "LTCUSD" then ("XLTC", "ZUSD")
  else if String.eqb pair "ADAUSD" then ("ADA", "ZUSD")
  else if String.eqb pair "DOTUSD" then ("DOT", "ZUSD")
  else if endsWith pair "USD" then
    (normalizeCurrency (slice_to_minus 3 pair), "ZUSD")
  else (pair, "ZUSD").

(** [getMinOrderSize]: [this.minOrderSizes[pair] || 0.0001].  The declared
    result is a [number]; for a pair named like a member of
    [Object.prototype] it is that member. *)
Definition getMinOrderSize (v : t) (pair : string) : property number :=
  or_property truthy (get (minOrderSizes v !! pair) pair) (own (Num 0.0001)).

(** [this.cryptoPrices[normalizedCurrency] || this.cryptoPrices[currency] || 1]. *)
Definition getEstimatedPrice (v : t) (currency : string) : property number :=
  let normalizedCurrency := normalizeCurrency currency in
  or_property truthy (get (cryptoPrices v !! normalizedCurrency) normalizedCurrency)
    (or_property truthy (get (cryptoPrices v !! currency) currency) (own (Num 1))).

(** [this.cryptoPrices[currency] || 1]. *)
Definition priceOf (prices : gmap string number) (currency : string) : property number :=
  or_property truthy (get (prices !! currency) currency) (own (Num 1)).

Section WithRuntime.
Context `{rt : JsRuntime}.

Definition getTotalPortfolioValueInUsd (v : t) : number :=
  fold_left
    (fun totalValue '(currency, balance) =>
       let numBalance := parseFloat balance in
       if (numBalance >? Num 0)%num then
         let price := priceOf (cryptoPrices v) currency in
         (totalValue + numBalance * price)%num
       else totalValue)
    (balances v) (Num 0).

(** [price ? amount * price : amount * this.getEstimatedPrice(baseCurrency)]. *)
Definition estimatedCost (v : t) (trade : TradeRequest) (baseCurrency : string) : number :=
  match price trade with
  | Some p =>
      if truthy p then (amount trade * p)%num
      else (amount trade * getEstimatedPrice v baseCurrency)%num
  | None => (amount trade * getEstimatedPrice v baseCurrency)%num
  end.

(** [parseFloat(this.balances[baseCurrency] || '0')]. *)
Definition baseBalance (v : t) (baseCurrency : string) : number :=
  parseFloatOf
    (or_property truthy_string (get (balance_of (balances v) baseCurrency) baseCurrency)
       (own "0")).

(** [parseFloat(this.balances['ZUSD'] || this.balances['USD'] || '0')]. *)
Definition usdBalance (v : t) : number :=
  parseFloat
    (match balance_of (balances v) "ZUSD" with
     | Some s => if truthy_string s then s
                 else or_string (balance_of (balances v) "USD") "0"
     | None => or_string (balance_of (balances v) "USD") "0"
     end).

Definition validateTrade (v : t) (trade : TradeRequest) : TradeValidationResult :=
  let pair := pair trade in
  let amount := amount trade in
  if (amount <=? Num 0)%num then
    {| isValid := false;
       error := Some "Trade amount must be positive";
       adjustedAmount := None; requiredBalance := None; availableBalance := None |}
  else
  let minSize := or_property truthy (get (minOrderSizes v !! pair) pair) (own (Num 0.0001)) in
  if (amount <? minSize)%num then
    {| isValid := false;
       error := Some ("Order size " +:+ Number_toString amount +:+ " is below minimum "
                      +:+ Number_toString minSize +:+ " for " +:+ pair);
       adjustedAmount := Some (minSize : number);
       requiredBalance := None; availableBalance := None |}
  else
  let '(baseCurrency, quoteCurrency) := parsePair pair in
  match side trade with
  | buy =>
      let estimatedCost := estimatedCost v trade baseCurrency in
      let totalUsdValue := getTotalPortfolioValueInUsd v in
      if (totalUsdValue <? estimatedCost)%num then
        {| isValid := false;
           error := Some ("Insufficient portfolio value. Required: $"
                          +:+ Number_toFixed estimatedCost 2 +:+ ", Available: $"
                          +:+ Number_toFixed totalUsdValue 2);
           adjustedAmount := None;
           requiredBalance := Some estimatedCost;
           availableBalance := Some totalUsdValue |}
      else
      let usdBalance := usdBalance v in
      if (usdBalance <? estimatedCost)%num then
        {| isValid := true;
           error := Some ("Direct USD balance insufficient ($"
                          +:+ Number_toFixed usdBalance 2
                          +:+ "). May need to convert crypto assets.");
           adjustedAmount := None; requiredBalance := None; availableBalance := None |}
      else
        {| isValid := true; error := None;
           adjustedAmount := None; requiredBalance := None; availableBalance := None |}
  | sell =>
      let baseBalance := baseBalance v baseCurrency in
      if (baseBalance <? amount)%num then
        let adjustedAmount := Math_max (baseBalance * Num 0.95)%num minSize in
        if (adjustedAmount <? minSize)%num then
          {| isValid := false;
             error := Some ("Insufficient " +:+ baseCurrency +:+ " balance. Required: "
                            +:+ Number_toString amount +:+ ", Available: "
                            +:+ Number_toString baseBalance);
             adjustedAmount := None;
             requiredBalance := Some amount;
             availableBalance := Some baseBalance |}
        else
          {| isValid := false;
             error := Some ("Insufficient " +:+ baseCurrency +:+ " balance. Adjusting amount to "
                            +:+ Number_toFixed adjustedAmount 6);
             adjustedAmount := Some adjustedAmount;
             requiredBalance := Some amount;
             availableBalance := Some baseBalance |}
      else
        {| isValid := true; error := None;
           adjustedAmount := None; requiredBalance := None; availableBalance := None |}
  end.

(** One entry of the object [getPortfolioSummary] returns. *)
Record Holding : Type := {
  balance : number;
  usdValue : number
}.

(** [getBalanceSummary]: the summary object, as its entries. *)
Definition getBalanceSummary (v : t) : list (string * number) :=
  fold_left
    (fun summary '(currency, balance) =>
       let numBalance := parseFloat balance in
       if (numBalance >? Num 0)%num then obj_set currency numBalance summary
       else summary)
    (balances v) [].

(** [getPortfolioSummary]: the summary object, as its entries. *)
Definition getPortfolioSummary (v : t) : list (string * Holding) :=
  fold_left
    (fun summary '(currency, balance) =>
       let numBalance := parseFloat balance in
       if (numBalance >? Num 0)%num then
         let price := priceOf (cryptoPrices v) currency in
         obj_set currency
           {| balance := numBalance; usdValue := (numBalance * price)%num |} summary
       else summary)
    (balances v) [].

(** [getAvailableBalance]. *)
Definition getAvailableBalance (v : t) (currency : string) : number :=
  let normalizedCurrency := normalizeCurrency currency in
  parseFloatOf
    (or_property truthy_string
       (get (balance_of (balances v) normalizedCurrency) normalizedCurrency)
       (or_property truthy_string (get (balance_of (balances v) currency) currency)
          (own "0"))).

End WithRuntime.

End TradeValidator.

(** ** An executable runtime for plain decimal literals

    [Reference.runtime] reads and prints numbers whose decimal expansion
    terminates: [parseFloat] accepts optional leading blanks, a sign,
    digits with an optional fraction and an optional exponent, and ignores
    what follows; [Number_toString] prints positional notation, and
    exponent notation below [1e-6] and from [1e21] on.  The values are exact:
    nothing is rounded to binary64, and there are no infinities.  It serves
    to run the scenarios; the general theorems hold for every runtime. *)

Module Reference.

Definition digit_of (c : ascii) : option Z :=
  let n := nat_of_ascii c in
  if (48 <=? n)%nat && (n <=? 57)%nat then Some (Z.of_nat (n - 48)) else None.

Definition is_blank (c : ascii) : bool :=
  let n := nat_of_ascii c in
  (n =? 32)%nat || ((9 <=? n)%nat && (n <=? 13)%nat).

Fixpoint skip_blanks (s : string) : string :=
  match s with
  | String c s' => if is_blank c then skip_blanks s' else s
  | EmptyString => s
  end.

(** Reads a run of digits: the value accumulated so far, how many digits
    were read, and the rest of the text. *)
Fixpoint take_digits (s : string) (acc : Z) (count : nat) : Z * nat * string :=
  match s with
  | String c s' =>
      match digit_of c with
      | Some d => take_digits s' (10 * acc + d)%Z (S count)
      | None => (acc, count, s)
      end
  | EmptyString => (acc, count, s)
  end.

Definition take_sign (s : string) : bool * string :=
  match s with
  | String "-" s' => (true, s')
  | String "+" s' => (false, s')
  | _ => (false, s)
  end.

Definition take_exponent (s : string) : Z :=
  match s with
  | String c s' =>
      if Ascii.eqb c "e" || Ascii.eqb c "E" then
        let '(neg, s'') := take_sign s' in
        let '(e, n, _) := take_digits s'' 0%Z 0 in
        match n with
        | O => 0%Z
        | S _ => if neg then (- e)%Z else e
        end
      else 0%Z
  | EmptyString => 0%Z
  end.

Definition pow10 (e : Z) : Q :=
  if (0 <=? e)%Z then inject_Z (10 ^ e) else 1 # Z.to_pos (10 ^ (- e)).

Definition parseFloat (s : string) : number :=
  let '(neg, s1) := take_sign (skip_blanks s) in
  let '(ip, ni, s2) := take_digits s1 0%Z 0 in
  let '(mant, nf, s3) :=
    match s2 with
    | String "." r => take_digits r ip 0
    | _ => (ip, O, s2)
    end in
  match (ni + nf)%nat with
  | O => NaN
  | S _ =>
      let e := (take_exponent s3 - Z.of_nat nf)%Z in
      let m := if neg then (- mant)%Z else mant in
      Num (Qred (inject_Z m * pow10 e))
  end.

Definition digits_of_N (n : N) : string :=
  DecimalString.NilZero.string_of_uint (N.to_uint n).

Fixpoint zeros (k : nat) : string :=
  match k with
  | O => EmptyString
  | S k' => String "0" (zeros k')
  end.

(** [n / 10^f] in positional notation with exactly [f] fractional digits. *)
Definition positional (n : N) (f : nat) : string :=
  let d := digits_of_N n in
  let d := zeros (S f - String.length d) +:+ d in
  let k := (String.length d - f)%nat in
  match f with
  | O => d
  | S _ => String.substring 0 k d +:+ "." +:+ String.substring k f d
  end.

(** The least [k <= fuel] with [den] dividing [10^k]. *)
Fixpoint decimal_places (den : Z) (k fuel : nat) : option nat :=
  if (10 ^ Z.of_nat k mod den =? 0)%Z then Some k
  else match fuel with
       | O => None
       | S fuel' => decimal_places den (S k) fuel'
       end.

Fixpoint strip_trailing_zeros (s : string) : string :=
  match s with
  | EmptyString => EmptyString
  | String c s' =>
      match strip_trailing_zeros s' with
      | EmptyString => if Ascii.eqb c "0" then EmptyString else String c EmptyString
      | rest => String c rest
      end
  end.

(** [d.ddd × 10^e] in exponent notation, from its significant digits. *)
Definition exponential (digits : string) (e : Z) : string :=
  match digits with
  | EmptyString => "0"
  | String c EmptyString => String c EmptyString
  | String c rest => String c ("." +:+ rest)
  end +:+ "e" +:+ (if (e <? 0)%Z then "-" else "+") +:+ digits_of_N (Z.abs_N e).

(** [Number.prototype.toString]: positional notation when the decimal point
    falls within 21 digits to the left and 6 zeros to the right of the first
    significant digit, exponent notation otherwise. *)
Definition Number_toString (x : number) : string :=
  match x with
  | NaN => "NaN"
  | Num q =>
      let r := Qred q in
      let sign := if (Qnum r <? 0)%Z then "-" else "" in
      match decimal_places (Zpos (Qden r)) 0 40 with
      | Some k =>
          let s := Z.abs_N (Qnum r * (10 ^ Z.of_nat k / Zpos (Qden r))) in
          let digits := digits_of_N s in
          let n := (Z.of_nat (String.length digits) - Z.of_nat k)%Z in
          if (s =? 0)%N then "0"
          else if (21 <? n)%Z then sign +:+ exponential (strip_trailing_zeros digits) (n - 1)
          else if (n <=? -6)%Z then sign +:+ exponential digits (n - 1)
          else sign +:+ positional s k
      | None =>
          sign +:+ digits_of_N (Z.abs_N (Qnum r)) +:+ "/" +:+ digits_of_N (Npos (Qden r))
      end
  end.

Definition Number_toFixed (x : number) (f : nat) : string :=
  match x with
  | NaN => "NaN"
  | Num q =>
      let sign := if Qle_bool 0 q then "" else "-" in
      let a := Qabs.Qabs q in
      let n := Qfloor (a * inject_Z (10 ^ Z.of_nat f) + (1 # 2)) in
      sign +:+ positional (Z.to_N n) f
  end.

Definition runtime : JsRuntime :=
  {| Js.parseFloat := parseFloat;
     Js.Number_toString := Number_toString;
     Js.Number_toFixed := Number_toFixed |}.

End Reference.

(** ** [krakenService.ts] *)

Module KrakenService.

Inductive OrderType : Type := market | limit.

Record KrakenOrderRequest : Type := {
  pair : string;
  type : TradeValidator.Side;
  ordertype : OrderType;
  volume : string;
  price : option string
}.

Record OrderResult : Type := {
  descr : string;
  txid : list string
}.

(** What the gateway function answers: [{ error?: string[], result?: R }]. *)
Record GatewayData (R : Type) : Type := {
  error : option (list string);
  result : option R
}.
Arguments error {R} _.
Arguments result {R} _.

Definition KrakenOrderResponse : Type := GatewayData OrderResult.

(** The fields of a [KrakenService] instance. *)
Record t : Type := {
  apiKey : string;
  apiSecret : string;
  cachedBalances : TradeValidator.Balances;
  lastBalanceUpdate : Z;
  balanceUpdateInterval : Z;
  cryptoPrices : gmap string number;
  lastPriceUpdate : Z;
  priceUpdateInterval : Z
}.

(** Field initialisers of the class and the assignments of the constructor.
    The constructor also starts [initializeCryptoPrices] without awaiting
    it; that run proceeds concurrently with whatever the caller does next
    and is not part of this sequential model: a service is taken from the
    state in which the fields are initialised and no fetch has completed. *)
Definition new (apiKey apiSecret : string) : t :=
  {| apiKey := apiKey;
     apiSecret := apiSecret;
     cachedBalances := [];
     lastBalanceUpdate := 0;
     balanceUpdateInterval := 30000;
     cryptoPrices := ∅;
     lastPriceUpdate := 0;
     priceUpdateInterval := 60000 |}.

(** *** The outside world *)

(** The remote calls the service performs. *)
Inductive Event : Type :=
| FetchPrices (url : string)
| InvokeGetBalance (apiKey apiSecret : string)
| InvokePlaceOrder (apiKey apiSecret : string) (order : KrakenOrderRequest).

(** The [usd] entry of each asset in the price feed's answer, when present. *)
Record PriceData : Type := {
  bitcoin : option number;
  ethereum : option number;
  ripple : option number;
  litecoin : option number;
  cardano : option number;
  polkadot : option number
}.

Inductive FeedResponse : Type :=
| FeedFailed (message : string)
| FeedJson (data : PriceData).

Record FunctionsError : Type := { message : option string }.

(** [supabase.functions.invoke] resolves to [{ data, error }] or rejects. *)
Inductive InvokeReply (R : Type) : Type :=
| InvokeRejected (message : string)
| InvokeResolved (error : option FunctionsError) (data : option (GatewayData R)).
Arguments InvokeRejected {R} _.
Arguments InvokeResolved {R} _ _.

(** The environment answers each remote call from the history of calls
    (the newest first, the call being answered included) and says what the
    clock shows when the awaiting method resumes. *)
Record Env : Type := {
  priceFeed : list Event -> FeedResponse;
  getBalanceReply : list Event -> InvokeReply TradeValidator.Balances;
  placeOrderReply : list Event -> InvokeReply OrderResult;
  resumeClock : list Event -> Z -> Z
}.

Inductive LogType : Type := log_error | log_warning | log_info.

Definition loc : Type := nat.

Record World : Type := {
  service : t;
  heap : gmap loc KrakenOrderRequest;
  clock : Z;
  console : list (LogType * string);
  trace : list Event
}.

Inductive Outcome (A : Type) : Type :=
| Returned (a : A)
| Thrown (message : string).
Arguments Returned {A} _.
Arguments Thrown {A} _.

(** A method body: reads the environment, transforms the world, and
    returns or throws an [Error] with a message. *)
Definition M (A : Type) : Type := Env -> World -> Outcome A * World.

#[global] Instance M_ret : MRet M := fun A a _ w => (Returned a, w).

#[global] Instance M_bind : MBind M := fun A B f m env w =>
  match m env w with
  | (Returned a, w') => f a env w'
  | (Thrown e, w') => (Thrown e, w')
  end.

Definition throw {A : Type} (message : string) : M A :=
  fun _ w => (Thrown message, w).

(** [try { body } catch (error) { handler(error.message) }]. *)
Definition try_catch {A : Type} (body : M A) (handler : string -> M A) : M A :=
  fun env w =>
    match body env w with
    | (Returned a, w') => (Returned a, w')
    | (Thrown e, w') => handler e env w'
    end.

Definition this : M t := fun _ w => (Returned (service w), w).

Definition update (f : t -> t) (w : World) : World :=
  {| service := f (service w); heap := heap w; clock := clock w;
     console := console w; trace := trace w |}.

(** [this.field = value]. *)
Definition assign (f : t -> t) : M unit := fun _ w => (Returned tt, update f w).

Definition Date_now : M Z := fun _ w => (Returned (clock w), w).

(** A remote call: recorded in the trace; the clock moves while awaiting. *)
Definition called (env : Env) (ev : Event) (w : World) : World :=
  {| service := service w; heap := heap w;
     clock := resumeClock env (ev :: trace w) (clock w);
     console := console w; trace := ev :: trace w |}.

Definition remote {A : Type} (ev : Event) (answer : Env -> list Event -> A) : M A :=
  fun env w => (Returned (answer env (ev :: trace w)), called env ev w).

(** [logError(type, message, details?)]: the console line, without the
    details. *)
Definition log_line (ty : LogType) (msg : string) (w : World) : World :=
  {| service := service w; heap := heap w; clock := clock w;
     console := console w ++ [(ty, msg)]; trace := trace w |}.

Definition logError (ty : LogType) (msg : string) : M unit := fun _ w =>
  (Returned tt, log_line ty msg w).

(** Reading the fields of an order object. *)
Definition read (order : loc) : M KrakenOrderRequest := fun _ w =>
  match heap w !! order with
  | Some o => (Returned o, w)
  | None => (Thrown "Cannot read properties of undefined", w)
  end.

Definition with_volume (v : string) (o : KrakenOrderRequest) : KrakenOrderRequest :=
  {| pair := pair o; type := type o; ordertype := ordertype o;
     volume := v; price := price o |}.

Definition store (order : loc) (o : KrakenOrderRequest) (w : World) : World :=
  {| service := service w; heap := <[order := o]> (heap w);
     clock := clock w; console := console w; trace := trace w |}.

(** [order.volume = v]. *)
Definition write_volume (order : loc) (v : string) : M unit := fun _ w =>
  match heap w !! order with
  | Some o => (Returned tt, store order (with_volume v o) w)
  | None => (Thrown "Cannot set properties of undefined", w)
  end.

Definition set_cryptoPrices (p : gmap string number) (s : t) : t :=
  {| apiKey := apiKey s; apiSecret := apiSecret s;
     cachedBalances := cachedBalances s; lastBalanceUpdate := lastBalanceUpdate s;
     balanceUpdateInterval := balanceUpdateInterval s;
     cryptoPrices := p;
     lastPriceUpdate := lastPriceUpdate s; priceUpdateInterval := priceUpdateInterval s |}.

Definition set_lastPriceUpdate (n : Z) (s : t) : t :=
  {| apiKey := apiKey s; apiSecret := apiSecret s;
     cachedBalances := cachedBalances s; lastBalanceUpdate := lastBalanceUpdate s;
     balanceUpdateInterval := balanceUpdateInterval s;
     cryptoPrices := cryptoPrices s;
     lastPriceUpdate := n; priceUpdateInterval := priceUpdateInterval s |}.

Definition set_cachedBalances (b : TradeValidator.Balances) (s : t) : t :=
  {| apiKey := apiKey s; apiSecret := apiSecret s;
     cachedBalances := b; lastBalanceUpdate := lastBalanceUpdate s;
     balanceUpdateInterval := balanceUpdateInterval s;
     cryptoPrices := cryptoPrices s;
     lastPriceUpdate := lastPriceUpdate s; priceUpdateInterval := priceUpdateInterval s |}.

Definition set_lastBalanceUpdate (n : Z) (s : t) : t :=
  {| apiKey := apiKey s; apiSecret := apiSecret s;
     cachedBalances := cachedBalances s; lastBalanceUpdate := n;
     balanceUpdateInterval := balanceUpdateInterval s;
     cryptoPrices := cryptoPrices s;
     lastPriceUpdate := lastPriceUpdate s; priceUpdateInterval := priceUpdateInterval s |}.

(** *** The price cache *)

Definition priceUrl : string :=
  "https://api.coingecko.com/api/v3/simple/price?ids=bitcoin,ethereum,ripple,litecoin,cardano,polkadot&vs_currencies=usd".

(** [await fetch(url)] followed by [await response.json()]. *)
Definition fetch_json : M PriceData :=
  r ← remote (FetchPrices priceUrl) priceFeed;
  match r with
  | FeedJson data => mret data
  | FeedFailed msg => throw msg
  end.

Definition pricesOf (data : PriceData) : gmap string number :=
  list_to_map
    [ ("XBT", or_number (bitcoin data) (Num 45000));
      ("XXBT", or_number (bitcoin data) (Num 45000));
      ("ETH", or_number (ethereum data) (Num 2500));
      ("XETH", or_number (ethereum data) (Num 2500));
      ("XRP", or_number (ripple data) (Num 0.6));
      ("XXRP", or_number (ripple data) (Num 0.6));
      ("LTC", or_number (litecoin data) (Num 100));
      ("XLTC", or_number (litecoin data) (Num 100));
      ("ADA", or_number (cardano data) (Num 0.5));
      ("DOT", or_number (polkadot data) (Num 7));
      ("USD", Num 1);
      ("ZUSD", Num 1) ].

Definition fallbackPrices : gmap string number :=
  list_to_map
    [ ("XBT", Num 45000); ("XXBT", Num 45000);
      ("ETH", Num 2500); ("XETH", Num 2500);
      ("XRP", Num 0.6); ("XXRP", Num 0.6);
      ("LTC", Num 100); ("XLTC", Num 100);
      ("ADA", Num 0.5); ("DOT", Num 7);
      ("USD", Num 1); ("ZUSD", Num 1) ].

Definition initializeCryptoPrices : M unit :=
  try_catch
    (data ← fetch_json;
     assign (set_cryptoPrices (pricesOf data));;
     now ← Date_now;
     assign (set_lastPriceUpdate now);;
     logError log_info "Crypto prices updated successfully")
    (fun _ =>
     logError log_warning "Failed to fetch crypto prices, using fallback values";;
     assign (set_cryptoPrices fallbackPrices)).

Definition updateCryptoPricesIfNeeded : M unit :=
  now ← Date_now;
  s ← this;
  if (now - lastPriceUpdate s >? priceUpdateInterval s)%Z
  then initializeCryptoPrices
  else mret tt.

(** *** The balance cache *)

Definition balanceErrorMessage (krakenError : string) : string :=
  if includes krakenError "Invalid key" then "Invalid API key - check your credentials"
  else if includes krakenError "Permission denied" then "API key lacks required permissions"
  else if includes krakenError "Invalid signature" then "Invalid API signature - check your secret key"
  else if includes krakenError "Invalid nonce" then "Invalid nonce - time synchronization issue"
  else "Kraken Error: " +:+ krakenError.

(** [await supabase.functions.invoke('kraken-api', { body })]. *)
Definition invoke {R : Type} (ev : Event) (answer : Env -> list Event -> InvokeReply R)
  : M (option FunctionsError * option (GatewayData R)) :=
  r ← remote ev answer;
  match r with
  | InvokeResolved error data => mret (error, data)
  | InvokeRejected msg => throw msg
  end.

Definition getAccountBalance : M TradeValidator.Balances :=
  now ← Date_now;
  s ← this;
  if (now - lastBalanceUpdate s <? balanceUpdateInterval s)%Z
     && (0 <? length (cachedBalances s))%nat
  then mret (cachedBalances s)
  else
    try_catch
      (logError log_info "Fetching Kraken account balance...";;
       '(error, data) ← invoke (InvokeGetBalance (apiKey s) (apiSecret s)) getBalanceReply;
       match error with
       | Some e =>
           logError log_error "Supabase function invocation failed";;
           throw ("Function invocation failed: " +:+ or_string (message e) "Unknown error")
       | None =>
           match data ≫= KrakenService.error with
           | Some (krakenError :: _) =>
               logError log_error "Kraken API returned error";;
               throw (balanceErrorMessage krakenError)
           | _ =>
               match data ≫= KrakenService.result with
               | None =>
                   logError log_error "No result data received from Kraken API";;
                   throw "No balance data received from Kraken"
               | Some result =>
                   assign (set_cachedBalances result);;
                   assign (set_lastBalanceUpdate now);;
                   (* getPortfolioSummary() only feeds the details of this line *)
                   logError log_info "Portfolio balance updated";;
                   s' ← this;
                   mret (cachedBalances s')
               end
           end
       end)
      (fun errorMessage =>
       logError log_error "Balance fetch failed";;
       throw errorMessage).

(** *** Placing orders *)

(** The message [placeOrder] throws for a gateway error text. *)
Definition orderErrorMessage (krakenError : string) : string :=
  if includes krakenError "Insufficient funds" then "Insufficient funds for this trade"
  else if includes krakenError "Invalid arguments" then "Invalid order parameters"
  else if includes krakenError "Order minimum not met" then "Order size below minimum requirement"
  else if includes krakenError "Unknown asset pair" then "Invalid trading pair"
  else if includes krakenError "Invalid price" then "Invalid price specified"
  else krakenError.

Definition placeOrder (order : loc) : M KrakenOrderResponse :=
  try_catch
    (logError log_info "Sending order to Kraken API";;
     o ← read order;
     s ← this;
     '(error, data) ← invoke (InvokePlaceOrder (apiKey s) (apiSecret s) o) placeOrderReply;
     match error with
     | Some e =>
         logError log_error "Supabase function invocation failed during order placement";;
         throw ("Function invocation failed: " +:+ or_string (message e) "Unknown error")
     | None =>
         match data ≫= KrakenService.error with
         | Some (krakenError :: _) =>
             logError log_error "Kraken order placement error";;
             throw (orderErrorMessage krakenError)
         | _ =>
             match data, data ≫= KrakenService.result with
             | Some data, Some _ =>
                 assign (set_lastBalanceUpdate 0);;
                 logError log_info "Order placed successfully";;
                 mret data
             | _, _ =>
                 logError log_error "No result data received from order placement";;
                 throw "No order result received from Kraken"
             end
         end
     end)
    (fun errorMessage =>
     logError log_error "Order placement error";;
     throw errorMessage).

Definition side_name (s : TradeValidator.Side) : string :=
  match s with
  | TradeValidator.buy => "buy"
  | TradeValidator.sell => "sell"
  end.

(** [order.price ? parseFloat(order.price) : undefined]. *)
Definition price_of `{rt : JsRuntime} (o : KrakenOrderRequest) : option number :=
  match price o with
  | Some p => if truthy_string p then Some (parseFloat p) else None
  | None => None
  end.

(** The pair handed to the validator: the three assignments guarded by
    [order.pair === ...], whose guards exclude one another. *)
Definition validationPair (o : KrakenOrderRequest) : string :=
  if String.eqb (pair o) "XBTUSD" then "BTC/USD"
  else if String.eqb (pair o) "ETHUSD" then "ETH/USD"
  else if String.eqb (pair o) "XRPUSD" then "XRP/USD"
  else pair o.

Definition validation_failed (validation : TradeValidator.TradeValidationResult)
  : KrakenOrderResponse :=
  {| error := Some [or_string (TradeValidator.error validation) "Trade validation failed"];
     result := None |}.

Section WithRuntime.
Context `{rt : JsRuntime}.

Definition placeValidatedOrder (order : loc) : M KrakenOrderResponse :=
  try_catch
    (o ← read order;
     logError log_info ("Placing " +:+ side_name (type o) +:+ " order for "
                        +:+ volume o +:+ " " +:+ pair o);;
     updateCryptoPricesIfNeeded;;
     balances ← getAccountBalance;
     s ← this;
     let validator := TradeValidator.new balances (Some (cryptoPrices s)) in
     o ← read order;
     let validationPair := validationPair o in
     let validation :=
       TradeValidator.validateTrade validator
         {| TradeValidator.pair := validationPair;
            TradeValidator.side := type o;
            TradeValidator.amount := parseFloat (volume o);
            TradeValidator.price := price_of o |} in
     if negb (TradeValidator.isValid validation) then
       logError log_warning "Trade validation failed";;
       match TradeValidator.adjustedAmount validation with
       | Some adjusted =>
           if truthy adjusted && (adjusted >? Num 0)%num then
             logError log_info ("Adjusting trade amount from " +:+ volume o +:+ " to "
                                +:+ Number_toString adjusted);;
             write_volume order (Number_toString adjusted);;
             o ← read order;
             let revalidation :=
               TradeValidator.validateTrade validator
                 {| TradeValidator.pair := validationPair;
                    TradeValidator.side := type o;
                    TradeValidator.amount := adjusted;
                    TradeValidator.price := price_of o |} in
             if negb (TradeValidator.isValid revalidation) then
               logError log_error "Trade still invalid after adjustment";;
               mret (validation_failed validation)
             else placeOrder order
           else mret (validation_failed validation)
       | None => mret (validation_failed validation)
       end
     else placeOrder order)
    (fun errorMessage =>
     logError log_error "Validated order placement failed";;
     mret {| error := Some [errorMessage]; result := None |}).

(** [getPortfolioSummary]: [summary], as its entries, and [totalUsdValue]. *)
Definition getPortfolioSummary (s : t) : list (string * TradeValidator.Holding) * number :=
  fold_left
    (fun '(summary, totalUsdValue) '(currency, balance) =>
       let numBalance := parseFloat balance in
       if (numBalance >? Num 0.0001)%num then
         let price := TradeValidator.priceOf (cryptoPrices s) currency in
         let usdValue := (numBalance * price)%num in
         (obj_set currency
            {| TradeValidator.balance := numBalance; TradeValidator.usdValue := usdValue |}
            summary,
          (totalUsdValue + usdValue)%num)
       else (summary, totalUsdValue))
    (cachedBalances s) ([], Num 0).

End WithRuntime.

Definition testConnection : M bool :=
  try_catch
    (logError log_info "Testing Kraken connection...";;
     getAccountBalance;;
     logError log_info "Kraken connection test successful";;
     mret true)
    (fun errorMessage =>
     logError log_error "Kraken connection test failed";;
     mret false).

(** [getTradeValidator]: [null] is [None]. *)
Definition getTradeValidator : M (option TradeValidator.t) :=
  s ← this;
  if (length (cachedBalances s) =? 0)%nat then mret None
  else mret (Some (TradeValidator.new (cachedBalances s) (Some (cryptoPrices s)))).

End KrakenService.

(** ** The callers: [TradingContext.tsx] and [ConnectionStatus.tsx] *)

Module Callers.

(** [s.replace(c, '')] for a one-character pattern: the first occurrence
    goes. *)
Fixpoint remove_first (c : ascii) (s : string) : string :=
  match s with
  | EmptyString => EmptyString
  | String a s' => if Ascii.eqb a c then s' else String a (remove_first c s')
  end.

(** The pair [executeValidatedTrade] and the trade debugger put in the
    order they hand to [placeValidatedOrder]. *)
Definition krakenPair (pair : string) : string :=
  let krakenPair := toUpperCase (remove_first "/" pair) in
  let krakenPair := if String.eqb krakenPair "BTCUSD" then "XBTUSD" else krakenPair in
  if String.eqb krakenPair "ETHUSD" then "ETHUSD" else krakenPair.

End Callers.

(** ** Worlds and environments for the scenarios *)

Module Scenario.
Import KrakenService.

(** An environment whose feed and gateway always answer the same, each
    answer taking a quarter of a second. *)
Definition answering (feed : FeedResponse)
    (balances : InvokeReply TradeValidator.Balances)
    (submission : InvokeReply OrderResult) : Env :=
  {| priceFeed := fun _ => feed;
     getBalanceReply := fun _ => balances;
     placeOrderReply := fun _ => submission;
     resumeClock := fun _ t => (t + 250)%Z |}.

Definition feedDown : FeedResponse := FeedFailed "Failed to fetch".

Definition holding (b : TradeValidator.Balances) : InvokeReply TradeValidator.Balances :=
  InvokeResolved None (Some {| error := Some []; result := Some b |}).

Definition accepted : InvokeReply OrderResult :=
  InvokeResolved None
    (Some {| error := Some [];
             result := Some {| descr := "order"; txid := ["OAAAAA-BBBBB-CCCCCC"] |} |}).

Definition refused (text : string) : InvokeReply OrderResult :=
  InvokeResolved None (Some {| error := Some [text]; result := None |}).

(** A service that was just created, and one order object at address 1. *)
Definition started (o : KrakenOrderRequest) : World :=
  {| service := new "key" "secret";
     heap := {[ 1%nat := o ]};
     clock := 1700000000000;
     console := [];
     trace := [] |}.

Definition marketOrder (pair : string) (type : TradeValidator.Side) (volume : string)
  : KrakenOrderRequest :=
  {| pair := pair; type := type; ordertype := market; volume := volume; price := None |}.

End Scenario.

(** ** Vocabulary of the specification *)

Section Vocabulary.
Import TradeValidator.
Context `{rt : JsRuntime}.

(** The assets that are held: those with a positive balance. *)
Definition heldAssets (balances : Balances) : Balances :=
  List.filter (fun e => (parseFloat e.2 >? Num 0)%num) balances.

(** "Sum over all held assets of balance × price, treating unknown assets
    as price 1": the terms are added from the first held asset to the last,
    starting from 0. *)
Definition portfolioValueInUsd (balances : Balances) (prices : gmap string number) : number :=
  fold_left (fun sum e => (sum + parseFloat e.2 * or_number (prices !! e.1) (Num 1))%num)
            (heldAssets balances) (Num 0).

(** The entry [getPortfolioSummary] makes for a held asset. *)
Definition holdingOf (prices : gmap string number) (e : string * string)
  : string * Holding :=
  (e.1, {| balance := parseFloat e.2;
           usdValue := (parseFloat e.2 * priceOf prices e.1)%num |}).

(** The sum of the [usdValue] of the entries of a summary, added from the
    first entry to the last, starting from 0. *)
Definition sumUsdValue (summary : list (string * Holding)) : number :=
  fold_left (fun sum e => (sum + usdValue e.2)%num) summary (Num 0).

(** Whether the text has a lower-case ASCII letter. *)
Fixpoint hasLowerCase (s : string) : bool :=
  match s with
  | EmptyString => false
  | String c s' =>
      let n := nat_of_ascii c in
      ((97 <=? n)%nat && (n <=? 122)%nat) || hasLowerCase s'
  end.

(** Whether the character occurs in the text. *)
Fixpoint occurs (c : ascii) (s : string) : bool :=
  match s with
  | EmptyString => false
  | String a s' => Ascii.eqb a c || occurs c s'
  end.

(** The entries that can be added to an object created by [{}]: all but the
    one named ["__proto__"]. *)
Definition assignable (balances : Balances) : Balances :=
  List.filter (fun e => negb (String.eqb e.1 "__proto__")) balances.

(** The assets the service lists: those with a balance above 0.0001. *)
Definition listedAssets (balances : Balances) : Balances :=
  List.filter (fun e => (parseFloat e.2 >? Num 0.0001)%num) balances.

End Vocabulary.

Section RunVocabulary.
Import KrakenService.

Definition is_submission (ev : Event) : bool :=
  match ev with
  | InvokePlaceOrder _ _ _ => true
  | _ => false
  end.

Definition is_balance_fetch (ev : Event) : bool :=
  match ev with
  | InvokeGetBalance _ _ => true
  | _ => false
  end.

Definition is_price_fetch (ev : Event) : bool :=
  match ev with
  | FetchPrices _ => true
  | _ => false
  end.

(** How many times the gateway's order submission was called. *)
Definition submissions (tr : list Event) : nat := length (List.filter is_submission tr).

(** How many times the balances were fetched from the gateway. *)
Definition balanceFetches (tr : list Event) : nat := length (List.filter is_balance_fetch tr).

(** How many times the price feed was fetched. *)
Definition priceFetches (tr : list Event) : nat := length (List.filter is_price_fetch tr).

(** The world when the next call starts, at time [t]. *)
Definition at_time (t : Z) (w : World) : World :=
  {| service := service w; heap := heap w; clock := t;
     console := console w; trace := trace w |}.

(** The balance cache answers without a fetch: young enough and not empty. *)
Definition balance_cache_fresh (w : World) : bool :=
  (clock w - lastBalanceUpdate (service w) <? balanceUpdateInterval (service w))%Z
  && (0 <? length (cachedBalances (service w)))%nat.

(** The price cache is older than its refresh interval. *)
Definition price_cache_stale (w : World) : bool :=
  (clock w - lastPriceUpdate (service w) >? priceUpdateInterval (service w))%Z.

(** The first line [placeValidatedOrder] logs. *)
Definition placing (o : KrakenOrderRequest) : string :=
  "Placing " +:+ side_name (type o) +:+ " order for " +:+ volume o +:+ " " +:+ pair o.

(** The request [placeValidatedOrder] hands to the validator for [o]. *)
Definition request_of `{rt : JsRuntime} (o : KrakenOrderRequest) (amount : number)
  : TradeValidator.TradeRequest :=
  {| TradeValidator.pair := validationPair o;
     TradeValidator.side := type o;
     TradeValidator.amount := amount;
     TradeValidator.price := price_of o |}.

(** What [placeValidatedOrder] makes of the end of [placeOrder]: the answer
    is passed on, an exception becomes an error response. *)
Definition settle (run : Outcome KrakenOrderResponse * World)
  : Outcome KrakenOrderResponse * World :=
  match run with
  | (Returned response, w) => (Returned response, w)
  | (Thrown errorMessage, w) =>
      (Returned {| error := Some [errorMessage]; result := None |},
       log_line log_error "Validated order placement failed" w)
  end.

(** Every run of [m] relates the world before to the world after by [R]. *)
Definition Step (R : relation World) {A : Type} (m : M A) : Prop :=
  forall env w, R w (m env w).2.

(** Relations that look at the heap and at the trace only. *)
Class Insensitive (R : relation World) : Prop :=
  insensitive : forall w w', heap w' = heap w -> trace w' = trace w -> R w w'.

(** No order is submitted. *)
Definition no_submission : relation World :=
  fun w w' => submissions (trace w') = submissions (trace w).

(** At most one order is submitted. *)
Definition at_most_one_submission : relation World :=
  fun w w' => (submissions (trace w') <= submissions (trace w) + 1)%nat.

(** The order objects are left as they are. *)
Definition same_heap : relation World :=
  fun w w' => heap w' = heap w.

(** The credentials and the two refresh intervals are as before. *)
Definition same_settings : relation World :=
  fun w w' =>
    apiKey (service w') = apiKey (service w)
    /\ apiSecret (service w') = apiSecret (service w)
    /\ balanceUpdateInterval (service w') = balanceUpdateInterval (service w)
    /\ priceUpdateInterval (service w') = priceUpdateInterval (service w).

(** The twelve asset codes of the price table. *)
Definition pricedCodes : list string :=
  ["XBT"; "XXBT"; "ETH"; "XETH"; "XRP"; "XXRP"; "LTC"; "XLTC"; "ADA"; "DOT"; "USD"; "ZUSD"].

(** Only the [volume] of [order] may differ, and then it is the text of a
    number. *)
Definition volume_frame `{rt : JsRuntime} (order : loc) : relation World :=
  fun w w' =>
    (forall l, l <> order -> heap w' !! l = heap w !! l)
    /\ match heap w !! order, heap w' !! order with
       | Some o, Some o' =>
           pair o' = pair o /\ type o' = type o /\ ordertype o' = ordertype o
           /\ price o' = price o
           /\ (volume o' = volume o \/ exists a : number, volume o' = Number_toString a)
       | None, None => True
       | _, _ => False
       end.

End RunVocabulary.

(** * Properties *)

(** ** Numbers *)

Section NumberFacts.

Lemma ltb_Num (a b : Q) : (Num a <? Num b)%num = true <-> (a < b)%Q.
Proof.
  simpl. rewrite negb_true_iff. split.
  - intros Hb. apply Qnot_le_lt. intros Hle.
    apply Qle_bool_iff in Hle. congruence.
  - intros Hlt. destruct (Qle_bool b a) eqn:E; [|reflexivity].
    apply Qle_bool_iff in E. exfalso. apply (Qlt_not_le _ _ Hlt E).
Qed.

Lemma ltb_Num_false (a b : Q) : (Num a <? Num b)%num = false <-> (b <= a)%Q.
Proof.
  simpl. rewrite negb_false_iff. apply Qle_bool_iff.
Qed.

Lemma leb_Num (a b : Q) : (Num a <=? Num b)%num = true <-> (a <= b)%Q.
Proof. simpl. apply Qle_bool_iff. Qed.

Lemma leb_Num_false (a b : Q) : (Num a <=? Num b)%num = false <-> (b < a)%Q.
Proof.
  simpl. split.
  - intros Hb. apply Qnot_le_lt. intros Hle.
    apply Qle_bool_iff in Hle. congruence.
  - intros Hlt. destruct (Qle_bool a b) eqn:E; [|reflexivity].
    apply Qle_bool_iff in E. exfalso. apply (Qlt_not_le _ _ Hlt E).
Qed.

Lemma ltb_true_inv (x y : number) :
  (x <? y)%num = true -> exists a b, x = Num a /\ y = Num b /\ (a < b)%Q.
Proof.
  destruct x as [|a], y as [|b]; try discriminate.
  intros Hlt. exists a, b. repeat split. by apply ltb_Num.
Qed.

Lemma leb_true_inv (x y : number) :
  (x <=? y)%num = true -> exists a b, x = Num a /\ y = Num b /\ (a <= b)%Q.
Proof.
  destruct x as [|a], y as [|b]; try discriminate.
  intros Hle. exists a, b. repeat split. by apply leb_Num.
Qed.

Lemma ltb_irrefl (x : number) : (x <? x)%num = false.
Proof.
  destruct x as [|a]; [reflexivity|]. apply ltb_Num_false. apply Qle_refl.
Qed.

(** [Math.max(x, m) < m] never holds. *)
Lemma Math_max_not_below (x m : number) : (Math_max x m <? m)%num = false.
Proof.
  destruct x as [|a], m as [|b]; try reflexivity.
  unfold Math_max. destruct (Qle_bool a b) eqn:E.
  - apply ltb_irrefl.
  - apply ltb_Num_false. apply Qlt_le_weak. by apply (leb_Num_false a b).
Qed.

Lemma Math_max_Num (a b : Q) :
  exists c, Math_max (Num a) (Num b) = Num c /\ (b <= c)%Q /\ (a <= c)%Q
            /\ (c == a \/ c == b)%Q.
Proof.
  unfold Math_max. destruct (Qle_bool a b) eqn:E.
  - exists b. apply Qle_bool_iff in E. repeat split; [apply Qle_refl|done|right; reflexivity].
  - exists a. apply (leb_Num_false a b) in E.
    repeat split; [by apply Qlt_le_weak|apply Qle_refl|left; reflexivity].
Qed.

Lemma truthy_Num (x : number) : truthy x = true -> exists q, x = Num q /\ ~ (q == 0)%Q.
Proof.
  destruct x as [|q]; [discriminate|]. simpl. rewrite negb_true_iff.
  intros Hq. exists q. split; [done|]. intros Heq.
  apply Qeq_bool_iff in Heq. congruence.
Qed.

Lemma or_number_Num (o : option number) (d : Q) :
  exists q, or_number o (Num d) = Num q.
Proof.
  destruct o as [x|]; simpl; [|by eexists].
  destruct (truthy x) eqn:E; [|by eexists].
  destruct (truthy_Num _ E) as (q & -> & _). by eexists.
Qed.

Lemma mul_comm (x y : number) : (x * y)%num = (y * x)%num.
Proof.
  destruct x as [|a], y as [|b]; try reflexivity.
  simpl. f_equal. apply Qred_complete. apply Qmult_comm.
Qed.

End NumberFacts.

(** ** The validator *)

Section PairFacts.
Import TradeValidator.

Lemma split_nonempty (sep : ascii) (s : string) : exists p ps, split sep s = p :: ps.
Proof.
  destruct s as [|c s]; simpl; [by eexists _, _|].
  destruct (Ascii.eqb c sep); [by eexists _, _|].
  destruct (split sep s); by eexists _, _.
Qed.

(** A text that contains a slash splits into at least two pieces, so
    [parsePair] always finds a base and a quote in its first branch. *)
Lemma split_includes (s : string) :
  includes s "/" = true -> exists base quote rest, split "/" s = base :: quote :: rest.
Proof.
  unfold includes. induction s as [|c s IH]; [discriminate|].
  change (String.index 0 "/" (String c s))
    with (if String.prefix "/" (String c s) then Some 0%nat
          else match String.index 0 "/" s with
               | Some n => Some (S n)
               | None => None
               end).
  change (String.prefix "/" (String c s))
    with (if ascii_dec "/" c then String.prefix "" s else false).
  cbn [split].
  destruct (ascii_dec "/" c) as [<-|Hc].
  - intros _. change (Ascii.eqb "/" "/") with true. cbv iota.
    destruct (split_nonempty "/" s) as (p & ps & ->). by eexists _, _, _.
  - destruct (Ascii.eqb_spec c "/") as [->|_]; [done|].
    destruct (String.index 0 "/" s); [|discriminate].
    intros _. destruct IH as (base & quote & rest & ->); [done|]. by eexists _, _, _.
Qed.

Example parsePair_human : parsePair "BTC/USD" = ("XXBT", "ZUSD").
Proof. reflexivity. Qed.

Example parsePair_lower_case : parsePair "eth/usd" = ("XETH", "ZUSD").
Proof. reflexivity. Qed.

Example parsePair_native : parsePair "XBTUSD" = ("XXBT", "ZUSD").
Proof. reflexivity. Qed.

Example parsePair_fallback : parsePair "SOLUSD" = ("SOL", "ZUSD").
Proof. reflexivity. Qed.

Example parsePair_unknown : parsePair "XBTEUR" = ("XBTEUR", "ZUSD").
Proof. reflexivity. Qed.

Example includes_inside : includes "EOrder:Insufficient funds" "Insufficient funds" = true.
Proof. reflexivity. Qed.

Example includes_absent : includes "EGeneral:Internal error" "Insufficient funds" = false.
Proof. reflexivity. Qed.

Lemma normalizations_values (k v : string) :
  normalizations !! k = Some v ->
  v = "XXBT" \/ v = "XETH" \/ v = "XXRP" \/ v = "XLTC" \/ v = "ZUSD".
Proof.
  intros Hk. apply (elem_of_list_to_map_2 (M:=gmap string)) in Hk.
  repeat (apply elem_of_cons in Hk as [[= _ <-]|Hk]; [tauto|]).
  by apply elem_of_nil in Hk.
Qed.

(** *** Names inherited from [Object.prototype] *)

Lemma inheritedNames_lower (name : string) :
  inherits name = true -> hasLowerCase name = true.
Proof.
  unfold inherits. intros Hin. apply existsb_exists in Hin as (n & Hn & Heq).
  apply String.eqb_eq in Heq. subst n.
  repeat (destruct Hn as [<-|Hn]; [reflexivity|]). destruct Hn.
Qed.

Lemma upper_ascii_not_lower (c : ascii) :
  (97 <=? nat_of_ascii (upper_ascii c))%nat && (nat_of_ascii (upper_ascii c) <=? 122)%nat
  = false.
Proof. destruct c as [[] [] [] [] [] [] [] []]; reflexivity. Qed.

Lemma toUpperCase_no_lower (s : string) : hasLowerCase (toUpperCase s) = false.
Proof.
  induction s as [|c s IH]; [reflexivity|].
  cbn [toUpperCase hasLowerCase]. cbv zeta. by rewrite upper_ascii_not_lower, IH.
Qed.

(** An upper-case text is never the name of an inherited member. *)
Lemma inherits_toUpperCase (s : string) : inherits (toUpperCase s) = false.
Proof.
  destruct (inherits (toUpperCase s)) eqn:Hin; [|reflexivity].
  apply inheritedNames_lower in Hin. by rewrite toUpperCase_no_lower in Hin.
Qed.

Lemma inherits_normalizeCurrency (currency : string) :
  inherits (normalizeCurrency currency) = false.
Proof.
  unfold normalizeCurrency.
  destruct (normalizations !! toUpperCase currency) as [v|] eqn:Hk;
    [|apply inherits_toUpperCase].
  destruct (normalizations_values _ _ Hk) as [->|[->|[->|[->| ->]]]];
    first [reflexivity|apply inherits_toUpperCase].
Qed.

(** The base [parsePair] returns is inherited only when it is the pair
    itself, and the quote never is. *)
Lemma inherits_parsePair (pair : string) :
  inherits pair = false ->
  inherits (parsePair pair).1 = false /\ inherits (parsePair pair).2 = false.
Proof.
  intros Hpair. unfold parsePair. destruct (includes pair "/") eqn:Hslash.
  - destruct (split_includes pair Hslash) as (base & quote & rest & ->). simpl.
    split; apply inherits_normalizeCurrency.
  - repeat match goal with
           | |- context [String.eqb pair ?k] =>
               destruct (String.eqb pair k); [split; reflexivity|]
           end.
    destruct (endsWith pair "USD"); simpl; (split; [|reflexivity]);
      [apply inherits_normalizeCurrency|exact Hpair].
Qed.

Lemma get_own {V : Type} (o : option V) (key : string) :
  inherits key = false -> get o key = own <$> o.
Proof. intros Hkey. unfold get. rewrite Hkey. by destruct o. Qed.

End PairFacts.

Section ValidatorFacts.
Import TradeValidator.
Context `{rt : JsRuntime}.

Lemma minOrderSizeTable_positive :
  Forall (fun e => exists q, e.2 = Num q /\ (0 < q)%Q /\ truthy e.2 = true) minOrderSizeTable.
Proof.
  unfold minOrderSizeTable.
  repeat (apply Forall_cons; split;
          [eexists; split; [reflexivity|split; [reflexivity|reflexivity]]|]).
  apply Forall_nil. done.
Qed.

(** No pair of the table is named like a member of [Object.prototype]. *)
Lemma minOrderSizes_not_inherited (balances : Balances)
    (prices : option (gmap string number)) (pair : string) :
  is_Some (minOrderSizes (new balances prices) !! pair) -> inherits pair = false.
Proof.
  intros [x E]. apply (elem_of_list_to_map_2 (M:=gmap string) minOrderSizeTable) in E.
  repeat (apply elem_of_cons in E as [[= -> _]|E]; [reflexivity|]).
  by apply elem_of_nil in E.
Qed.

(** The minimum size read for a pair is the table entry, [0.0001] for a pair
    that is neither listed nor inherited, positive in both cases, and the
    inherited member otherwise. *)
Lemma getMinOrderSize_cases (balances : Balances) (prices : option (gmap string number))
    (pair : string) :
  let v := new balances prices in
  (exists q, getMinOrderSize v pair = own (Num q) /\ (0 < q)%Q
             /\ Num q = default (Num 0.0001) (minOrderSizes v !! pair))
  \/ (inherits pair = true /\ getMinOrderSize v pair = inherited pair).
Proof.
  intros v. unfold getMinOrderSize.
  destruct (minOrderSizes v !! pair) as [x|] eqn:E; cbn [get or_property truthy_property default].
  - left. apply (elem_of_list_to_map_2 (M:=gmap string) minOrderSizeTable) in E.
    pose proof minOrderSizeTable_positive as HF.
    rewrite Forall_forall in HF. destruct (HF _ E) as (q & Hq & Hpos & Ht).
    cbn [snd] in Hq, Hpos, Ht. rewrite Ht. exists q. by rewrite Hq.
  - destruct (inherits pair) eqn:Hin; cbn [or_property truthy_property].
    + by right.
    + left. exists 0.0001%Q. done.
Qed.

Lemma getMinOrderSize_new (balances : Balances) (prices : option (gmap string number))
    (pair : string) :
  let v := new balances prices in
  inherits pair = false ->
  getMinOrderSize v pair = own (default (Num 0.0001) (minOrderSizes v !! pair))
  /\ exists q, getMinOrderSize v pair = own (Num q) /\ (0 < q)%Q.
Proof.
  intros v Hpair.
  destruct (getMinOrderSize_cases balances prices pair) as [(q & Hq & Hpos & Hd)|[Hin _]];
    [|congruence].
  fold v in Hq, Hd. rewrite Hq, Hd. split; [reflexivity|]. rewrite <- Hd. by exists q.
Qed.

(** A minimum size that compares with a number is a positive number. *)
Lemma getMinOrderSize_Num (balances : Balances) (prices : option (gmap string number))
    (pair : string) (m : Q) :
  let v := new balances prices in
  (getMinOrderSize v pair : number) = Num m ->
  getMinOrderSize v pair = own (Num m) /\ (0 < m)%Q /\ inherits pair = false.
Proof.
  intros v Hm. subst v.
  destruct (getMinOrderSize_cases balances prices pair) as [(q & Hq & Hpos & Hd)|[Hin Hi]].
  - rewrite Hq in Hm |- *. cbn in Hm. injection Hm as <-. split; [done|]. split; [done|].
    destruct (inherits pair) eqn:Hin; [|done].
    unfold getMinOrderSize in Hq.
    destruct (minOrderSizes (new balances prices) !! pair) as [x|] eqn:E.
    + rewrite <- Hin. apply (minOrderSizes_not_inherited balances prices). by eexists.
    + cbn [get] in Hq. rewrite Hin in Hq. discriminate.
  - rewrite Hi in Hm. discriminate.
Qed.

(** Step 2 of [validateTrade]: a positive amount below the minimum. *)
Lemma validateTrade_below_minimum (v : t) (trade : TradeRequest) :
  (amount trade <=? Num 0)%num = false ->
  (amount trade <? getMinOrderSize v (pair trade))%num = true ->
  validateTrade v trade =
    {| isValid := false;
       error := Some ("Order size " +:+ Number_toString (amount trade) +:+ " is below minimum "
                      +:+ Number_toString (getMinOrderSize v (pair trade))
                      +:+ " for " +:+ pair trade);
       adjustedAmount := Some (getMinOrderSize v (pair trade) : number);
       requiredBalance := None; availableBalance := None |}.
Proof.
  unfold validateTrade, getMinOrderSize. intros -> ->. reflexivity.
Qed.

(** Step 5: a sell whose amount passes steps 1 and 2 and exceeds the held
    balance.  The inner guard [adjustedAmount < minSize] is never true. *)
Lemma validateTrade_sell_insufficient (v : t) (trade : TradeRequest) :
  let minSize : number := getMinOrderSize v (pair trade) in
  let baseCurrency := (parsePair (pair trade)).1 in
  let held := baseBalance v baseCurrency in
  let adjusted := Math_max (held * Num 0.95)%num minSize in
  side trade = sell ->
  (amount trade <=? Num 0)%num = false ->
  (amount trade <? minSize)%num = false ->
  (held <? amount trade)%num = true ->
  validateTrade v trade =
    {| isValid := false;
       error := Some ("Insufficient " +:+ baseCurrency +:+ " balance. Adjusting amount to "
                      +:+ Number_toFixed adjusted 6);
       adjustedAmount := Some adjusted;
       requiredBalance := Some (amount trade);
       availableBalance := Some held |}.
Proof.
  unfold validateTrade, getMinOrderSize. simpl.
  intros Hside Hpos Hmin Hheld. rewrite Hpos, Hmin, Hside.
  destruct (parsePair (pair trade)) as [baseCurrency quoteCurrency]. simpl in *.
  rewrite Hheld, Math_max_not_below. reflexivity.
Qed.

(** Step 4: a buy whose amount passes steps 1 and 2 and whose estimated
    cost exceeds the value of the portfolio. *)
Lemma validateTrade_buy_insufficient (v : t) (trade : TradeRequest) :
  let baseCurrency := (parsePair (pair trade)).1 in
  let cost := estimatedCost v trade baseCurrency in
  let total := getTotalPortfolioValueInUsd v in
  side trade = buy ->
  (amount trade <=? Num 0)%num = false ->
  (amount trade <? getMinOrderSize v (pair trade))%num = false ->
  (total <? cost)%num = true ->
  validateTrade v trade =
    {| isValid := false;
       error := Some ("Insufficient portfolio value. Required: $"
                      +:+ Number_toFixed cost 2 +:+ ", Available: $"
                      +:+ Number_toFixed total 2);
       adjustedAmount := None;
       requiredBalance := Some cost;
       availableBalance := Some total |}.
Proof.
  unfold validateTrade, getMinOrderSize. simpl.
  intros Hside Hpos Hmin Hlt. rewrite Hpos, Hmin, Hside.
  destruct (parsePair (pair trade)) as [baseCurrency quoteCurrency]. simpl in *.
  rewrite Hlt. reflexivity.
Qed.

(** Where an [adjustedAmount] can come from: step 2 or step 5. *)
Lemma adjustedAmount_inv (v : t) (trade : TradeRequest) (a : number) :
  adjustedAmount (validateTrade v trade) = Some a ->
  (amount trade <=? Num 0)%num = false /\
  ((amount trade <? getMinOrderSize v (pair trade))%num = true
     /\ a = (getMinOrderSize v (pair trade) : number)
   \/
   (amount trade <? getMinOrderSize v (pair trade))%num = false
     /\ side trade = sell
     /\ (baseBalance v (parsePair (pair trade)).1 <? amount trade)%num = true
     /\ a = Math_max (baseBalance v (parsePair (pair trade)).1 * Num 0.95)%num
                     (getMinOrderSize v (pair trade))).
Proof.
  unfold validateTrade, getMinOrderSize.
  destruct (amount trade <=? Num 0)%num eqn:Hpos; [discriminate|].
  destruct (amount trade <? _)%num eqn:Hmin.
  { simpl. intros [= <-]. split; [done|]. by left. }
  destruct (parsePair (pair trade)) as [baseCurrency quoteCurrency]. simpl.
  destruct (side trade) eqn:Hside.
  - repeat match goal with |- context [if ?c then _ else _] => destruct c end;
      discriminate.
  - destruct (baseBalance v baseCurrency <? amount trade)%num eqn:Hheld; [|discriminate].
    rewrite Math_max_not_below. simpl. intros [= <-].
    split; [done|]. right. done.
Qed.

End ValidatorFacts.

(** *** The loop of [getTotalPortfolioValueInUsd] and the specification's sum *)

Section PortfolioValue.
Import TradeValidator.
Context `{rt : JsRuntime}.
#[local] Arguments Js.gtb : simpl never.
#[local] Arguments Js.ltb : simpl never.

(** A price that is the object's own, or the default. *)
Lemma priceOf_own (prices : gmap string number) (currency : string) :
  inherits currency = false ->
  (priceOf prices currency : number) = or_number (prices !! currency) (Num 1).
Proof.
  intros Hc. unfold priceOf. rewrite get_own by done.
  destruct (prices !! currency) as [x|]; [|reflexivity].
  cbn. by destruct (truthy x).
Qed.

Lemma priceOf_Num (prices : gmap string number) (currency : string) :
  inherits currency = false -> exists p, (priceOf prices currency : number) = Num p.
Proof. intros Hc. rewrite priceOf_own by done. apply or_number_Num. Qed.

(** The loop of [getTotalPortfolioValueInUsd] performs the additions of the
    specification's sum, in the same order, when no held asset is named like
    an inherited member. *)
Lemma portfolio_fold (prices : gmap string number) (l : Balances) (acc : number) :
  (forall e, e ∈ heldAssets l -> inherits e.1 = false) ->
  fold_left
    (fun totalValue '(currency, balance) =>
       let numBalance := parseFloat balance in
       if (numBalance >? Num 0)%num then
         let price := priceOf prices currency in
         (totalValue + numBalance * price)%num
       else totalValue) l acc
  = fold_left (fun sum e => (sum + parseFloat e.2 * or_number (prices !! e.1) (Num 1))%num)
      (heldAssets l) acc.
Proof.
  set (step := fun (totalValue : number) '(currency, balance) => _).
  revert acc. induction l as [|[currency balance] l IH]; intros acc Hnames; [reflexivity|].
  cbn [fold_left]. unfold heldAssets in *. cbn [List.filter snd] in *.
  destruct (parseFloat balance >? Num 0)%num eqn:Hheld.
  - assert (Hstep : step acc (currency, balance)
                    = (acc + parseFloat balance * or_number (prices !! currency) (Num 1))%num).
    { unfold step. cbv zeta. rewrite Hheld, priceOf_own; [reflexivity|].
      apply (Hnames (currency, balance)). left. }
    rewrite Hstep. cbn [fold_left fst snd]. apply IH.
    intros e He. apply Hnames. by right.
  - assert (Hstep : step acc (currency, balance) = acc).
    { unfold step. cbv zeta. by rewrite Hheld. }
    rewrite Hstep. by apply IH.
Qed.

Lemma getTotalPortfolioValueInUsd_spec (v : t) :
  (forall e, e ∈ heldAssets (balances v) -> inherits e.1 = false) ->
  getTotalPortfolioValueInUsd v = portfolioValueInUsd (balances v) (cryptoPrices v).
Proof. apply portfolio_fold. Qed.

Lemma portfolioValueInUsd_Num (prices : gmap string number) (l : Balances) (acc : Q) :
  exists total,
    fold_left (fun sum e => (sum + parseFloat e.2 * or_number (prices !! e.1) (Num 1))%num)
      (heldAssets l) (Num acc) = Num total.
Proof.
  unfold heldAssets. revert acc. induction l as [|e l IH]; intros acc; [by eexists|].
  cbn [List.filter]. destruct (parseFloat e.2 >? Num 0)%num eqn:Hheld; [|apply IH].
  destruct (ltb_true_inv _ _ Hheld) as (z & x & _ & Hx & _).
  destruct (or_number_Num (prices !! e.1) 1) as (p & Hp).
  cbn [fold_left]. rewrite Hx, Hp. apply IH.
Qed.

End PortfolioValue.

(** ** Claims about [validateTrade] *)

Section ValidatorClaims.
Import TradeValidator.
Context `{rt : JsRuntime}.

Lemma positive_not_le_zero (x : number) : (Num 0 < x)%num -> (x <=? Num 0)%num = false.
Proof.
  intros Hpos. destruct (ltb_true_inv _ _ Hpos) as (z & a & [= <-] & -> & Ha).
  by apply leb_Num_false.
Qed.

Lemma le_not_lt (x y : number) : (x <= y)%num -> (y <? x)%num = false.
Proof.
  intros Hle. destruct (leb_true_inv _ _ Hle) as (a & b & -> & -> & Hab).
  by apply ltb_Num_false.
Qed.

Lemma at_least_minimum_positive (balances : Balances) (prices : option (gmap string number))
    (pair : string) (x : number) :
  (getMinOrderSize (new balances prices) pair <= x)%num -> (Num 0 < x)%num.
Proof.
  intros Hle. destruct (leb_true_inv _ _ Hle) as (m & b & Hm & -> & Hmb).
  destruct (getMinOrderSize_Num balances prices pair m Hm) as (_ & Hpos & _).
  apply ltb_Num. by eapply Qlt_le_trans.
Qed.

(** X26.  For a pair that is not named like a member of [Object.prototype],
    a positive amount below the pair's minimum order size (the entry of the
    configured table, [0.0001] for a pair the table does not list) gives an
    invalid verdict whose [adjustedAmount] is that minimum. *)
Theorem validateTrade_minimum_size_floor
    (balances : Balances) (prices : option (gmap string number)) (trade : TradeRequest) :
  let v := new balances prices in
  let minimumSize := default (Num 0.0001) (minOrderSizes v !! pair trade) in
  inherits (pair trade) = false ->
  (Num 0 < amount trade)%num ->
  (amount trade < minimumSize)%num ->
  isValid (validateTrade v trade) = false
  /\ adjustedAmount (validateTrade v trade) = Some minimumSize.
Proof.
  intros v minimumSize Hpair Hpos Hlt.
  destruct (getMinOrderSize_new balances prices (pair trade) Hpair) as (Hmin & _).
  fold v in Hmin. fold minimumSize in Hmin.
  rewrite (validateTrade_below_minimum v trade).
  - simpl. by rewrite Hmin.
  - by apply positive_not_le_zero.
  - by rewrite Hmin.
Qed.

(** C2.  The claim fails on the code for a pair named like a member of
    [Object.prototype]: the lookup [this.minOrderSizes[pair]] then yields
    the inherited function instead of falling back to [0.0001], the
    comparison [amount < minSize] is false, and the order goes on to the
    balance checks.  Buying 0.00005 of ["toString"], a positive amount below
    the default minimum of a pair the table does not list, is accepted
    whatever the balances, and nothing is offered instead. *)
Theorem inherited_pair_skips_minimum_check (balances : Balances) :
  let v := new balances None in
  let trade := {| pair := "toString"; side := buy; amount := Num 0.00005; price := None |} in
  let minimumSize := default (Num 0.0001) (minOrderSizes v !! pair trade) in
  minimumSize = Num 0.0001
  /\ (Num 0 < amount trade)%num
  /\ (amount trade < minimumSize)%num
  /\ getMinOrderSize v (pair trade) = inherited "toString"
  /\ validateTrade v trade
     = {| isValid := true; error := None;
          adjustedAmount := None; requiredBalance := None; availableBalance := None |}.
Proof.
  intros v trade minimumSize. repeat split.
  unfold validateTrade.
  change (getTotalPortfolioValueInUsd v <? estimatedCost v trade "toString")%num
    with (getTotalPortfolioValueInUsd v <? NaN)%num.
  change (usdBalance v <? estimatedCost v trade "toString")%num
    with (usdBalance v <? NaN)%num.
  cbn [amount pair side trade leb ltb toNumber or_property get truthy_property parsePair].
  change (_ <=? _)%num with false. cbv iota.
  change (Num 0.00005 <? _)%num with false. cbv iota.
  change (parsePair "toString") with ("toString", "ZUSD"). cbv iota beta.
  by destruct (getTotalPortfolioValueInUsd v), (usdBalance v).
Qed.

(** X27.  A sell whose amount is at least the minimum size read for the pair
    and exceeds the held balance of the base asset is invalid, offers
    [max(balance × 0.95, minimumSize)] and reports the amount as required and
    the balance as available.  With balances [{XXBT: "0.02"}], selling 0.05
    XBTUSD offers 0.019. *)
Theorem validateTrade_sell_insufficient_balance :
  (forall (balances : Balances) (prices : option (gmap string number)) (trade : TradeRequest),
     let v := new balances prices in
     let minimumSize : number := getMinOrderSize v (pair trade) in
     let balance := baseBalance v (parsePair (pair trade)).1 in
     side trade = sell ->
     (minimumSize <= amount trade)%num ->
     (balance < amount trade)%num ->
     isValid (validateTrade v trade) = false
     /\ adjustedAmount (validateTrade v trade)
        = Some (Math_max (balance * Num 0.95)%num minimumSize)
     /\ requiredBalance (validateTrade v trade) = Some (amount trade)
     /\ availableBalance (validateTrade v trade) = Some balance)
  /\
  ((parseFloat "0.02" == Num 0.02)%num ->
   forall (prices : option (gmap string number)) (price : option number),
     let verdict :=
       validateTrade (new [("XXBT", "0.02")] prices)
         {| pair := "XBTUSD"; side := sell; amount := Num 0.05; price := price |} in
     isValid verdict = false /\ adjustedAmount verdict = Some (Num 0.019)).
Proof.
  assert (General : forall balances prices trade,
     let v := new balances prices in
     let minimumSize : number := getMinOrderSize v (pair trade) in
     let balance := baseBalance v (parsePair (pair trade)).1 in
     side trade = sell ->
     (minimumSize <= amount trade)%num ->
     (balance < amount trade)%num ->
     isValid (validateTrade v trade) = false
     /\ adjustedAmount (validateTrade v trade)
        = Some (Math_max (balance * Num 0.95)%num minimumSize)
     /\ requiredBalance (validateTrade v trade) = Some (amount trade)
     /\ availableBalance (validateTrade v trade) = Some balance).
  { intros balances prices trade v minimumSize balance Hside Hmin Hheld.
    rewrite (validateTrade_sell_insufficient v trade Hside).
    - done.
    - apply positive_not_le_zero. by eapply at_least_minimum_positive.
    - by apply le_not_lt.
    - exact Hheld. }
  split; [exact General|].
  intros Hparse prices price verdict.
  destruct (parseFloat "0.02") as [|q] eqn:Hq; [done|]. simpl in Hparse.
  destruct (General [("XXBT", "0.02")] prices
              {| pair := "XBTUSD"; side := sell; amount := Num 0.05; price := price |})
    as (Hvalid & Hadjusted & _).
  - reflexivity.
  - reflexivity.
  - change (parseFloat "0.02" < Num 0.05)%num. rewrite Hq. apply ltb_Num.
    rewrite Hparse. reflexivity.
  - split; [exact Hvalid|]. unfold verdict. rewrite Hadjusted. f_equal.
    change (Math_max (parseFloat "0.02" * Num 0.95)%num (Num 0.0001) = Num 0.019).
    rewrite Hq. simpl.
    assert (Hred : Qred (q * 0.95) = 0.019%Q).
    { change 0.019%Q with (Qred (0.02 * 0.95)). apply Qred_complete. by rewrite Hparse. }
    rewrite Hred. reflexivity.
Qed.

(** C3.  The general part of the claim fails on the code for a pair named
    like a member of [Object.prototype]: selling 1 of ["constructor"] with
    nothing held is at least the default minimum of an unlisted pair and
    exceeds the held balance, and yet the verdict is valid, because both the
    minimum size and the balance are read off the inherited function.  The
    scenario of the claim holds: with balances [{XXBT: "0.02"}], selling
    0.05 XBTUSD is invalid and offers 0.019. *)
Theorem inherited_pair_sell_is_accepted :
  (let v := new [] None in
   let trade := {| pair := "constructor"; side := sell; amount := Num 1; price := None |} in
   let minimumSize := default (Num 0.0001) (minOrderSizes v !! pair trade) in
   (minimumSize <= amount trade)%num
   /\ balance_of (balances v) (parsePair (pair trade)).1 = None
   /\ (Num 0 < amount trade)%num
   /\ baseBalance v (parsePair (pair trade)).1 = NaN
   /\ validateTrade v trade
      = {| isValid := true; error := None;
           adjustedAmount := None; requiredBalance := None; availableBalance := None |})
  /\
  ((parseFloat "0.02" == Num 0.02)%num ->
   let verdict :=
     validateTrade (new [("XXBT", "0.02")] None)
       {| pair := "XBTUSD"; side := sell; amount := Num 0.05; price := None |} in
   isValid verdict = false /\ adjustedAmount verdict = Some (Num 0.019)).
Proof.
  split; [repeat split|].
  intros Hparse verdict.
  destruct (parseFloat "0.02") as [|q] eqn:Hq; [done|]. simpl in Hparse.
  assert (Hheld : (baseBalance (new [("XXBT", "0.02")] None) "XXBT" <? Num 0.05)%num = true).
  { change ((parseFloat "0.02" <? Num 0.05)%num = true). rewrite Hq. apply ltb_Num.
    rewrite Hparse. reflexivity. }
  unfold verdict.
  rewrite (validateTrade_sell_insufficient (new [("XXBT", "0.02")] None)
             {| pair := "XBTUSD"; side := sell; amount := Num 0.05; price := None |} eq_refl);
    [|reflexivity|reflexivity|exact Hheld].
  cbn [isValid adjustedAmount]. split; [reflexivity|]. f_equal.
  change (Math_max (parseFloat "0.02" * Num 0.95)%num (Num 0.0001) = Num 0.019).
  rewrite Hq. simpl.
  assert (Hred : Qred (q * 0.95) = 0.019%Q).
  { change 0.019%Q with (Qred (0.02 * 0.95)). apply Qred_complete. by rewrite Hparse. }
  rewrite Hred. reflexivity.
Qed.

(** C10.  The guard [adjustedAmount < minSize] is never satisfied, so no
    sell verdict is invalid without an [adjustedAmount]; but the claim that
    every sell of at least the minimum size with an insufficient balance is
    given an [adjustedAmount] fails on the code for a pair named like a
    member of [Object.prototype]: selling 0.05 of ["toString"] with a zero
    balance is accepted and nothing is offered. *)
Theorem sell_without_adjustment_is_valid :
  (forall x m : number, (Math_max x m <? m)%num = false)
  /\ (forall (v : t) (trade : TradeRequest),
        side trade = sell ->
        (Num 0 < amount trade)%num ->
        adjustedAmount (validateTrade v trade) = None ->
        isValid (validateTrade v trade) = true)
  /\ (let v := new [] None in
      let trade := {| pair := "toString"; side := sell; amount := Num 0.05; price := None |} in
      let minimumSize := default (Num 0.0001) (minOrderSizes v !! pair trade) in
      (minimumSize <= amount trade)%num
      /\ balance_of (balances v) (parsePair (pair trade)).1 = None
      /\ isValid (validateTrade v trade) = true
      /\ adjustedAmount (validateTrade v trade) = None).
Proof.
  split; [apply Math_max_not_below|]. split; [|repeat split].
  intros v trade Hside Hpos. apply positive_not_le_zero in Hpos.
  unfold validateTrade. rewrite Hpos, Hside.
  destruct (amount trade <? _)%num; [discriminate|].
  destruct (parsePair (pair trade)) as [baseCurrency quoteCurrency].
  destruct (baseBalance v baseCurrency <? amount trade)%num; [|reflexivity].
  rewrite Math_max_not_below. discriminate.
Qed.

(** C1 as amended.  For a pair that is not named like a member of
    [Object.prototype]: when a verdict carries an [adjustedAmount], the
    adjustment is at least the pair's minimum size; it is the minimum
    itself, above the amount, when the amount is below the minimum, and
    [max(balance × 0.95, minimumSize)], at most the amount, when a sell
    exceeds the held balance. *)
Theorem adjustedAmount_bounds
    (balances : Balances) (prices : option (gmap string number)) (trade : TradeRequest)
    (adjusted : number) :
  let v := new balances prices in
  let minimumSize : number := getMinOrderSize v (pair trade) in
  inherits (pair trade) = false ->
  adjustedAmount (validateTrade v trade) = Some adjusted ->
  (minimumSize <= adjusted)%num
  /\ ((amount trade < minimumSize)%num /\ adjusted = minimumSize
      \/
      side trade = sell
      /\ adjusted = Math_max (baseBalance v (parsePair (pair trade)).1 * Num 0.95)%num minimumSize
      /\ (adjusted <= amount trade)%num).
Proof.
  intros v minimumSize Hpair Hadj.
  destruct (getMinOrderSize_new balances prices (pair trade) Hpair) as (_ & m & Hm & Hmpos).
  fold v in Hm.
  assert (Hmin : minimumSize = Num m) by (unfold minimumSize; by rewrite Hm).
  destruct (adjustedAmount_inv v trade adjusted Hadj) as (Hpos & [(Hlt & ->)|(Hge & Hside & Hheld & ->)]).
  - fold minimumSize in Hlt |- *. split; [|by left].
    rewrite Hmin. apply leb_Num. apply Qle_refl.
  - fold minimumSize in Hge |- *.
    destruct (ltb_true_inv _ _ Hheld) as (h & a & Hh & Ha & Hha).
    rewrite Hh, Ha, Hmin in *.
    apply ltb_Num_false in Hge. apply leb_Num_false in Hpos.
    cbn [mul].
    destruct (Math_max_Num (Qred (h * 0.95)) m) as (c & -> & Hmc & Hhc & Hc).
    split; [by apply leb_Num|]. right. repeat split; [done|].
    apply leb_Num. destruct Hc as [Hc|Hc]; rewrite Hc; [|done].
    rewrite Qred_correct. lra.
Qed.

(** C6 as amended.  For a buy whose amount is positive and at least the
    minimum size read for the pair (there is none for a pair named like a
    member of [Object.prototype]), the estimated cost is [price × amount]
    when a non-zero price is given and [oracle price of the base × amount]
    otherwise; when the portfolio value is below the cost, the verdict is
    invalid and reports the cost as required and the portfolio value as
    available.  The portfolio value is the sum, over the assets with a
    positive balance, taken in order, of balance × price, a price that is
    missing being 1, provided no such asset is named like a member of
    [Object.prototype].  With balances [{ZUSD: "1000.00"}] and the default
    prices, buying 0.5 ETH/USD at 2500 is invalid with 1250 required and
    1000 available. *)
Theorem validateTrade_buy_insufficient_portfolio :
  (forall (balances : Balances) (prices : option (gmap string number)) (trade : TradeRequest),
     let v := new balances prices in
     let cost := estimatedCost v trade (parsePair (pair trade)).1 in
     let portfolio := getTotalPortfolioValueInUsd v in
     side trade = buy ->
     (Num 0 < amount trade)%num ->
     (getMinOrderSize v (pair trade) <= amount trade)%num ->
     (portfolio < cost)%num ->
     inherits (pair trade) = false
     /\ isValid (validateTrade v trade) = false
     /\ requiredBalance (validateTrade v trade) = Some cost
     /\ availableBalance (validateTrade v trade) = Some portfolio)
  /\
  (forall (v : t) (trade : TradeRequest) (base : string),
     match price trade with
     | Some p =>
         if truthy p then estimatedCost v trade base = (p * amount trade)%num
         else estimatedCost v trade base = (getEstimatedPrice v base * amount trade)%num
     | None => estimatedCost v trade base = (getEstimatedPrice v base * amount trade)%num
     end)
  /\
  (forall v : t,
     (forall e, e ∈ heldAssets (balances v) -> inherits e.1 = false) ->
     getTotalPortfolioValueInUsd v = portfolioValueInUsd (balances v) (cryptoPrices v))
  /\
  ((parseFloat "1000.00" == Num 1000)%num ->
   let verdict :=
     validateTrade (new [("ZUSD", "1000.00")] None)
       {| pair := "ETH/USD"; side := buy; amount := Num 0.5; price := Some (Num 2500) |} in
   isValid verdict = false
   /\ requiredBalance verdict = Some (Num 1250)
   /\ availableBalance verdict = Some (Num 1000)).
Proof.
  assert (General : forall balances prices trade,
     let v := new balances prices in
     let cost := estimatedCost v trade (parsePair (pair trade)).1 in
     let portfolio := getTotalPortfolioValueInUsd v in
     side trade = buy ->
     (Num 0 < amount trade)%num ->
     (getMinOrderSize v (pair trade) <= amount trade)%num ->
     (portfolio < cost)%num ->
     inherits (pair trade) = false
     /\ isValid (validateTrade v trade) = false
     /\ requiredBalance (validateTrade v trade) = Some cost
     /\ availableBalance (validateTrade v trade) = Some portfolio).
  { intros balances prices trade v cost portfolio Hside Hpos Hmin Hlt. split.
    { destruct (leb_true_inv _ _ Hmin) as (m & a & Hm & _ & _).
      by destruct (getMinOrderSize_Num balances prices (pair trade) m Hm) as (_ & _ & Hpair). }
    rewrite (validateTrade_buy_insufficient v trade Hside).
    - done.
    - by apply positive_not_le_zero.
    - by apply le_not_lt.
    - exact Hlt. }
  split; [exact General|]. split.
  { intros v trade base. unfold estimatedCost.
    destruct (price trade) as [p|]; [destruct (truthy p)|]; apply mul_comm. }
  split; [apply getTotalPortfolioValueInUsd_spec|].
  intros Hparse verdict.
  destruct (parseFloat "1000.00") as [|q] eqn:Hq; [done|]. simpl in Hparse.
  assert (Hportfolio : getTotalPortfolioValueInUsd (new [("ZUSD", "1000.00")] None) = Num 1000).
  { change (getTotalPortfolioValueInUsd (new [("ZUSD", "1000.00")] None))
      with (if (parseFloat "1000.00" >? Num 0)%num
            then (Num 0 + parseFloat "1000.00" * Num 1)%num else Num 0).
    rewrite Hq.
    assert (Hheld : (Num q >? Num 0)%num = true).
    { apply ltb_Num. rewrite Hparse. reflexivity. }
    rewrite Hheld. simpl. f_equal.
    change 1000%Q with (Qred (0 + Qred (1000 * 1))).
    apply Qred_complete. rewrite !Qred_correct, Hparse. reflexivity. }
  destruct (General [("ZUSD", "1000.00")] None
              {| pair := "ETH/USD"; side := buy; amount := Num 0.5; price := Some (Num 2500) |})
    as (_ & Hvalid & Hrequired & Havailable).
  - reflexivity.
  - reflexivity.
  - reflexivity.
  - rewrite Hportfolio. reflexivity.
  - unfold verdict. rewrite Hvalid, Hrequired, Havailable, Hportfolio. done.
Qed.

End ValidatorClaims.

Lemma validateTrade_minimum_size_floor_witness :
  let trade := {| TradeValidator.pair := "BTC/USD"; TradeValidator.side := TradeValidator.buy;
                  TradeValidator.amount := Num 0.00005; TradeValidator.price := None |} in
  let v := TradeValidator.new [] None in
  TradeValidator.isValid (TradeValidator.validateTrade (rt:=Reference.runtime) v trade) = false
  /\ TradeValidator.adjustedAmount (TradeValidator.validateTrade (rt:=Reference.runtime) v trade)
     = Some (Num 0.0001).
Proof.
  apply (validateTrade_minimum_size_floor (rt:=Reference.runtime) [] None
           {| TradeValidator.pair := "BTC/USD"; TradeValidator.side := TradeValidator.buy;
              TradeValidator.amount := Num 0.00005; TradeValidator.price := None |});
    reflexivity.
Defined.

Lemma validateTrade_sell_insufficient_balance_witness :
  (Reference.parseFloat "0.02" == Num 0.02)%num
  /\ let verdict :=
       TradeValidator.validateTrade (rt:=Reference.runtime)
         (TradeValidator.new [("XXBT", "0.02")] None)
         {| TradeValidator.pair := "XBTUSD"; TradeValidator.side := TradeValidator.sell;
            TradeValidator.amount := Num 0.05; TradeValidator.price := None |} in
     TradeValidator.isValid verdict = false
     /\ TradeValidator.adjustedAmount verdict = Some (Num 0.019).
Proof.
  split; [reflexivity|].
  apply (proj2 (validateTrade_sell_insufficient_balance (rt:=Reference.runtime))).
  reflexivity.
Defined.

(** The adjustment offered for an amount below the minimum is above the
    amount: at 0.00005 BTC/USD the verdict offers 0.0001. *)
Lemma adjustedAmount_above_amount :
  let trade := {| TradeValidator.pair := "BTC/USD"; TradeValidator.side := TradeValidator.buy;
                  TradeValidator.amount := Num 0.00005; TradeValidator.price := None |} in
  let verdict :=
    TradeValidator.validateTrade (rt:=Reference.runtime) (TradeValidator.new [] None) trade in
  TradeValidator.adjustedAmount verdict = Some (Num 0.0001)
  /\ ~ (Num 0.0001 < TradeValidator.amount trade)%num.
Proof.
  split; [reflexivity|]. discriminate.
Qed.

(** Nor is the adjustment of a sell always strictly below the amount: with
    nothing held, selling exactly the minimum offers the amount again. *)
Example adjustedAmount_equal_to_amount :
  let trade := {| TradeValidator.pair := "XBTUSD"; TradeValidator.side := TradeValidator.sell;
                  TradeValidator.amount := Num 0.0001; TradeValidator.price := None |} in
  TradeValidator.adjustedAmount
    (TradeValidator.validateTrade (rt:=Reference.runtime) (TradeValidator.new [] None) trade)
  = Some (TradeValidator.amount trade).
Proof. reflexivity. Qed.

Lemma adjustedAmount_bounds_witness :
  let trade := {| TradeValidator.pair := "XBTUSD"; TradeValidator.side := TradeValidator.sell;
                  TradeValidator.amount := Num 0.05; TradeValidator.price := None |} in
  let v := TradeValidator.new [("XXBT", "0.02")] None in
  (TradeValidator.getMinOrderSize v "XBTUSD" <= Num 0.019)%num
  /\ ((Num 0.05 < TradeValidator.getMinOrderSize v "XBTUSD")%num
        /\ Num 0.019 = TradeValidator.getMinOrderSize v "XBTUSD"
      \/
      TradeValidator.sell = TradeValidator.sell
      /\ Num 0.019
         = Math_max (TradeValidator.baseBalance (rt:=Reference.runtime) v "XXBT" * Num 0.95)%num
                    (TradeValidator.getMinOrderSize v "XBTUSD")
      /\ (Num 0.019 <= Num 0.05)%num).
Proof.
  apply (adjustedAmount_bounds (rt:=Reference.runtime) [("XXBT", "0.02")] None
           {| TradeValidator.pair := "XBTUSD"; TradeValidator.side := TradeValidator.sell;
              TradeValidator.amount := Num 0.05; TradeValidator.price := None |}
           (Num 0.019)); reflexivity.
Defined.

(** For a pair named like a member of [Object.prototype] the adjustment of a
    sell is not a number: with 0.5 held under the name ["toString"], selling
    1 of ["toString"] offers [Math.max(0.475, minSize)], which is [NaN], and
    [NaN] is not at least any minimum. *)
Example adjustedAmount_NaN_for_inherited_pair :
  let v := TradeValidator.new [("toString", "0.5")] None in
  let trade := {| TradeValidator.pair := "toString"; TradeValidator.side := TradeValidator.sell;
                  TradeValidator.amount := Num 1; TradeValidator.price := None |} in
  let verdict := TradeValidator.validateTrade (rt:=Reference.runtime) v trade in
  TradeValidator.isValid verdict = false
  /\ TradeValidator.adjustedAmount verdict = Some NaN
  /\ (TradeValidator.getMinOrderSize v "toString" <=? NaN)%num = false.
Proof. repeat split. Qed.

Lemma validateTrade_buy_insufficient_portfolio_witness :
  (Reference.parseFloat "1000.00" == Num 1000)%num
  /\ let verdict :=
       TradeValidator.validateTrade (rt:=Reference.runtime)
         (TradeValidator.new [("ZUSD", "1000.00")] None)
         {| TradeValidator.pair := "ETH/USD"; TradeValidator.side := TradeValidator.buy;
            TradeValidator.amount := Num 0.5; TradeValidator.price := Some (Num 2500) |} in
     TradeValidator.isValid verdict = false
     /\ TradeValidator.requiredBalance verdict = Some (Num 1250)
     /\ TradeValidator.availableBalance verdict = Some (Num 1000).
Proof.
  split; [reflexivity|].
  apply (proj2 (proj2 (proj2
           (validateTrade_buy_insufficient_portfolio (rt:=Reference.runtime))))).
  reflexivity.
Defined.

(** A buy below the minimum size is rejected at step 2, before any cost is
    compared: 0.00005 BTC/USD at the default price of 45000 costs 2.25,
    more than a portfolio of 1 USD, and yet the verdict reports neither. *)
Lemma buy_below_minimum_reports_no_balance :
  let v := TradeValidator.new [("ZUSD", "1.00")] None in
  let trade := {| TradeValidator.pair := "BTC/USD"; TradeValidator.side := TradeValidator.buy;
                  TradeValidator.amount := Num 0.00005; TradeValidator.price := None |} in
  let verdict := TradeValidator.validateTrade (rt:=Reference.runtime) v trade in
  (TradeValidator.estimatedCost v trade "XXBT" == Num 2.25)%num
  /\ (TradeValidator.getTotalPortfolioValueInUsd (rt:=Reference.runtime) v == Num 1)%num
  /\ (TradeValidator.getTotalPortfolioValueInUsd (rt:=Reference.runtime) v
      < TradeValidator.estimatedCost v trade "XXBT")%num
  /\ TradeValidator.isValid verdict = false
  /\ TradeValidator.requiredBalance verdict = None
  /\ TradeValidator.availableBalance verdict = None.
Proof. repeat split; reflexivity. Qed.


(** Nor is a buy of a pair named like a member of [Object.prototype] ever
    refused for its cost: the price of the base reads as [NaN], and so does
    the cost. *)
Example inherited_pair_buy_is_accepted :
  let v := TradeValidator.new [] None in
  let trade := {| TradeValidator.pair := "toString"; TradeValidator.side := TradeValidator.buy;
                  TradeValidator.amount := Num 1; TradeValidator.price := None |} in
  TradeValidator.getEstimatedPrice v "toString" = inherited "toString"
  /\ TradeValidator.estimatedCost v trade "toString" = NaN
  /\ TradeValidator.getTotalPortfolioValueInUsd (rt:=Reference.runtime) v = Num 0
  /\ TradeValidator.isValid (TradeValidator.validateTrade (rt:=Reference.runtime) v trade) = true.
Proof. repeat split. Qed.

(** A price of 0 counts as no price: the cost is taken from the oracle. *)
Example zero_price_counts_as_absent :
  let v := TradeValidator.new [("ZUSD", "1000.00")] None in
  let trade := {| TradeValidator.pair := "BTC/USD"; TradeValidator.side := TradeValidator.buy;
                  TradeValidator.amount := Num 0.01;
                  TradeValidator.price := Some (Num 0) |} in
  (TradeValidator.estimatedCost v trade "XXBT" == Num 450)%num
  /\ TradeValidator.isValid (TradeValidator.validateTrade (rt:=Reference.runtime) v trade) = true.
Proof. split; reflexivity. Qed.

(** Buying 0 BTC/USD is invalid and nothing is offered instead. *)
Example zero_amount_rejected :
  TradeValidator.validateTrade (rt:=Reference.runtime) (TradeValidator.new [] None)
    {| TradeValidator.pair := "BTC/USD"; TradeValidator.side := TradeValidator.buy;
       TradeValidator.amount := Num 0; TradeValidator.price := None |}
  = {| TradeValidator.isValid := false;
       TradeValidator.error := Some "Trade amount must be positive";
       TradeValidator.adjustedAmount := None;
       TradeValidator.requiredBalance := None;
       TradeValidator.availableBalance := None |}.
Proof. reflexivity. Qed.

(** ** Runs of the service *)

Section Runs.
Import KrakenService.

Lemma run_bind {A B : Type} (m : M A) (f : A -> M B) (env : Env) (w : World) :
  (m ≫= f) env w =
  match m env w with
  | (Returned a, w') => f a env w'
  | (Thrown e, w') => (Thrown e, w')
  end.
Proof. reflexivity. Qed.

Lemma run_try_catch {A : Type} (body : M A) (handler : string -> M A) (env : Env) (w : World) :
  try_catch body handler env w =
  match body env w with
  | (Returned a, w') => (Returned a, w')
  | (Thrown e, w') => handler e env w'
  end.
Proof. reflexivity. Qed.

(** Sequencing: [R1] for the first part, [R2] for the rest, [R3] overall. *)
Lemma Step_bind (R1 R2 R3 : relation World) {A B : Type} (m : M A) (f : A -> M B) :
  (forall a b, R1 a b -> R3 a b) ->
  (forall a b c, R1 a b -> R2 b c -> R3 a c) ->
  Step R1 m -> (forall x, Step R2 (f x)) -> Step R3 (m ≫= f).
Proof.
  intros Hthrow Hcomp Hm Hf env w. rewrite run_bind.
  specialize (Hm env w). destruct (m env w) as [[a|e] w1]; simpl in *.
  - eapply Hcomp; [exact Hm|apply Hf].
  - by apply Hthrow.
Qed.

Lemma Step_try_catch (R1 R2 R3 : relation World) {A : Type} (body : M A)
    (handler : string -> M A) :
  (forall a b, R1 a b -> R3 a b) ->
  (forall a b c, R1 a b -> R2 b c -> R3 a c) ->
  Step R1 body -> (forall e, Step R2 (handler e)) -> Step R3 (try_catch body handler).
Proof.
  intros Hret Hcomp Hm Hh env w. rewrite run_try_catch.
  specialize (Hm env w). destruct (body env w) as [[a|e] w1]; simpl in *.
  - by apply Hret.
  - eapply Hcomp; [exact Hm|apply Hh].
Qed.

Section Preorders.
Context (R : relation World) `{!PreOrder R}.

Lemma Step_ret {A : Type} (a : A) : Step R (mret a).
Proof. intros env w. simpl. reflexivity. Qed.

Lemma Step_throw {A : Type} (e : string) : Step R (@throw A e).
Proof. intros env w. simpl. reflexivity. Qed.

Lemma Step_seq {A B : Type} (m : M A) (f : A -> M B) :
  Step R m -> (forall x, Step R (f x)) -> Step R (m ≫= f).
Proof.
  apply Step_bind; [done|]. intros a b c Hab Hbc. by etransitivity.
Qed.

Lemma Step_catch {A : Type} (body : M A) (handler : string -> M A) :
  Step R body -> (forall e, Step R (handler e)) -> Step R (try_catch body handler).
Proof.
  apply Step_try_catch; [done|]. intros a b c Hab Hbc. by etransitivity.
Qed.

End Preorders.

#[local] Instance no_submission_preorder : PreOrder no_submission.
Proof.
  split; [intros w; reflexivity|].
  intros a b c Hab Hbc. unfold no_submission in *. congruence.
Qed.

#[local] Instance same_heap_preorder : PreOrder same_heap.
Proof.
  split; [intros w; reflexivity|].
  intros a b c Hab Hbc. unfold same_heap in *. congruence.
Qed.

#[local] Instance volume_frame_preorder `{rt : JsRuntime} (order : loc) :
  PreOrder (volume_frame order).
Proof.
  split.
  - intros w. split; [done|]. destruct (heap w !! order); [|done].
    repeat split. by left.
  - intros a b c [Hab1 Hab2] [Hbc1 Hbc2]. split.
    + intros l Hl. rewrite Hbc1, Hab1 by done. done.
    + destruct (heap a !! order) as [oa|], (heap b !! order) as [ob|],
        (heap c !! order) as [oc|]; try done.
      destruct Hab2 as (? & ? & ? & ? & Hv1), Hbc2 as (? & ? & ? & ? & Hv2).
      repeat split; try congruence.
      destruct Hv2 as [Hv2|Hv2]; [|by right].
      rewrite Hv2. exact Hv1.
Qed.

Lemma same_heap_volume_frame `{rt : JsRuntime} (order : loc) (w w' : World) :
  same_heap w w' -> volume_frame order w w'.
Proof.
  unfold same_heap. intros Heq. split; [by rewrite Heq|].
  rewrite Heq. destruct (heap w !! order); [|done]. repeat split. by left.
Qed.

Lemma no_submission_at_most_one (w w' : World) :
  no_submission w w' -> at_most_one_submission w w'.
Proof. unfold no_submission, at_most_one_submission. lia. Qed.

Lemma no_submission_then_one (a b c : World) :
  no_submission a b -> at_most_one_submission b c -> at_most_one_submission a c.
Proof. unfold no_submission, at_most_one_submission. lia. Qed.

Lemma one_then_no_submission (a b c : World) :
  at_most_one_submission a b -> no_submission b c -> at_most_one_submission a c.
Proof. unfold no_submission, at_most_one_submission. lia. Qed.

#[local] Instance no_submission_insensitive : Insensitive no_submission.
Proof. intros w w' _ Htr. unfold no_submission. by rewrite Htr. Qed.

#[local] Instance same_heap_insensitive : Insensitive same_heap.
Proof. intros w w' Hheap _. exact Hheap. Qed.

#[local] Instance volume_frame_insensitive `{rt : JsRuntime} (order : loc) :
  Insensitive (volume_frame order).
Proof. intros w w' Hheap _. by apply same_heap_volume_frame. Qed.

Section Primitives.
Context (R : relation World) `{!Insensitive R}.

Lemma Step_this : Step R this.
Proof. intros env w. by apply insensitive. Qed.

Lemma Step_assign (f : t -> t) : Step R (assign f).
Proof. intros env w. by apply insensitive. Qed.

Lemma Step_Date_now : Step R Date_now.
Proof. intros env w. by apply insensitive. Qed.

Lemma Step_logError (ty : LogType) (msg : string) : Step R (logError ty msg).
Proof. intros env w. by apply insensitive. Qed.

Lemma Step_read (order : loc) : Step R (read order).
Proof.
  intros env w. unfold read. destruct (heap w !! order); by apply insensitive.
Qed.

End Primitives.

Lemma Step_remote_no_submission {A : Type} (ev : Event) (answer : Env -> list Event -> A) :
  is_submission ev = false -> Step no_submission (remote ev answer).
Proof.
  intros Hev env w. unfold no_submission, submissions. simpl. by rewrite Hev.
Qed.

Lemma Step_remote_at_most_one {A : Type} (ev : Event) (answer : Env -> list Event -> A) :
  Step at_most_one_submission (remote ev answer).
Proof.
  intros env w. unfold at_most_one_submission, submissions. simpl.
  destruct (is_submission ev); simpl; lia.
Qed.

Lemma Step_remote_same_heap {A : Type} (ev : Event) (answer : Env -> list Event -> A) :
  Step same_heap (remote ev answer).
Proof. intros env w. reflexivity. Qed.

Lemma Step_write_volume_no_submission (order : loc) (v : string) :
  Step no_submission (write_volume order v).
Proof.
  intros env w. unfold write_volume. destruct (heap w !! order); reflexivity.
Qed.

Lemma Step_write_volume_frame `{rt : JsRuntime} (order : loc) (a : number) :
  Step (volume_frame order) (write_volume order (Number_toString a)).
Proof.
  intros env w. unfold write_volume.
  destruct (heap w !! order) as [o|] eqn:Ho; [|reflexivity].
  unfold store, volume_frame. simpl. split.
  - intros l Hl. by rewrite lookup_insert_ne.
  - rewrite Ho, lookup_insert_eq. repeat split. right. by exists a.
Qed.

(** Walks through the binds, handlers and branches of a method body. *)
Ltac walk leaf :=
  repeat (intros;
    lazymatch goal with
    | |- Step _ (mbind _ _) => apply Step_seq; [typeclasses eauto| |]
    | |- Step _ (try_catch _ _) => apply Step_catch; [typeclasses eauto| |]
    | |- Step _ (mret _) => apply Step_ret; typeclasses eauto
    | |- Step _ (throw _) => apply Step_throw; typeclasses eauto
    | |- Step _ (if ?c then _ else _) => destruct c
    | |- Step _ (match ?x with _ => _ end) => destruct x
    | |- Step _ this => apply Step_this; typeclasses eauto
    | |- Step _ Date_now => apply Step_Date_now; typeclasses eauto
    | |- Step _ (assign _) => apply Step_assign; typeclasses eauto
    | |- Step _ (logError _ _) => apply Step_logError; typeclasses eauto
    | |- Step _ (read _) => apply Step_read; typeclasses eauto
    | |- _ => leaf
    end).

Lemma fetch_json_no_submission : Step no_submission fetch_json.
Proof.
  unfold fetch_json.
  walk ltac:(first [by apply Step_remote_no_submission]).
Qed.

Lemma fetch_json_same_heap : Step same_heap fetch_json.
Proof.
  unfold fetch_json. walk ltac:(first [apply Step_remote_same_heap]).
Qed.

Lemma initializeCryptoPrices_no_submission : Step no_submission initializeCryptoPrices.
Proof.
  unfold initializeCryptoPrices. walk ltac:(first [apply fetch_json_no_submission]).
Qed.

Lemma initializeCryptoPrices_same_heap : Step same_heap initializeCryptoPrices.
Proof.
  unfold initializeCryptoPrices. walk ltac:(first [apply fetch_json_same_heap]).
Qed.

Lemma updateCryptoPricesIfNeeded_no_submission : Step no_submission updateCryptoPricesIfNeeded.
Proof.
  unfold updateCryptoPricesIfNeeded.
  walk ltac:(first [apply initializeCryptoPrices_no_submission]).
Qed.

Lemma updateCryptoPricesIfNeeded_same_heap : Step same_heap updateCryptoPricesIfNeeded.
Proof.
  unfold updateCryptoPricesIfNeeded.
  walk ltac:(first [apply initializeCryptoPrices_same_heap]).
Qed.

Lemma invoke_same_heap {R : Type} (ev : Event) (answer : Env -> list Event -> InvokeReply R) :
  Step same_heap (invoke ev answer).
Proof.
  unfold invoke. walk ltac:(first [apply Step_remote_same_heap]).
Qed.

Lemma invoke_no_submission {R : Type} (ev : Event)
    (answer : Env -> list Event -> InvokeReply R) :
  is_submission ev = false -> Step no_submission (invoke ev answer).
Proof.
  intros Hev. unfold invoke. walk ltac:(first [by apply Step_remote_no_submission]).
Qed.

Lemma invoke_at_most_one {R : Type} (ev : Event)
    (answer : Env -> list Event -> InvokeReply R) :
  Step at_most_one_submission (invoke ev answer).
Proof.
  unfold invoke.
  eapply (Step_bind at_most_one_submission no_submission).
  - done.
  - apply one_then_no_submission.
  - apply Step_remote_at_most_one.
  - walk idtac.
Qed.

Lemma getAccountBalance_no_submission : Step no_submission getAccountBalance.
Proof.
  unfold getAccountBalance. walk ltac:(first [by apply invoke_no_submission]).
Qed.

Lemma getAccountBalance_same_heap : Step same_heap getAccountBalance.
Proof.
  unfold getAccountBalance. walk ltac:(first [apply invoke_same_heap]).
Qed.

Lemma placeOrder_same_heap (order : loc) : Step same_heap (placeOrder order).
Proof.
  unfold placeOrder. walk ltac:(first [apply invoke_same_heap]).
Qed.

Lemma Step_no_submission_weaken {A : Type} (m : M A) :
  Step no_submission m -> Step at_most_one_submission m.
Proof. intros Hm env w. apply no_submission_at_most_one, Hm. Qed.

Lemma Step_same_heap_weaken `{rt : JsRuntime} {A : Type} (order : loc) (m : M A) :
  Step same_heap m -> Step (volume_frame order) m.
Proof. intros Hm env w. apply same_heap_volume_frame, Hm. Qed.

(** A part that submits nothing, followed by one that submits at most once. *)
Ltac prefix leaf :=
  eapply (Step_bind no_submission at_most_one_submission at_most_one_submission);
  [ apply no_submission_at_most_one
  | apply no_submission_then_one
  | walk leaf
  | intros ].

Lemma placeOrder_at_most_one (order : loc) : Step at_most_one_submission (placeOrder order).
Proof.
  unfold placeOrder.
  eapply (Step_try_catch at_most_one_submission no_submission);
    [done|apply one_then_no_submission| |walk idtac].
  do 3 prefix idtac.
  eapply (Step_bind at_most_one_submission no_submission);
    [done|apply one_then_no_submission|apply invoke_at_most_one|walk idtac].
Qed.

Section WithRuntime.
Context `{rt : JsRuntime}.

Lemma placeValidatedOrder_at_most_one (order : loc) :
  Step at_most_one_submission (placeValidatedOrder order).
Proof.
  unfold placeValidatedOrder.
  eapply (Step_try_catch at_most_one_submission no_submission);
    [done|apply one_then_no_submission| |walk idtac].
  do 6 prefix ltac:(first [ apply updateCryptoPricesIfNeeded_no_submission
                          | apply getAccountBalance_no_submission ]).
  cbv zeta.
  repeat (intros;
    lazymatch goal with
    | |- Step _ (placeOrder _) => apply placeOrder_at_most_one
    | |- Step _ (mret _) => apply Step_no_submission_weaken; walk idtac
    | |- Step _ (if ?c then _ else _) => destruct c
    | |- Step _ (match ?x with _ => _ end) => destruct x
    | |- Step _ (mbind _ _) => prefix ltac:(first [apply Step_write_volume_no_submission])
    end).
Qed.

Lemma placeValidatedOrder_volume_frame (order : loc) :
  Step (volume_frame order) (placeValidatedOrder order).
Proof.
  unfold placeValidatedOrder.
  walk ltac:(first
    [ apply Step_write_volume_frame
    | apply Step_same_heap_weaken;
      first [ apply updateCryptoPricesIfNeeded_same_heap
            | apply getAccountBalance_same_heap
            | apply placeOrder_same_heap ] ]).
Qed.

(** *** [placeValidatedOrder], case by case *)

Lemma bind_Returned_inv {A B : Type} (m : M A) (f : A -> M B) (env : Env) (w w' : World)
    (b : B) :
  (m ≫= f) env w = (Returned b, w') ->
  exists a w1, m env w = (Returned a, w1) /\ f a env w1 = (Returned b, w').
Proof.
  rewrite run_bind. destruct (m env w) as [[a|e] w1]; [|discriminate].
  intros Hf. by exists a, w1.
Qed.

Lemma read_Some (order : loc) (o : KrakenOrderRequest) (env : Env) (w : World) :
  heap w !! order = Some o -> read order env w = (Returned o, w).
Proof. intros Ho. unfold read. by rewrite Ho. Qed.

(** The caches are consulted first; the order object is not touched. *)
Lemma prepared_heap (env : Env) (w w1 : World) (balances : TradeValidator.Balances) :
  (updateCryptoPricesIfNeeded;; getAccountBalance) env w = (Returned balances, w1) ->
  heap w1 = heap w /\ submissions (trace w1) = submissions (trace w).
Proof.
  intros Hrun. split.
  - assert (Hs : Step same_heap (updateCryptoPricesIfNeeded;; getAccountBalance)).
    { walk ltac:(first [ apply updateCryptoPricesIfNeeded_same_heap
                       | apply getAccountBalance_same_heap ]). }
    specialize (Hs env w). by rewrite Hrun in Hs.
  - assert (Hs : Step no_submission (updateCryptoPricesIfNeeded;; getAccountBalance)).
    { walk ltac:(first [ apply updateCryptoPricesIfNeeded_no_submission
                       | apply getAccountBalance_no_submission ]). }
    specialize (Hs env w). by rewrite Hrun in Hs.
Qed.

(** The run of [placeValidatedOrder] once the balances are there. *)
Lemma placeValidatedOrder_prepared (order : loc) (o : KrakenOrderRequest) (env : Env)
    (w w1 : World) (balances : TradeValidator.Balances) :
  heap w !! order = Some o ->
  (updateCryptoPricesIfNeeded;; getAccountBalance) env (log_line log_info (placing o) w)
    = (Returned balances, w1) ->
  let validator := TradeValidator.new balances (Some (cryptoPrices (service w1))) in
  let validation :=
    TradeValidator.validateTrade validator (request_of o (parseFloat (volume o))) in
  let rejected := log_line log_warning "Trade validation failed" w1 in
  placeValidatedOrder order env w =
  if TradeValidator.isValid validation then settle (placeOrder order env w1)
  else
    match TradeValidator.adjustedAmount validation with
    | Some adjusted =>
        if truthy adjusted && (adjusted >? Num 0)%num then
          let adjusting :=
            store order (with_volume (Number_toString adjusted) o)
              (log_line log_info
                 ("Adjusting trade amount from " +:+ volume o +:+ " to "
                  +:+ Number_toString adjusted) rejected) in
          if TradeValidator.isValid
               (TradeValidator.validateTrade validator (request_of o adjusted))
          then settle (placeOrder order env adjusting)
          else (Returned (validation_failed validation),
                log_line log_error "Trade still invalid after adjustment" adjusting)
        else (Returned (validation_failed validation), rejected)
    | None => (Returned (validation_failed validation), rejected)
    end.
Proof.
  intros Ho Hprep validator validation rejected.
  destruct (prepared_heap _ _ _ _ Hprep) as [Hheap _].
  assert (Ho1 : heap w1 !! order = Some o) by (by rewrite Hheap).
  apply bind_Returned_inv in Hprep as ([] & w' & Hupd & Hbal).
  unfold placeValidatedOrder.
  rewrite run_try_catch, run_bind, (read_Some _ _ _ _ Ho), run_bind.
  change (logError log_info _ env w) with (Returned tt, log_line log_info (placing o) w).
  cbv beta iota. rewrite run_bind, Hupd. cbv beta iota.
  rewrite run_bind, Hbal. cbv beta iota.
  rewrite run_bind. change (this env w1) with (Returned (service w1), w1). cbv beta iota.
  rewrite run_bind, (read_Some _ _ _ _ Ho1). cbv beta iota zeta.
  fold (request_of o (parseFloat (volume o))). fold validator. fold validation.
  destruct (TradeValidator.isValid validation); cbn [negb]; cbv iota.
  { unfold settle. by destruct (placeOrder order env w1) as [[r|e] w2]. }
  rewrite run_bind.
  change (logError log_warning _ env w1) with (Returned tt, rejected). cbv beta iota.
  destruct (TradeValidator.adjustedAmount validation) as [adjusted|]; [|reflexivity].
  destruct (truthy adjusted && (adjusted >? Num 0)%num); [|reflexivity].
  rewrite run_bind.
  set (adjusting0 := log_line log_info _ rejected).
  change (logError log_info _ env rejected) with (Returned tt, adjusting0). cbv beta iota.
  assert (Ho2 : heap adjusting0 !! order = Some o) by exact Ho1.
  rewrite run_bind. unfold write_volume at 1. rewrite Ho2. cbv beta iota.
  set (adjusting := store order _ adjusting0).
  assert (Ho3 : heap adjusting !! order = Some (with_volume (Number_toString adjusted) o)).
  { unfold adjusting, store. simpl. apply lookup_insert_eq. }
  rewrite run_bind, (read_Some _ _ _ _ Ho3). cbv beta iota zeta.
  change (TradeValidator.validateTrade validator _)
    with (TradeValidator.validateTrade validator (request_of o adjusted)).
  destruct (TradeValidator.isValid _); cbn [negb]; cbv iota.
  { unfold settle. by destruct (placeOrder order env adjusting) as [[r|e] w2]. }
  reflexivity.
Qed.

End WithRuntime.

(** *** The balance cache *)

Ltac run_all :=
  unfold try_catch, invoke, remote, logError, throw, assign, this, Date_now, read,
    mbind, M_bind, mret, M_ret.

Lemma getAccountBalance_cached (env : Env) (w : World) :
  balance_cache_fresh w = true ->
  getAccountBalance env w = (Returned (cachedBalances (service w)), w).
Proof.
  unfold balance_cache_fresh, getAccountBalance. run_all. intros ->. reflexivity.
Qed.

Lemma getAccountBalance_fetches (env : Env) (w : World) :
  balance_cache_fresh w = false ->
  trace (getAccountBalance env w).2
  = InvokeGetBalance (apiKey (service w)) (apiSecret (service w)) :: trace w.
Proof.
  unfold balance_cache_fresh, getAccountBalance. run_all. intros ->. simpl.
  destruct (getBalanceReply env _) as [msg|[e|] [[[[|k l]|] [b|]]|]]; reflexivity.
Qed.

Lemma getAccountBalance_fetched (env : Env) (w w1 : World)
    (balances : TradeValidator.Balances) :
  balance_cache_fresh w = false ->
  getAccountBalance env w = (Returned balances, w1) ->
  cachedBalances (service w1) = balances
  /\ lastBalanceUpdate (service w1) = clock w
  /\ balanceUpdateInterval (service w1) = balanceUpdateInterval (service w).
Proof.
  unfold balance_cache_fresh, getAccountBalance. run_all. intros ->. simpl.
  destruct (getBalanceReply env _) as [msg|[e|] [[[[|k l]|] [b|]]|]]; simpl;
    intros [= <- <-]; done.
Qed.

Lemma balanceFetches_cons (ev : Event) (tr : list Event) :
  is_balance_fetch ev = true -> balanceFetches (ev :: tr) = S (balanceFetches tr).
Proof. intros Hev. unfold balanceFetches. simpl. by rewrite Hev. Qed.

(** *** [placeOrder] *)

Lemma placeOrder_returned (order : loc) (env : Env) (w w1 : World)
    (response : KrakenOrderResponse) :
  placeOrder order env w = (Returned response, w1) ->
  lastBalanceUpdate (service w1) = 0%Z
  /\ balanceUpdateInterval (service w1) = balanceUpdateInterval (service w)
  /\ is_Some (result response)
  /\ exists o, heap w !! order = Some o
       /\ trace w1 = InvokePlaceOrder (apiKey (service w)) (apiSecret (service w)) o :: trace w.
Proof.
  unfold placeOrder. run_all. simpl.
  destruct (heap w !! order) as [o|]; [|discriminate]. simpl.
  destruct (placeOrderReply env _) as [msg|[e|] [[[[|k l]|] [r|]]|]]; simpl;
    intros [= <- <-]; simpl; eauto 10.
Qed.

(** The gateway reports a business error: the text is matched against the
    known phrases and the message of the first match is thrown. *)
Lemma placeOrder_gateway_error (order : loc) (o : KrakenOrderRequest) (env : Env) (w : World)
    (krakenError : string) (others : list string) (res : option OrderResult) :
  heap w !! order = Some o ->
  placeOrderReply env
    (InvokePlaceOrder (apiKey (service w)) (apiSecret (service w)) o :: trace w)
  = InvokeResolved None (Some {| error := Some (krakenError :: others); result := res |}) ->
  exists w1, placeOrder order env w = (Thrown (orderErrorMessage krakenError), w1)
             /\ service w1 = service w /\ heap w1 = heap w.
Proof.
  intros Ho Hreply. unfold placeOrder. run_all. simpl. rewrite Ho. simpl.
  rewrite Hreply. simpl. eauto.
Qed.

Section WithRuntime.
Context `{rt : JsRuntime}.

(** A response that carries a result comes from a submission. *)
Lemma placeValidatedOrder_submitted (order : loc) (env : Env) (w w1 : World)
    (response : KrakenOrderResponse) :
  placeValidatedOrder order env w = (Returned response, w1) ->
  is_Some (result response) ->
  exists w0, placeOrder order env w0 = (Returned response, w1).
Proof.
  unfold placeValidatedOrder. rewrite run_try_catch.
  match goal with |- context [let (_, _) := ?body env w in _] =>
    destruct (body env w) as [[r|e] w2] eqn:Hbody
  end.
  2:{ intros [= <- <-] [? Hres]. discriminate. }
  intros [= -> ->] Hres.
  apply bind_Returned_inv in Hbody as (o & wa & _ & Hbody).
  apply bind_Returned_inv in Hbody as ([] & wb & _ & Hbody).
  apply bind_Returned_inv in Hbody as ([] & wc & _ & Hbody).
  apply bind_Returned_inv in Hbody as (balances & wd & _ & Hbody).
  apply bind_Returned_inv in Hbody as (s & we & _ & Hbody).
  apply bind_Returned_inv in Hbody as (o' & wf & _ & Hbody).
  cbv zeta in Hbody.
  destruct (negb _); [|by eexists].
  apply bind_Returned_inv in Hbody as ([] & wg & _ & Hbody).
  destruct (TradeValidator.adjustedAmount _) as [adjusted|].
  2:{ injection Hbody as <- <-. destruct Hres as [? Hres]. discriminate. }
  destruct (truthy adjusted && _).
  2:{ injection Hbody as <- <-. destruct Hres as [? Hres]. discriminate. }
  apply bind_Returned_inv in Hbody as ([] & wh & _ & Hbody).
  apply bind_Returned_inv in Hbody as ([] & wi & _ & Hbody).
  apply bind_Returned_inv in Hbody as (o'' & wj & _ & Hbody).
  destruct (negb _); [|by eexists].
  apply bind_Returned_inv in Hbody as ([] & wk & _ & Hbody).
  injection Hbody as <- <-. destruct Hres as [? Hres]. discriminate.
Qed.

Lemma settle_heap (run : Outcome KrakenOrderResponse * World) : heap (settle run).2 = heap run.2.
Proof. by destruct run as [[r|e] w]. Qed.

End WithRuntime.

(** *** The price cache *)

Lemma initializeCryptoPrices_failed (env : Env) (w : World) (msg : string) :
  priceFeed env (FetchPrices priceUrl :: trace w) = FeedFailed msg ->
  initializeCryptoPrices env w
  = (Returned tt,
     update (set_cryptoPrices fallbackPrices)
       (log_line log_warning "Failed to fetch crypto prices, using fallback values"
          (called env (FetchPrices priceUrl) w))).
Proof.
  intros Hfeed. unfold initializeCryptoPrices, fetch_json. run_all. simpl.
  rewrite Hfeed. reflexivity.
Qed.

Lemma initializeCryptoPrices_fetches (env : Env) (w : World) :
  trace (initializeCryptoPrices env w).2 = FetchPrices priceUrl :: trace w.
Proof.
  unfold initializeCryptoPrices, fetch_json. run_all. simpl.
  destruct (priceFeed env _); reflexivity.
Qed.

Lemma updateCryptoPricesIfNeeded_stale (env : Env) (w : World) :
  price_cache_stale w = true ->
  updateCryptoPricesIfNeeded env w = initializeCryptoPrices env w.
Proof.
  unfold price_cache_stale, updateCryptoPricesIfNeeded. run_all.
  cbv beta iota. intros ->. reflexivity.
Qed.

Lemma updateCryptoPricesIfNeeded_fresh (env : Env) (w : World) :
  price_cache_stale w = false ->
  updateCryptoPricesIfNeeded env w = (Returned tt, w).
Proof.
  unfold price_cache_stale, updateCryptoPricesIfNeeded. run_all.
  cbv beta iota. intros ->. reflexivity.
Qed.

Lemma priceFetches_cons (ev : Event) (tr : list Event) :
  is_price_fetch ev = true -> priceFetches (ev :: tr) = S (priceFetches tr).
Proof. intros Hev. unfold priceFetches. simpl. by rewrite Hev. Qed.

(** *** Failures, shapes and settings *)

Lemma placeOrder_thrown (order : loc) (env : Env) (w w1 : World) (msg : string) :
  placeOrder order env w = (Thrown msg, w1) ->
  service w1 = service w /\ heap w1 = heap w.
Proof.
  unfold placeOrder. run_all. simpl.
  destruct (heap w !! order) as [o|]; simpl; [|by intros [= <- <-]].
  destruct (placeOrderReply env _) as [m|[e|] [[[[|k l]|] [r|]]|]]; simpl;
    intros [= <- <-]; done.
Qed.

Lemma placeOrder_returned_error (order : loc) (env : Env) (w w1 : World)
    (response : KrakenOrderResponse) :
  placeOrder order env w = (Returned response, w1) ->
  error response = None \/ error response = Some [].
Proof.
  unfold placeOrder. run_all. simpl.
  destruct (heap w !! order) as [o|]; [|discriminate]. simpl.
  destruct (placeOrderReply env _) as [m|[e|] [[[[|k l]|] [r|]]|]]; simpl;
    intros [= <- <-]; simpl; auto.
Qed.

Lemma placeOrder_submits (order : loc) (o : KrakenOrderRequest) (env : Env) (w : World) :
  heap w !! order = Some o ->
  trace (placeOrder order env w).2
  = InvokePlaceOrder (apiKey (service w)) (apiSecret (service w)) o :: trace w.
Proof.
  intros Ho. unfold placeOrder. run_all. simpl. rewrite Ho. simpl.
  destruct (placeOrderReply env _) as [m|[e|] [[[[|k l]|] [r|]]|]]; reflexivity.
Qed.

Lemma getAccountBalance_thrown (env : Env) (w w1 : World) (msg : string) :
  getAccountBalance env w = (Thrown msg, w1) ->
  service w1 = service w /\ heap w1 = heap w /\ balance_cache_fresh w = false.
Proof.
  unfold balance_cache_fresh, getAccountBalance. run_all.
  destruct (_ && _); [discriminate|]. simpl.
  destruct (getBalanceReply env _) as [m|[e|] [[[[|k l]|] [b|]]|]]; simpl;
    intros [= <- <-]; done.
Qed.

(** What [getAccountBalance] does with each answer of the gateway. *)
Lemma getAccountBalance_answer (env : Env) (w : World) :
  balance_cache_fresh w = false ->
  match getBalanceReply env
          (InvokeGetBalance (apiKey (service w)) (apiSecret (service w)) :: trace w) with
  | InvokeRejected msg => (getAccountBalance env w).1 = Thrown msg
  | InvokeResolved (Some e) _ =>
      (getAccountBalance env w).1
      = Thrown ("Function invocation failed: " +:+ or_string (message e) "Unknown error")
  | InvokeResolved None data =>
      match data ≫= KrakenService.error with
      | Some (krakenError :: _) =>
          (getAccountBalance env w).1 = Thrown (balanceErrorMessage krakenError)
      | _ =>
          match data ≫= KrakenService.result with
          | Some balances => (getAccountBalance env w).1 = Returned balances
          | None => (getAccountBalance env w).1 = Thrown "No balance data received from Kraken"
          end
      end
  end.
Proof.
  unfold balance_cache_fresh, getAccountBalance. run_all. intros ->. simpl.
  destruct (getBalanceReply env _) as [m|[e|] [[[[|k l]|] [b|]]|]]; reflexivity.
Qed.

#[local] Instance same_settings_preorder : PreOrder same_settings.
Proof.
  split; [by intros w|].
  intros a b c (? & ? & ? & ?) (? & ? & ? & ?). unfold same_settings. split_and!; congruence.
Qed.

Lemma Step_settings_quiet {A : Type} (m : M A) :
  (forall env w, service (m env w).2 = service w) -> Step same_settings m.
Proof. intros Hm env w. unfold same_settings. by rewrite Hm. Qed.

Ltac settings_leaf :=
  first
    [ apply Step_settings_quiet; intros env w; reflexivity
    | apply Step_settings_quiet; intros env w; unfold read, write_volume;
      destruct (heap w !! _); reflexivity
    | intros env w; by repeat split ].

Ltac walk_settings sub :=
  repeat (intros;
    lazymatch goal with
    | |- Step _ (mbind _ _) => apply Step_seq; [typeclasses eauto| |]
    | |- Step _ (try_catch _ _) => apply Step_catch; [typeclasses eauto| |]
    | |- Step _ (mret _) => apply Step_ret; typeclasses eauto
    | |- Step _ (throw _) => apply Step_throw; typeclasses eauto
    | |- Step _ (if ?c then _ else _) => destruct c
    | |- Step _ (match ?x with _ => _ end) => destruct x
    | |- _ => first [sub | settings_leaf]
    end).

Lemma initializeCryptoPrices_settings : Step same_settings initializeCryptoPrices.
Proof. unfold initializeCryptoPrices, fetch_json. walk_settings fail. Qed.

Lemma updateCryptoPricesIfNeeded_settings : Step same_settings updateCryptoPricesIfNeeded.
Proof.
  unfold updateCryptoPricesIfNeeded. walk_settings ltac:(apply initializeCryptoPrices_settings).
Qed.

Lemma getAccountBalance_settings : Step same_settings getAccountBalance.
Proof. unfold getAccountBalance, invoke. walk_settings fail. Qed.

Lemma placeOrder_settings (order : loc) : Step same_settings (placeOrder order).
Proof. unfold placeOrder, invoke. walk_settings fail. Qed.

Lemma testConnection_settings : Step same_settings testConnection.
Proof. unfold testConnection. walk_settings ltac:(apply getAccountBalance_settings). Qed.

Lemma placeValidatedOrder_settings `{rt : JsRuntime} (order : loc) :
  Step same_settings (placeValidatedOrder order).
Proof.
  unfold placeValidatedOrder.
  walk_settings ltac:(first [ apply updateCryptoPricesIfNeeded_settings
                            | apply getAccountBalance_settings
                            | apply placeOrder_settings ]).
Qed.

(** Where a response of [placeValidatedOrder] comes from. *)
Lemma placeValidatedOrder_returned `{rt : JsRuntime} (order : loc) (env : Env) (w w1 : World)
    (response : KrakenOrderResponse) :
  placeValidatedOrder order env w = (Returned response, w1) ->
  (exists w0, placeOrder order env w0 = (Returned response, w1))
  \/ exists msg, response = {| error := Some [msg]; result := None |}.
Proof.
  unfold placeValidatedOrder. rewrite run_try_catch.
  match goal with |- context [let (_, _) := ?body env w in _] =>
    destruct (body env w) as [[r|e] w2] eqn:Hbody
  end.
  2:{ intros [= <- <-]. right. by eexists. }
  intros [= -> ->].
  apply bind_Returned_inv in Hbody as (o & wa & _ & Hbody).
  apply bind_Returned_inv in Hbody as ([] & wb & _ & Hbody).
  apply bind_Returned_inv in Hbody as ([] & wc & _ & Hbody).
  apply bind_Returned_inv in Hbody as (balances & wd & _ & Hbody).
  apply bind_Returned_inv in Hbody as (s & we & _ & Hbody).
  apply bind_Returned_inv in Hbody as (o' & wf & _ & Hbody).
  cbv zeta in Hbody.
  destruct (negb _); [|left; by eexists].
  apply bind_Returned_inv in Hbody as ([] & wg & _ & Hbody).
  destruct (TradeValidator.adjustedAmount _) as [adjusted|].
  2:{ injection Hbody as <- <-. right. by eexists. }
  destruct (truthy adjusted && _).
  2:{ injection Hbody as <- <-. right. by eexists. }
  apply bind_Returned_inv in Hbody as ([] & wh & _ & Hbody).
  apply bind_Returned_inv in Hbody as ([] & wi & _ & Hbody).
  apply bind_Returned_inv in Hbody as (o'' & wj & _ & Hbody).
  destruct (negb _); [|left; by eexists].
  apply bind_Returned_inv in Hbody as ([] & wk & _ & Hbody).
  injection Hbody as <- <-. right. by eexists.
Qed.

Lemma placeValidatedOrder_returns `{rt : JsRuntime} (order : loc) (env : Env) (w : World) :
  exists response, (placeValidatedOrder order env w).1 = Returned response.
Proof.
  unfold placeValidatedOrder. rewrite run_try_catch.
  match goal with |- context [let (_, _) := ?body env w in _] =>
    destruct (body env w) as [[r|e] w2]
  end; by eexists.
Qed.

(** The balances cannot be had: nothing is submitted and the error is the
    answer. *)
Lemma placeValidatedOrder_unprepared `{rt : JsRuntime} (order : loc) (o : KrakenOrderRequest)
    (env : Env) (w w1 : World) (msg : string) :
  heap w !! order = Some o ->
  (updateCryptoPricesIfNeeded;; getAccountBalance) env (log_line log_info (placing o) w)
    = (Thrown msg, w1) ->
  placeValidatedOrder order env w
  = (Returned {| error := Some [msg]; result := None |},
     log_line log_error "Validated order placement failed" w1).
Proof.
  intros Ho Hprep. unfold placeValidatedOrder.
  rewrite run_try_catch, run_bind, (read_Some _ _ _ _ Ho), run_bind.
  change (logError log_info _ env w) with (Returned tt, log_line log_info (placing o) w).
  cbv beta iota. rewrite run_bind in Hprep. rewrite run_bind.
  destruct (updateCryptoPricesIfNeeded env _) as [[[]|e] wa].
  - rewrite run_bind, Hprep. reflexivity.
  - injection Hprep as -> ->. reflexivity.
Qed.

Lemma initializeCryptoPrices_succeeded (env : Env) (w : World) (data : PriceData) :
  priceFeed env (FetchPrices priceUrl :: trace w) = FeedJson data ->
  initializeCryptoPrices env w
  = (Returned tt,
     log_line log_info "Crypto prices updated successfully"
       (update (set_lastPriceUpdate (clock (called env (FetchPrices priceUrl) w)))
          (update (set_cryptoPrices (pricesOf data))
             (called env (FetchPrices priceUrl) w)))).
Proof.
  intros Hfeed. unfold initializeCryptoPrices, fetch_json. run_all. simpl.
  rewrite Hfeed. reflexivity.
Qed.

(** [testConnection] is [getAccountBalance] with the exception turned into
    [false]. *)
Lemma testConnection_run (env : Env) (w : World) :
  let started := log_line log_info "Testing Kraken connection..." w in
  testConnection env w
  = match getAccountBalance env started with
    | (Returned _, w1) =>
        (Returned true, log_line log_info "Kraken connection test successful" w1)
    | (Thrown _, w1) =>
        (Returned false, log_line log_error "Kraken connection test failed" w1)
    end.
Proof.
  intros started. unfold testConnection.
  rewrite run_try_catch, run_bind.
  change (logError log_info _ env w) with (Returned tt, started). cbv beta iota.
  rewrite run_bind. by destruct (getAccountBalance env started) as [[b|e] w1].
Qed.

Lemma getTradeValidator_run (env : Env) (w : World) :
  getTradeValidator env w
  = (Returned
       (match cachedBalances (service w) with
        | [] => None
        | _ :: _ =>
            Some (TradeValidator.new (cachedBalances (service w))
                    (Some (cryptoPrices (service w))))
        end), w).
Proof.
  unfold getTradeValidator. run_all. by destruct (cachedBalances (service w)).
Qed.

(** Consulting the caches touches no order object and submits nothing. *)
Lemma prepare_frame (env : Env) (w : World) :
  let run := (updateCryptoPricesIfNeeded;; getAccountBalance) env w in
  heap run.2 = heap w /\ submissions (trace run.2) = submissions (trace w).
Proof.
  split.
  - assert (Hs : Step same_heap (updateCryptoPricesIfNeeded;; getAccountBalance)).
    { walk ltac:(first [ apply updateCryptoPricesIfNeeded_same_heap
                       | apply getAccountBalance_same_heap ]). }
    apply Hs.
  - assert (Hs : Step no_submission (updateCryptoPricesIfNeeded;; getAccountBalance)).
    { walk ltac:(first [ apply updateCryptoPricesIfNeeded_no_submission
                       | apply getAccountBalance_no_submission ]). }
    apply Hs.
Qed.

End Runs.

(** ** Claims about the service *)

Section ServiceClaims.
Import KrakenService.
Context `{rt : JsRuntime}.

(** C4.  One invocation of [placeValidatedOrder] calls the gateway's order
    submission at most once.  When the amount was adjusted and the
    revalidation fails, the invocation returns the validation error without
    submitting anything, and the order keeps the first adjustment: there is
    no second cycle. *)
Theorem placeValidatedOrder_submits_at_most_once :
  (forall (order : loc) (env : Env) (w : World),
     (submissions (trace (placeValidatedOrder order env w).2)
      <= submissions (trace w) + 1)%nat)
  /\
  (forall (order : loc) (o : KrakenOrderRequest) (env : Env) (w w1 : World)
          (balances : TradeValidator.Balances) (adjusted : number),
     heap w !! order = Some o ->
     (updateCryptoPricesIfNeeded;; getAccountBalance) env (log_line log_info (placing o) w)
       = (Returned balances, w1) ->
     let validator := TradeValidator.new balances (Some (cryptoPrices (service w1))) in
     let validation :=
       TradeValidator.validateTrade validator (request_of o (parseFloat (volume o))) in
     TradeValidator.isValid validation = false ->
     TradeValidator.adjustedAmount validation = Some adjusted ->
     truthy adjusted && (adjusted >? Num 0)%num = true ->
     TradeValidator.isValid
       (TradeValidator.validateTrade validator (request_of o adjusted)) = false ->
     exists w',
       placeValidatedOrder order env w = (Returned (validation_failed validation), w')
       /\ submissions (trace w') = submissions (trace w)
       /\ heap w' !! order = Some (with_volume (Number_toString adjusted) o)).
Proof.
  split.
  - intros order env w. apply placeValidatedOrder_at_most_one.
  - intros order o env w w1 balances adjusted Ho Hprep validator validation
      Hinvalid Hadjusted Hpositive Hstill.
    rewrite (placeValidatedOrder_prepared order o env w w1 balances Ho Hprep).
    fold validator. fold validation. rewrite Hinvalid, Hadjusted, Hpositive.
    cbv zeta. rewrite Hstill.
    eexists. split; [reflexivity|].
    destruct (prepared_heap _ _ _ _ Hprep) as [_ Hsub].
    split; [exact Hsub|]. simpl. apply lookup_insert_eq.
Qed.

(** C5 as amended.  When the price feed fails, the fallback table is
    installed (BTC 45000, ETH 2500, XRP 0.6, LTC 100, ADA 0.5, DOT 7,
    USD 1) and the time of the last update stays what it was: the cache is
    not marked fresh, and a read at any time that is more than the refresh
    interval after that last update fetches from the feed again. *)
Theorem price_feed_failure_leaves_cache_stale
    (env : Env) (w : World) (msg : string) :
  priceFeed env (FetchPrices priceUrl :: trace w) = FeedFailed msg ->
  let w1 := (initializeCryptoPrices env w).2 in
  cryptoPrices (service w1) = fallbackPrices
  /\ (fallbackPrices !! "XXBT" = Some (Num 45000)
      /\ fallbackPrices !! "XETH" = Some (Num 2500)
      /\ fallbackPrices !! "XXRP" = Some (Num 0.6)
      /\ fallbackPrices !! "XLTC" = Some (Num 100)
      /\ fallbackPrices !! "ADA" = Some (Num 0.5)
      /\ fallbackPrices !! "DOT" = Some (Num 7)
      /\ fallbackPrices !! "ZUSD" = Some (Num 1))
  /\ lastPriceUpdate (service w1) = lastPriceUpdate (service w)
  /\ forall t : Z,
       (t - lastPriceUpdate (service w) > priceUpdateInterval (service w))%Z ->
       priceFetches (trace (updateCryptoPricesIfNeeded env (at_time t w1)).2)
       = S (priceFetches (trace w1)).
Proof.
  intros Hfeed w1. unfold w1. rewrite (initializeCryptoPrices_failed env w msg Hfeed).
  split; [reflexivity|]. split; [repeat split|]. split; [reflexivity|].
  intros t Hstale. rewrite updateCryptoPricesIfNeeded_stale.
  - rewrite initializeCryptoPrices_fetches. by apply priceFetches_cons.
  - unfold price_cache_stale. simpl. by apply Z.gtb_gt.
Qed.

(** C7.  A balance read that fetched and cached a non-empty answer, followed
    by a second read within the refresh interval, makes exactly one remote
    fetch in all.  A successful order submission resets the time of the
    last balance update, and the next balance read, at a clock value not
    below the refresh interval, fetches from the gateway. *)
Theorem balance_cache_freshness :
  (forall (env : Env) (w w1 : World) (balances : TradeValidator.Balances) (t2 : Z),
     balance_cache_fresh w = false ->
     getAccountBalance env w = (Returned balances, w1) ->
     balances <> [] ->
     (t2 - clock w < balanceUpdateInterval (service w))%Z ->
     let second := getAccountBalance env (at_time t2 w1) in
     second.1 = Returned balances
     /\ balanceFetches (trace second.2) = S (balanceFetches (trace w)))
  /\
  (forall (order : loc) (env : Env) (w w1 : World) (response : KrakenOrderResponse),
     placeOrder order env w = (Returned response, w1) ->
     lastBalanceUpdate (service w1) = 0%Z)
  /\
  (forall (order : loc) (env : Env) (w w1 : World) (response : KrakenOrderResponse),
     placeValidatedOrder order env w = (Returned response, w1) ->
     is_Some (result response) ->
     lastBalanceUpdate (service w1) = 0%Z)
  /\
  (forall (env : Env) (w : World) (t : Z),
     lastBalanceUpdate (service w) = 0%Z ->
     (balanceUpdateInterval (service w) <= t)%Z ->
     balanceFetches (trace (getAccountBalance env (at_time t w)).2)
     = S (balanceFetches (trace w))).
Proof.
  split; [|split; [|split]].
  - intros env w w1 balances t2 Hmiss Hfirst Hnonempty Hsoon second.
    destruct (getAccountBalance_fetched env w w1 balances Hmiss Hfirst) as (Hc & Hl & Hi).
    assert (Hfresh : balance_cache_fresh (at_time t2 w1) = true).
    { unfold balance_cache_fresh. simpl. rewrite Hc, Hl, Hi.
      apply andb_true_iff. split; [by apply Z.ltb_lt|].
      destruct balances; [done|reflexivity]. }
    unfold second. rewrite (getAccountBalance_cached _ _ Hfresh). simpl.
    split; [by rewrite Hc|].
    pose proof (getAccountBalance_fetches env w Hmiss) as Htr.
    rewrite Hfirst in Htr. simpl in Htr. rewrite Htr. by apply balanceFetches_cons.
  - intros order env w w1 response Hrun.
    by destruct (placeOrder_returned order env w w1 response Hrun) as (Hl & _).
  - intros order env w w1 response Hrun Hres.
    destruct (placeValidatedOrder_submitted order env w w1 response Hrun Hres) as (w0 & Hsub).
    by destruct (placeOrder_returned order env w0 w1 response Hsub) as (Hl & _).
  - intros env w t Hzero Hlate.
    rewrite getAccountBalance_fetches.
    + by apply balanceFetches_cons.
    + unfold balance_cache_fresh. simpl. rewrite Hzero, Z.sub_0_r.
      apply andb_false_iff. left. by apply Z.ltb_ge.
Qed.

(** C8 as amended.  [placeValidatedOrder] works on the caller's order
    object.  Its [pair], [type], [ordertype] and [price], and every other
    object, are as before the invocation; when the first validation fails
    with a positive [adjustedAmount], the [volume] of that same object is
    overwritten with the text of the adjusted amount, whether or not the
    order is submitted afterwards; otherwise the object is untouched. *)
Theorem placeValidatedOrder_rewrites_volume_in_place :
  (forall (order : loc) (env : Env) (w : World),
     volume_frame order w (placeValidatedOrder order env w).2)
  /\
  (forall (order : loc) (o : KrakenOrderRequest) (env : Env) (w w1 : World)
          (balances : TradeValidator.Balances),
     heap w !! order = Some o ->
     (updateCryptoPricesIfNeeded;; getAccountBalance) env (log_line log_info (placing o) w)
       = (Returned balances, w1) ->
     let validator := TradeValidator.new balances (Some (cryptoPrices (service w1))) in
     let validation :=
       TradeValidator.validateTrade validator (request_of o (parseFloat (volume o))) in
     let after := heap (placeValidatedOrder order env w).2 in
     match TradeValidator.adjustedAmount validation with
     | Some adjusted =>
         if negb (TradeValidator.isValid validation)
            && (truthy adjusted && (adjusted >? Num 0)%num)
         then after = <[order := with_volume (Number_toString adjusted) o]> (heap w)
         else after = heap w
     | None => after = heap w
     end).
Proof.
  split.
  - intros order env w. apply placeValidatedOrder_volume_frame.
  - intros order o env w w1 balances Ho Hprep validator validation after.
    unfold after.
    rewrite (placeValidatedOrder_prepared order o env w w1 balances Ho Hprep).
    fold validator. fold validation.
    destruct (prepared_heap _ _ _ _ Hprep) as [Hheap _]. simpl in Hheap.
    destruct (TradeValidator.isValid validation); simpl negb; cbv iota.
    { assert (Hsame : heap (settle (placeOrder order env w1)).2 = heap w).
      { rewrite settle_heap, <- Hheap. apply placeOrder_same_heap. }
      by destruct (TradeValidator.adjustedAmount validation). }
    destruct (TradeValidator.adjustedAmount validation) as [adjusted|]; [|exact Hheap].
    cbn [andb]. destruct (truthy adjusted && (adjusted >? Num 0)%num); [|exact Hheap].
    cbv zeta.
    destruct (TradeValidator.isValid _).
    + rewrite settle_heap.
      etransitivity; [apply placeOrder_same_heap|]. simpl. by rewrite Hheap.
    + simpl. by rewrite Hheap.
Qed.

(** C9 as amended.  A gateway error text is matched against the known
    phrases and the submission fails with the fixed message of the first
    phrase it contains; the text itself is not part of that message.  For
    ["Insufficient funds"] the message is "Insufficient funds for this
    trade".  A text that contains none of the phrases is the message,
    verbatim.  [placeValidatedOrder] answers with that message as its only
    error. *)
Theorem gateway_errors_matched_by_substring :
  (forall (order : loc) (o : KrakenOrderRequest) (env : Env) (w : World)
          (krakenError : string) (others : list string) (res : option OrderResult),
     heap w !! order = Some o ->
     placeOrderReply env
       (InvokePlaceOrder (apiKey (service w)) (apiSecret (service w)) o :: trace w)
     = InvokeResolved None (Some {| error := Some (krakenError :: others); result := res |}) ->
     (placeOrder order env w).1 = Thrown (orderErrorMessage krakenError)
     /\ (settle (placeOrder order env w)).1
        = Returned {| error := Some [orderErrorMessage krakenError]; result := None |})
  /\
  (forall krakenError : string,
     includes krakenError "Insufficient funds" = true ->
     orderErrorMessage krakenError = "Insufficient funds for this trade")
  /\
  orderErrorMessage "Insufficient funds" = "Insufficient funds for this trade"
  /\
  (forall krakenError : string,
     includes krakenError "Insufficient funds" = false ->
     includes krakenError "Invalid arguments" = false ->
     includes krakenError "Order minimum not met" = false ->
     includes krakenError "Unknown asset pair" = false ->
     includes krakenError "Invalid price" = false ->
     orderErrorMessage krakenError = krakenError)
  /\
  (forall (order : loc) (o : KrakenOrderRequest) (env : Env) (w w1 : World)
          (balances : TradeValidator.Balances)
          (krakenError : string) (others : list string) (res : option OrderResult),
     heap w !! order = Some o ->
     (updateCryptoPricesIfNeeded;; getAccountBalance) env (log_line log_info (placing o) w)
       = (Returned balances, w1) ->
     TradeValidator.isValid
       (TradeValidator.validateTrade
          (TradeValidator.new balances (Some (cryptoPrices (service w1))))
          (request_of o (parseFloat (volume o)))) = true ->
     placeOrderReply env
       (InvokePlaceOrder (apiKey (service w1)) (apiSecret (service w1)) o :: trace w1)
     = InvokeResolved None (Some {| error := Some (krakenError :: others); result := res |}) ->
     (placeValidatedOrder order env w).1
     = Returned {| error := Some [orderErrorMessage krakenError]; result := None |}).
Proof.
  assert (Single : forall order o env w krakenError others res,
     heap w !! order = Some o ->
     placeOrderReply env
       (InvokePlaceOrder (apiKey (service w)) (apiSecret (service w)) o :: trace w)
     = InvokeResolved None (Some {| error := Some (krakenError :: others); result := res |}) ->
     (placeOrder order env w).1 = Thrown (orderErrorMessage krakenError)
     /\ (settle (placeOrder order env w)).1
        = Returned {| error := Some [orderErrorMessage krakenError]; result := None |}).
  { intros order o env w krakenError others res Ho Hreply.
    destruct (placeOrder_gateway_error order o env w krakenError others res Ho Hreply)
      as (w1 & -> & _). done. }
  split; [exact Single|]. split.
  { intros krakenError Hmatch. unfold orderErrorMessage. by rewrite Hmatch. }
  split; [reflexivity|]. split.
  { intros krakenError H1 H2 H3 H4 H5. unfold orderErrorMessage.
    by rewrite H1, H2, H3, H4, H5. }
  intros order o env w w1 balances krakenError others res Ho Hprep Hvalid Hreply.
  rewrite (placeValidatedOrder_prepared order o env w w1 balances Ho Hprep), Hvalid.
  destruct (prepared_heap _ _ _ _ Hprep) as [Hheap _]. simpl in Hheap.
  apply (Single order o env w1 krakenError others res); [by rewrite Hheap|exact Hreply].
Qed.

End ServiceClaims.

(** ** The scenarios, run *)

Lemma placeValidatedOrder_submits_at_most_once_witness :
  let o := Scenario.marketOrder "XBTUSD" TradeValidator.sell "0.00005" in
  let env :=
    Scenario.answering Scenario.feedDown (Scenario.holding [("XXBT", "0.00001")])
      Scenario.accepted in
  let w := Scenario.started o in
  (submissions
     (KrakenService.trace (KrakenService.placeValidatedOrder (rt:=Reference.runtime) 1%nat env w).2)
   <= submissions (KrakenService.trace w) + 1)%nat
  /\ exists w',
       KrakenService.placeValidatedOrder (rt:=Reference.runtime) 1%nat env w
       = (KrakenService.Returned
            {| KrakenService.error :=
                 Some ["Order size 0.00005 is below minimum 0.0001 for BTC/USD"];
               KrakenService.result := None |}, w')
       /\ submissions (KrakenService.trace w') = submissions (KrakenService.trace w)
       /\ KrakenService.heap w' !! 1%nat
          = Some (Scenario.marketOrder "XBTUSD" TradeValidator.sell "0.0001").
Proof.
  intros o env w. split.
  - apply (proj1 (placeValidatedOrder_submits_at_most_once (rt:=Reference.runtime))).
  - apply (proj2 (placeValidatedOrder_submits_at_most_once (rt:=Reference.runtime))
             1%nat o env w
             ((KrakenService.updateCryptoPricesIfNeeded;; KrakenService.getAccountBalance) env
                (KrakenService.log_line KrakenService.log_info (placing o) w)).2
             [("XXBT", "0.00001")] (Num 0.0001)); reflexivity.
Defined.

Lemma price_feed_failure_leaves_cache_stale_witness :
  let o := Scenario.marketOrder "XBTUSD" TradeValidator.sell "0.05" in
  let env :=
    Scenario.answering Scenario.feedDown (Scenario.holding [("XXBT", "0.02")])
      Scenario.accepted in
  let w1 := (KrakenService.initializeCryptoPrices env (Scenario.started o)).2 in
  KrakenService.cryptoPrices (KrakenService.service w1) = KrakenService.fallbackPrices
  /\ KrakenService.lastPriceUpdate (KrakenService.service w1) = 0%Z
  /\ priceFetches
       (KrakenService.trace
          (KrakenService.updateCryptoPricesIfNeeded env (at_time 1700000001000 w1)).2)
     = S (priceFetches (KrakenService.trace w1)).
Proof.
  intros o env w1.
  destruct (price_feed_failure_leaves_cache_stale env (Scenario.started o) "Failed to fetch"
              eq_refl) as (Hprices & _ & Hlast & Hnext).
  split; [exact Hprices|]. split; [exact Hlast|].
  apply (Hnext 1700000001000%Z). reflexivity.
Defined.

(** The service is created while the feed is down; a read one second after
    the failed fetch finds the cache stale and fetches again. *)
Lemma feed_failure_refetches_within_interval :
  let o := Scenario.marketOrder "XBTUSD" TradeValidator.sell "0.05" in
  let env :=
    Scenario.answering Scenario.feedDown (Scenario.holding [("XXBT", "0.02")])
      Scenario.accepted in
  let w1 := (KrakenService.initializeCryptoPrices env (Scenario.started o)).2 in
  let next := at_time (KrakenService.clock w1 + 1000) w1 in
  priceFetches (KrakenService.trace w1) = 1%nat
  /\ KrakenService.lastPriceUpdate (KrakenService.service w1) = 0%Z
  /\ price_cache_stale next = true
  /\ priceFetches (KrakenService.trace (KrakenService.updateCryptoPricesIfNeeded env next).2)
     = 2%nat.
Proof. repeat split. Qed.

Lemma balance_cache_freshness_witness :
  let o := Scenario.marketOrder "XBTUSD" TradeValidator.sell "0.01" in
  let env :=
    Scenario.answering Scenario.feedDown (Scenario.holding [("XXBT", "0.02")])
      Scenario.accepted in
  let w := Scenario.started o in
  let first := KrakenService.getAccountBalance env w in
  let second := KrakenService.getAccountBalance env (at_time 1700000001000 first.2) in
  let submitted := KrakenService.placeOrder 1%nat env second.2 in
  (second.1 = KrakenService.Returned [("XXBT", "0.02")]
   /\ balanceFetches (KrakenService.trace second.2) = S (balanceFetches (KrakenService.trace w)))
  /\ KrakenService.lastBalanceUpdate (KrakenService.service submitted.2) = 0%Z
  /\ balanceFetches
       (KrakenService.trace
          (KrakenService.getAccountBalance env (at_time 1700000002000 submitted.2)).2)
     = S (balanceFetches (KrakenService.trace submitted.2)).
Proof.
  intros o env w first second submitted.
  destruct (balance_cache_freshness (rt:=Reference.runtime)) as (Htwice & Hreset & _ & Hnext).
  split; [|split].
  - apply (Htwice env w first.2 [("XXBT", "0.02")] 1700000001000%Z);
      [reflexivity|reflexivity|discriminate|reflexivity].
  - apply (Hreset 1%nat env second.2 submitted.2
             {| KrakenService.error := Some [];
                KrakenService.result :=
                  Some {| KrakenService.descr := "order";
                          KrakenService.txid := ["OAAAAA-BBBBB-CCCCCC"] |} |}).
    reflexivity.
  - apply (Hnext env submitted.2 1700000002000%Z); [reflexivity|discriminate].
Defined.

Lemma placeValidatedOrder_rewrites_volume_in_place_witness :
  let o := Scenario.marketOrder "XBTUSD" TradeValidator.sell "0.05" in
  let env :=
    Scenario.answering Scenario.feedDown (Scenario.holding [("XXBT", "0.02")])
      Scenario.accepted in
  let w := Scenario.started o in
  KrakenService.heap (KrakenService.placeValidatedOrder (rt:=Reference.runtime) 1%nat env w).2
  = <[1%nat := Scenario.marketOrder "XBTUSD" TradeValidator.sell "0.019"]>
      (KrakenService.heap w).
Proof.
  intros o env w.
  exact (proj2 (placeValidatedOrder_rewrites_volume_in_place (rt:=Reference.runtime))
           1%nat o env w
           ((KrakenService.updateCryptoPricesIfNeeded;; KrakenService.getAccountBalance) env
              (KrakenService.log_line KrakenService.log_info (placing o) w)).2
           [("XXBT", "0.02")] eq_refl eq_refl).
Defined.

(** Selling 0.05 XBTUSD with 0.02 held: the order is submitted, and the
    caller's object now asks for 0.019. *)
Lemma order_object_mutated :
  let o := Scenario.marketOrder "XBTUSD" TradeValidator.sell "0.05" in
  let env :=
    Scenario.answering Scenario.feedDown (Scenario.holding [("XXBT", "0.02")])
      Scenario.accepted in
  let w := Scenario.started o in
  let run := KrakenService.placeValidatedOrder (rt:=Reference.runtime) 1%nat env w in
  KrakenService.heap w !! 1%nat = Some o
  /\ KrakenService.volume o = "0.05"
  /\ (exists response, run.1 = KrakenService.Returned response
                       /\ is_Some (KrakenService.result response))
  /\ KrakenService.heap run.2 !! 1%nat
     = Some (Scenario.marketOrder "XBTUSD" TradeValidator.sell "0.019")
  /\ KrakenService.heap run.2 !! 1%nat <> KrakenService.heap w !! 1%nat.
Proof.
  intros o env w run. split; [reflexivity|]. split; [reflexivity|]. split.
  { eexists. split; [reflexivity|]. by eexists. }
  split; [reflexivity|]. discriminate.
Qed.

Lemma gateway_errors_matched_by_substring_witness :
  let o := Scenario.marketOrder "XBTUSD" TradeValidator.sell "0.01" in
  let env :=
    Scenario.answering Scenario.feedDown (Scenario.holding [("XXBT", "0.02")])
      (Scenario.refused "Insufficient funds") in
  (KrakenService.placeValidatedOrder (rt:=Reference.runtime) 1%nat env (Scenario.started o)).1
  = KrakenService.Returned
      {| KrakenService.error := Some ["Insufficient funds for this trade"];
         KrakenService.result := None |}.
Proof.
  intros o env.
  exact (proj2 (proj2 (proj2 (proj2
           (gateway_errors_matched_by_substring (rt:=Reference.runtime)))))
           1%nat o env (Scenario.started o)
           ((KrakenService.updateCryptoPricesIfNeeded;; KrakenService.getAccountBalance) env
              (KrakenService.log_line KrakenService.log_info (placing o)
                 (Scenario.started o))).2
           [("XXBT", "0.02")] "Insufficient funds" [] None
           eq_refl eq_refl eq_refl eq_refl).
Defined.

(** The gateway answers ["Insufficient funds"]: the response carries the
    fixed message, not the gateway's text. *)
Lemma raw_gateway_text_replaced :
  let o := Scenario.marketOrder "XBTUSD" TradeValidator.sell "0.01" in
  let env :=
    Scenario.answering Scenario.feedDown (Scenario.holding [("XXBT", "0.02")])
      (Scenario.refused "Insufficient funds") in
  let run := KrakenService.placeValidatedOrder (rt:=Reference.runtime) 1%nat env
               (Scenario.started o) in
  run.1 = KrakenService.Returned
            {| KrakenService.error := Some ["Insufficient funds for this trade"];
               KrakenService.result := None |}
  /\ run.1 <> KrakenService.Returned
                {| KrakenService.error := Some ["Insufficient funds"];
                   KrakenService.result := None |}.
Proof. split; [reflexivity|discriminate]. Qed.

(** * Further properties of the validator *)

Section CurrencyCodes.
Import TradeValidator.

Lemma upper_ascii_idem (c : ascii) : upper_ascii (upper_ascii c) = upper_ascii c.
Proof. destruct c as [[] [] [] [] [] [] [] []]; reflexivity. Qed.

Lemma toUpperCase_idem (s : string) : toUpperCase (toUpperCase s) = toUpperCase s.
Proof.
  induction s as [|c s IH]; [reflexivity|]. simpl. by rewrite upper_ascii_idem, IH.
Qed.

Lemma normalizeCurrency_idem (currency : string) :
  normalizeCurrency (normalizeCurrency currency) = normalizeCurrency currency.
Proof.
  destruct (normalizations !! toUpperCase currency) as [v|] eqn:Hk.
  - assert (Hn : normalizeCurrency currency = v).
    { unfold normalizeCurrency. rewrite Hk.
      by destruct (normalizations_values _ _ Hk) as [->|[->|[->|[->| ->]]]]. }
    rewrite Hn.
    by destruct (normalizations_values _ _ Hk) as [->|[->|[->|[->| ->]]]].
  - assert (Hn : normalizeCurrency currency = toUpperCase currency).
    { unfold normalizeCurrency. by rewrite Hk. }
    rewrite Hn. unfold normalizeCurrency. by rewrite toUpperCase_idem, Hk.
Qed.

Lemma normalizeCurrency_upper (currency : string) :
  normalizeCurrency (toUpperCase currency) = normalizeCurrency currency.
Proof. unfold normalizeCurrency. by rewrite toUpperCase_idem. Qed.

(** X1.  [normalizeCurrency] gives a code that it maps to itself, and it
    does not look at the case of the letters. *)
Theorem normalizeCurrency_canonical (currency : string) :
  normalizeCurrency (normalizeCurrency currency) = normalizeCurrency currency
  /\ normalizeCurrency (toUpperCase currency) = normalizeCurrency currency.
Proof. split; [apply normalizeCurrency_idem|apply normalizeCurrency_upper]. Qed.

(** X2.  The quote [parsePair] returns is always a canonical code, and so
    is the base when the pair contains a slash or ends with USD. *)
Theorem parsePair_canonical (pair : string) :
  normalizeCurrency (parsePair pair).2 = (parsePair pair).2
  /\ (includes pair "/" = true \/ endsWith pair "USD" = true ->
      normalizeCurrency (parsePair pair).1 = (parsePair pair).1).
Proof.
  unfold parsePair. destruct (includes pair "/") eqn:Hslash.
  - destruct (split_includes pair Hslash) as (base & quote & rest & ->). simpl.
    split; [|intros _]; apply normalizeCurrency_idem.
  - repeat match goal with
           | |- context [String.eqb pair ?k] =>
               destruct (String.eqb pair k); [split; [|intros _]; reflexivity|]
           end.
    destruct (endsWith pair "USD"); simpl.
    + split; [reflexivity|]. intros _. apply normalizeCurrency_idem.
    + split; [reflexivity|]. by intros [|].
Qed.

End CurrencyCodes.

Section Verdicts.
Import TradeValidator.
Context `{rt : JsRuntime}.

Ltac verdict_cases v trade :=
  unfold validateTrade;
  destruct (amount trade <=? Num 0)%num eqn:Hpos;
  [|fold (getMinOrderSize v (pair trade));
    destruct (amount trade <? getMinOrderSize v (pair trade))%num eqn:Hmin;
    [|destruct (parsePair (pair trade)) as [baseCurrency quoteCurrency] eqn:Hpair;
      destruct (side trade) eqn:Hside;
      [destruct (getTotalPortfolioValueInUsd v <? estimatedCost v trade baseCurrency)%num
         eqn:Hcost;
       [|destruct (usdBalance v <? estimatedCost v trade baseCurrency)%num eqn:Husd]
      |destruct (baseBalance v baseCurrency <? amount trade)%num eqn:Hheld;
       [rewrite Math_max_not_below|]]]];
  cbn [isValid error adjustedAmount requiredBalance availableBalance].

(** X3.  A valid verdict carries no [adjustedAmount], [requiredBalance] or
    [availableBalance]. *)
Theorem valid_verdict_has_no_correction (v : t) (trade : TradeRequest) :
  isValid (validateTrade v trade) = true ->
  adjustedAmount (validateTrade v trade) = None
  /\ requiredBalance (validateTrade v trade) = None
  /\ availableBalance (validateTrade v trade) = None.
Proof. verdict_cases v trade; done. Qed.

(** X4.  An invalid verdict always carries a non-empty [error], so the
    response [placeValidatedOrder] builds from it holds that text and never
    the default "Trade validation failed". *)
Theorem invalid_verdict_has_message (v : t) (trade : TradeRequest) :
  isValid (validateTrade v trade) = false ->
  exists msg,
    error (validateTrade v trade) = Some msg
    /\ truthy_string msg = true
    /\ KrakenService.validation_failed (validateTrade v trade)
       = {| KrakenService.error := Some [msg]; KrakenService.result := None |}.
Proof.
  unfold KrakenService.validation_failed.
  verdict_cases v trade; intros Hvalid; try discriminate;
    eexists; (split; [reflexivity|]); split; reflexivity.
Qed.

Lemma validateTrade_NaN (v : t) (trade : TradeRequest) :
  amount trade = NaN ->
  validateTrade v trade
  = {| isValid := true; error := None;
       adjustedAmount := None; requiredBalance := None; availableBalance := None |}.
Proof.
  intros Hnan.
  assert (Hc : forall base, estimatedCost v trade base = NaN).
  { intros base. unfold estimatedCost. rewrite Hnan.
    destruct (price trade) as [p|]; [destruct (truthy p)|]; reflexivity. }
  assert (Hlt : forall x, (x <? NaN)%num = false) by (by intros []).
  verdict_cases v trade; rewrite ?Hc, ?Hnan, ?Hlt in *; try discriminate; reflexivity.
Qed.

(** X5.  An amount that is not a number passes every check: the verdict is
    valid, with no message, whatever the pair, the side and the balances. *)
Theorem NaN_amount_is_accepted (v : t) (trade : TradeRequest) :
  amount trade = NaN ->
  validateTrade v trade
  = {| isValid := true; error := None;
       adjustedAmount := None; requiredBalance := None; availableBalance := None |}.
Proof. apply validateTrade_NaN. Qed.

Lemma getEstimatedPrice_Num (v : t) (currency : string) :
  inherits currency = false ->
  exists p, (getEstimatedPrice v currency : number) = Num p.
Proof.
  intros Hc. unfold getEstimatedPrice.
  rewrite (get_own _ (normalizeCurrency currency)) by apply inherits_normalizeCurrency.
  rewrite (get_own _ currency) by exact Hc.
  assert (Hsecond : exists p,
            (or_property truthy (own <$> cryptoPrices v !! currency) (own (Num 1)) : number)
            = Num p).
  { destruct (cryptoPrices v !! currency) as [x|]; cbn; [|by eexists].
    destruct (truthy x) eqn:Hx; cbn; [|by eexists].
    destruct (truthy_Num _ Hx) as (q & -> & _). by eexists. }
  destruct (cryptoPrices v !! normalizeCurrency currency) as [x|]; cbn; [|exact Hsecond].
  destruct (truthy x) eqn:Hx; cbn; [|exact Hsecond].
  destruct (truthy_Num _ Hx) as (q & -> & _). by eexists.
Qed.

Lemma estimatedCost_Num (v : t) (trade : TradeRequest) (base : string) (a : Q) :
  inherits base = false ->
  amount trade = Num a -> exists c, estimatedCost v trade base = Num c.
Proof.
  intros Hbase Ha. unfold estimatedCost. rewrite Ha.
  destruct (getEstimatedPrice_Num v base Hbase) as (p & Hp). rewrite Hp.
  destruct (price trade) as [x|]; [|by eexists].
  destruct (truthy x) eqn:Hx; [|by eexists].
  destruct (truthy_Num _ Hx) as (q & -> & _). by eexists.
Qed.

Lemma getTotalPortfolioValueInUsd_Num (v : t) :
  (forall e, e ∈ heldAssets (balances v) -> inherits e.1 = false) ->
  exists total, getTotalPortfolioValueInUsd v = Num total.
Proof.
  intros Hnames. rewrite getTotalPortfolioValueInUsd_spec by done.
  apply portfolioValueInUsd_Num.
Qed.

Lemma ltb_false_le (a b : Q) : (Num a <? Num b)%num = false <-> (Num b <= Num a)%num.
Proof. unfold le. rewrite ltb_Num_false, leb_Num. reflexivity. Qed.

Lemma sell_verdict
    (balances : Balances) (prices : option (gmap string number)) (trade : TradeRequest)
    (a b : Q) :
  let v := new balances prices in
  inherits (pair trade) = false ->
  side trade = sell ->
  amount trade = Num a ->
  baseBalance v (parsePair (pair trade)).1 = Num b ->
  isValid (validateTrade v trade) = true
  <-> (getMinOrderSize v (pair trade) <= amount trade)%num /\ (amount trade <= Num b)%num.
Proof.
  intros v Hname Hsell Ha Hb.
  destruct (getMinOrderSize_new balances prices (pair trade) Hname) as (_ & m & Hm & Hmpos).
  fold v in Hm.
  verdict_cases v trade; try congruence; rewrite Ha, Hm in *; cbn [toNumber] in *;
    rewrite ?Hpair in Hb; simpl in Hb; rewrite ?Hb in *; unfold le;
    rewrite ?leb_Num in *; rewrite ?ltb_Num in *; rewrite ?ltb_Num_false in *;
    rewrite ?leb_Num_false in *; split; try discriminate; try done.
  - intros [Hma _]. lra.
  - intros [Hma _]. lra.
  - intros [_ Hab]. lra.
Qed.

(** X6.  For a sell of a pair that is not named like a member of
    [Object.prototype], whose amount and held balance are numbers, the
    verdict is valid exactly when the amount is at least the pair's minimum
    size and at most the held balance. *)
Theorem sell_valid_iff
    (balances : Balances) (prices : option (gmap string number)) (trade : TradeRequest)
    (a b : Q) :
  let v := new balances prices in
  inherits (pair trade) = false ->
  side trade = sell ->
  amount trade = Num a ->
  baseBalance v (parsePair (pair trade)).1 = Num b ->
  isValid (validateTrade v trade) = true
  <-> (getMinOrderSize v (pair trade) <= amount trade)%num /\ (amount trade <= Num b)%num.
Proof. apply sell_verdict. Qed.

(** X7.  When neither the pair nor a held asset is named like a member of
    [Object.prototype], a buy whose amount is a number is valid exactly when
    the amount is at least the pair's minimum size and the estimated cost
    does not exceed the portfolio value; a valid verdict then carries a
    message exactly when the direct USD balance is below the cost. *)
Theorem buy_valid_iff
    (balances : Balances) (prices : option (gmap string number)) (trade : TradeRequest)
    (a : Q) :
  let v := new balances prices in
  let cost := estimatedCost v trade (parsePair (pair trade)).1 in
  inherits (pair trade) = false ->
  (forall e, e ∈ heldAssets balances -> inherits e.1 = false) ->
  side trade = buy ->
  amount trade = Num a ->
  (isValid (validateTrade v trade) = true
   <-> (getMinOrderSize v (pair trade) <= amount trade)%num
       /\ (cost <= getTotalPortfolioValueInUsd v)%num)
  /\ (isValid (validateTrade v trade) = true ->
      (is_Some (error (validateTrade v trade)) <-> (usdBalance v < cost)%num)).
Proof.
  intros v cost Hname Hnames Hbuy Ha.
  destruct (getMinOrderSize_new balances prices (pair trade) Hname) as (_ & m & Hm & Hmpos).
  fold v in Hm.
  destruct (estimatedCost_Num v trade (parsePair (pair trade)).1 a) as (c & Hc);
    [by apply inherits_parsePair|exact Ha|].
  destruct (getTotalPortfolioValueInUsd_Num v Hnames) as (total & Htotal).
  unfold cost. unfold lt.
  verdict_cases v trade; try congruence; rewrite Ha, Hm in *; cbn [toNumber] in *;
    rewrite ?Hpair in Hc; simpl in Hc; rewrite ?Hpair; simpl;
    rewrite ?Hc, ?Htotal in *; unfold le;
    rewrite ?leb_Num in *; rewrite ?ltb_Num in *; rewrite ?ltb_Num_false in *;
    rewrite ?leb_Num_false in *.
  - split; [|discriminate]. split; [discriminate|]. intros [Hma _]. lra.
  - split; [|discriminate]. split; [discriminate|]. intros [Hma _]. lra.
  - split; [|discriminate]. split; [discriminate|]. intros [_ Hct]. lra.
  - split; [done|]. intros _. split; [done|]. intros _. by eexists.
  - split; [done|]. intros _. rewrite Husd. split; [by intros [? ?]|discriminate].
Qed.

(** X8.  A sell is accepted whenever the text of the held balance does not
    read as a number, provided the amount is positive and not below the
    minimum size read for the pair: in particular when it is at least that
    minimum, and for every positive amount when the pair is named like a
    member of [Object.prototype]. *)
Theorem sell_against_unreadable_balance
    (balances : Balances) (prices : option (gmap string number)) (trade : TradeRequest) :
  let v := new balances prices in
  side trade = sell ->
  (getMinOrderSize v (pair trade) <= amount trade)%num
  \/ (Num 0 < amount trade)%num /\ inherits (pair trade) = true ->
  baseBalance v (parsePair (pair trade)).1 = NaN ->
  validateTrade v trade
  = {| isValid := true; error := None;
       adjustedAmount := None; requiredBalance := None; availableBalance := None |}.
Proof.
  intros v Hsell Hlarge Hnan.
  assert (Hp : (amount trade <=? Num 0)%num = false).
  { destruct Hlarge as [Hlarge|[Hpos _]]; apply positive_not_le_zero;
      [by eapply at_least_minimum_positive|done]. }
  assert (Hm : (amount trade <? getMinOrderSize v (pair trade))%num = false).
  { destruct Hlarge as [Hlarge|[_ Hname]]; [by apply le_not_lt|].
    destruct (getMinOrderSize_cases balances prices (pair trade))
      as [(q & Hq & _ & Hd)|[_ Hi]]; fold v in Hq, Hd || fold v in Hi.
    - rewrite Hq. cbn [toNumber]. exfalso.
      unfold getMinOrderSize in Hq.
      destruct (minOrderSizes v !! pair trade) as [x|] eqn:E.
      + assert (Hown : inherits (pair trade) = false)
          by (apply (minOrderSizes_not_inherited balances prices); by eexists).
        congruence.
      + cbn [get] in Hq. rewrite Hname in Hq. discriminate.
    - rewrite Hi. by destruct (amount trade). }
  verdict_cases v trade; try congruence.
  rewrite ?Hpair in Hnan. simpl in Hnan. rewrite Hnan in Hheld. discriminate.
Qed.

(** X9.  When a sell exceeds the held balance, validating the offered
    [adjustedAmount] in its place succeeds exactly when the held balance is
    at least the pair's minimum size; otherwise the second verdict is
    invalid and offers the minimum again. *)
Theorem sell_adjustment_revalidates_iff
    (balances : Balances) (prices : option (gmap string number)) (trade : TradeRequest) :
  let v := new balances prices in
  let minSize : number := getMinOrderSize v (pair trade) in
  let held := baseBalance v (parsePair (pair trade)).1 in
  let adjusted := Math_max (held * Num 0.95)%num minSize in
  let second :=
    validateTrade v {| pair := pair trade; side := sell; amount := adjusted;
                       price := price trade |} in
  side trade = sell ->
  (minSize <= amount trade)%num ->
  (held < amount trade)%num ->
  adjustedAmount (validateTrade v trade) = Some adjusted
  /\ (isValid second = true <-> (minSize <= held)%num)
  /\ (isValid second = false -> adjusted = minSize /\ adjustedAmount second = Some minSize).
Proof.
  intros v minSize held adjusted second Hsell Hmin Hheld.
  split.
  { rewrite (validateTrade_sell_insufficient v trade Hsell); [done| |by apply le_not_lt|done].
    apply positive_not_le_zero. by eapply at_least_minimum_positive. }
  destruct (leb_true_inv _ _ Hmin) as (m & a0 & Hm & _ & _).
  destruct (getMinOrderSize_Num balances prices (pair trade) m Hm) as (_ & Hmpos & Hname).
  destruct (ltb_true_inv _ _ Hheld) as (h & a & Hh & Ha & Hha).
  assert (Hadj : exists c, adjusted = Num c /\ (m <= c)%Q /\ (Qred (h * 0.95) <= c)%Q
                           /\ (c == Qred (h * 0.95) \/ c == m)%Q
                           /\ ((Qred (h * 0.95) <= m)%Q -> adjusted = minSize)).
  { unfold adjusted. rewrite Hh, Hm. cbn [mul]. unfold Math_max.
    destruct (Qle_bool (Qred (h * 0.95)) m) eqn:E.
    - exists m. apply Qle_bool_iff in E. repeat split; [apply Qle_refl|done|by right].
    - exists (Qred (h * 0.95)). apply (leb_Num_false (Qred (h * 0.95)) m) in E.
      repeat split; [by apply Qlt_le_weak|apply Qle_refl|by left|].
      intros Hle. exfalso. apply (Qlt_not_le _ _ E Hle). }
  destruct Hadj as (c & Hc & Hmc & Hhc & Hcases & Hsame).
  rewrite Qred_correct in Hhc.
  destruct (sell_verdict balances prices
              {| pair := pair trade; side := sell; amount := adjusted; price := price trade |}
              c h Hname eq_refl Hc Hh) as [Hfwd Hbwd].
  fold v in Hfwd, Hbwd. cbn [pair amount] in Hfwd, Hbwd. fold minSize in Hfwd, Hbwd.
  assert (Hiff : isValid second = true <-> (minSize <= held)%num).
  { unfold second. split.
    - intros Hv. destruct (Hfwd Hv) as [_ Hch]. rewrite Hc in Hch.
      rewrite Hm, Hh. apply leb_Num. apply leb_Num in Hch. lra.
    - intros Hmh. apply Hbwd. rewrite Hm, Hh in Hmh. apply leb_Num in Hmh.
      rewrite Hc, Hm. split; apply leb_Num; [done|].
      destruct Hcases as [Hq|Hq]; rewrite Hq; [rewrite Qred_correct; lra|done]. }
  split; [exact Hiff|].
  intros Hinvalid.
  assert (Hlow : (h < m)%Q).
  { apply Qnot_le_lt. intros Hmh.
    assert (Hv : isValid second = true).
    { apply Hiff. rewrite Hm, Hh. by apply leb_Num. }
    congruence. }
  assert (Heq : adjusted = minSize).
  { apply Hsame. rewrite Qred_correct. lra. }
  split; [exact Heq|].
  unfold second. rewrite Heq.
  rewrite (validateTrade_sell_insufficient v
             {| pair := pair trade; side := sell; amount := minSize; price := price trade |}
             eq_refl); cbn [pair amount]; fold minSize; fold held.
  - cbn [adjustedAmount]. f_equal. fold adjusted. exact Heq.
  - rewrite Hm. by apply leb_Num_false.
  - apply ltb_irrefl.
  - rewrite Hh, Hm. by apply ltb_Num.
Qed.

(** The verdict depends on the pair only through its minimum size and the
    assets it names (the pair's text shows in one message). *)
Lemma validateTrade_same_pair_data (v : t) (t1 t2 : TradeRequest) :
  side t1 = side t2 -> amount t1 = amount t2 -> price t1 = price t2 ->
  getMinOrderSize v (pair t1) = getMinOrderSize v (pair t2) ->
  parsePair (pair t1) = parsePair (pair t2) ->
  isValid (validateTrade v t1) = isValid (validateTrade v t2)
  /\ adjustedAmount (validateTrade v t1) = adjustedAmount (validateTrade v t2)
  /\ requiredBalance (validateTrade v t1) = requiredBalance (validateTrade v t2)
  /\ availableBalance (validateTrade v t1) = availableBalance (validateTrade v t2).
Proof.
  destruct t1 as [p1 s1 a1 c1], t2 as [p2 s2 a2 c2]. simpl.
  intros <- <- <- Hsize Hparse. unfold validateTrade, estimatedCost.
  cbn [pair side amount price].
  fold (getMinOrderSize v p1). fold (getMinOrderSize v p2).
  rewrite Hsize, Hparse.
  repeat match goal with
         | |- context [if ?c then _ else _] => destruct c
         | |- context [let (_, _) := ?x in _] => destruct x
         | |- context [match ?x with buy => _ | sell => _ end] => destruct x
         | |- context [match ?x with Some _ => _ | None => _ end] => destruct x
         end; done.
Qed.

(** X10.  The pair [placeValidatedOrder] hands to the validator in place of
    the order's own pair gives the same verdict: validity, adjusted amount,
    required and available balance are those of the order's pair. *)
Theorem validationPair_same_verdict
    (balances : Balances) (prices : option (gmap string number))
    (o : KrakenService.KrakenOrderRequest) (amount : number) (price : option number) :
  let v := new balances prices in
  let converted :=
    validateTrade v {| pair := KrakenService.validationPair o; side := KrakenService.type o;
                       amount := amount; price := price |} in
  let direct :=
    validateTrade v {| pair := KrakenService.pair o; side := KrakenService.type o;
                       amount := amount; price := price |} in
  isValid converted = isValid direct
  /\ adjustedAmount converted = adjustedAmount direct
  /\ requiredBalance converted = requiredBalance direct
  /\ availableBalance converted = availableBalance direct.
Proof.
  intros v converted direct. unfold converted, direct, KrakenService.validationPair.
  repeat match goal with
         | |- context [String.eqb (KrakenService.pair o) ?k] =>
             destruct (String.eqb_spec (KrakenService.pair o) k) as [->|_];
             [by apply validateTrade_same_pair_data|]
         end.
  done.
Qed.

End Verdicts.

Section Summaries.
Import TradeValidator.
Context `{rt : JsRuntime}.
#[local] Arguments Js.gtb : simpl never.
#[local] Arguments Js.ltb : simpl never.

Lemma obj_put_fresh {V : Type} (key : string) (value : V) (obj : list (string * V)) :
  key ∉ obj.*1 -> obj_put key value obj = obj ++ [(key, value)].
Proof.
  induction obj as [|[k x] obj IH]; [reflexivity|].
  simpl. intros Hfresh. apply not_elem_of_cons in Hfresh as [Hne Hfresh].
  destruct (String.eqb_spec k key) as [->|_]; [done|]. by rewrite IH.
Qed.

(** Adding an entry under a key the object does not have yet. *)
Lemma obj_set_fresh {V : Type} (key : string) (value : V) (obj : list (string * V)) :
  key ∉ obj.*1 ->
  obj_set key value obj
  = obj ++ (if negb (String.eqb key "__proto__") then [(key, value)] else []).
Proof.
  intros Hfresh. unfold obj_set. destruct (String.eqb key "__proto__"); cbn [negb].
  - by rewrite app_nil_r.
  - by apply obj_put_fresh.
Qed.

Lemma fold_left_pointwise {A B : Type} (f g : A -> B -> A) (l : list B) (a : A) :
  (forall a x, f a x = g a x) -> fold_left f l a = fold_left g l a.
Proof.
  intros Hfg. revert a. induction l as [|x l IH]; intros a; [reflexivity|].
  cbn [fold_left]. by rewrite Hfg, IH.
Qed.

(** The loop that builds a summary from the balances a test selects, one
    entry per selected balance. *)
Lemma summary_fold {V : Type} (selected : string * string -> bool)
    (entry : string * string -> V) (l : Balances) (acc : list (string * V)) :
  NoDup l.*1 ->
  (forall k, k ∈ l.*1 -> k ∉ acc.*1) ->
  fold_left
    (fun summary e => if selected e then obj_set e.1 (entry e) summary else summary) l acc
  = acc ++ map (fun e => (e.1, entry e)) (assignable (List.filter selected l)).
Proof.
  revert acc. induction l as [|e l IH]; intros acc Hnd Hfresh.
  - simpl. by rewrite app_nil_r.
  - apply NoDup_cons in Hnd as [Hnew Hnd]. cbn [fold_left List.filter].
    destruct (selected e) eqn:Hsel.
    + rewrite obj_set_fresh by (apply Hfresh; left).
      unfold assignable. cbn [List.filter].
      rewrite IH; [|done|].
      * rewrite <- app_assoc. by destruct (negb (String.eqb e.1 "__proto__")).
      * intros k Hk. rewrite fmap_app. intros Hin.
        apply elem_of_app in Hin as [Hin|Hin]; [by apply (Hfresh k); [right|]|].
        destruct (negb (String.eqb e.1 "__proto__")); cbn in Hin;
          [|by apply elem_of_nil in Hin].
        apply list_elem_of_singleton in Hin. subst k. by apply Hnew.
    + apply IH; [done|]. intros k Hk. apply Hfresh. by right.
Qed.

(** With distinct asset codes, the summary lists the held assets in order,
    but for one named ["__proto__"]. *)
Lemma getPortfolioSummary_held (v : t) :
  NoDup (balances v).*1 ->
  getPortfolioSummary v
  = map (holdingOf (cryptoPrices v)) (assignable (heldAssets (balances v))).
Proof.
  intros Hnd. unfold getPortfolioSummary.
  rewrite (fold_left_pointwise _
             (fun summary e =>
                if (parseFloat e.2 >? Num 0)%num
                then obj_set e.1
                       {| balance := parseFloat e.2;
                          usdValue := (parseFloat e.2 * priceOf (cryptoPrices v) e.1)%num |}
                       summary
                else summary)) by (by intros summary [currency balance]).
  rewrite summary_fold; [reflexivity|done|]. intros k _. apply not_elem_of_nil.
Qed.

Lemma getBalanceSummary_held (v : t) :
  NoDup (balances v).*1 ->
  getBalanceSummary v
  = map (fun e => (e.1, parseFloat e.2)) (assignable (heldAssets (balances v))).
Proof.
  intros Hnd. unfold getBalanceSummary.
  rewrite (fold_left_pointwise _
             (fun summary e =>
                if (parseFloat e.2 >? Num 0)%num
                then obj_set e.1 (parseFloat e.2) summary
                else summary)) by (by intros summary [currency balance]).
  rewrite summary_fold; [reflexivity|done|]. intros k _. apply not_elem_of_nil.
Qed.

(** The additions of [getTotalPortfolioValueInUsd], over the held assets. *)
Lemma total_fold (prices : gmap string number) (l : Balances) (acc : number) :
  fold_left
    (fun totalValue '(currency, balance) =>
       let numBalance := parseFloat balance in
       if (numBalance >? Num 0)%num then
         let price := priceOf prices currency in
         (totalValue + numBalance * price)%num
       else totalValue) l acc
  = fold_left (fun sum e => (sum + parseFloat e.2 * priceOf prices e.1)%num)
      (heldAssets l) acc.
Proof.
  unfold heldAssets. revert acc. induction l as [|[currency balance] l IH]; intros acc;
    [reflexivity|].
  cbn [fold_left List.filter snd]. cbv zeta.
  destruct (parseFloat balance >? Num 0)%num; [cbn [fold_left fst snd]|]; apply IH.
Qed.

Lemma sumUsdValue_fold (prices : gmap string number) (l : Balances) (acc : number) :
  fold_left (fun sum e => (sum + usdValue e.2)%num) (map (holdingOf prices) l) acc
  = fold_left (fun sum e => (sum + parseFloat e.2 * priceOf prices e.1)%num) l acc.
Proof.
  revert acc. induction l as [|e l IH]; intros acc; [reflexivity|].
  cbn [map fold_left holdingOf snd usdValue]. apply IH.
Qed.

Lemma assignable_all (l : Balances) :
  "__proto__" ∉ l.*1 -> assignable l = l.
Proof.
  intros Hproto. unfold assignable. induction l as [|e l IH]; [reflexivity|].
  cbn [List.filter]. cbn in Hproto. apply not_elem_of_cons in Hproto as [Hne Hproto].
  destruct (String.eqb_spec e.1 "__proto__") as [Heq|_]; [by rewrite Heq in Hne|].
  cbn [negb]. by rewrite IH.
Qed.

(** X11.  When the asset codes are distinct, [getPortfolioSummary] and
    [getBalanceSummary] list the same assets, in the same order, each with a
    positive balance; and when no held asset is named ["__proto__"], the
    [usdValue] entries of the portfolio summary, added in order, give the
    total [validateTrade] compares a buy's cost with. *)
Theorem portfolio_summary_adds_up (v : t) :
  NoDup (balances v).*1 ->
  (getPortfolioSummary v).*1 = (getBalanceSummary v).*1
  /\ Forall (fun e => (Num 0 < balance e.2)%num) (getPortfolioSummary v)
  /\ ("__proto__" ∉ (heldAssets (balances v)).*1 ->
      sumUsdValue (getPortfolioSummary v) = getTotalPortfolioValueInUsd v).
Proof.
  intros Hnd. rewrite getPortfolioSummary_held, getBalanceSummary_held by done.
  split; [|split].
  - rewrite <- !list_fmap_compose. reflexivity.
  - apply Forall_forall. intros e He.
    apply list_elem_of_fmap in He as (x & -> & Hx).
    unfold assignable, heldAssets in Hx.
    apply list_elem_of_In, filter_In in Hx as [Hx _].
    apply filter_In in Hx as [_ Hx]. exact Hx.
  - intros Hproto. rewrite assignable_all by done.
    unfold sumUsdValue, getTotalPortfolioValueInUsd.
    by rewrite sumUsdValue_fold, total_fold.
Qed.

(** The loop of the service's [getPortfolioSummary]: the summary and the
    total are built side by side. *)
Lemma service_summary_fold (s : KrakenService.t) :
  NoDup (KrakenService.cachedBalances s).*1 ->
  KrakenService.getPortfolioSummary s
  = (map (holdingOf (KrakenService.cryptoPrices s))
       (assignable (listedAssets (KrakenService.cachedBalances s))),
     fold_left (fun sum e => (sum + parseFloat e.2 * priceOf (KrakenService.cryptoPrices s) e.1)%num)
       (listedAssets (KrakenService.cachedBalances s)) (Num 0)).
Proof.
  unfold KrakenService.getPortfolioSummary.
  set (prices := KrakenService.cryptoPrices s).
  match goal with |- context [fold_left ?f _ _] => set (step := f) end.
  assert (General : forall l acc tot,
            NoDup l.*1 -> (forall k, k ∈ l.*1 -> k ∉ acc.*1) ->
            fold_left step l (acc, tot)
            = (acc ++ map (holdingOf prices) (assignable (listedAssets l)),
               fold_left (fun sum e => (sum + parseFloat e.2 * priceOf prices e.1)%num)
                 (listedAssets l) tot)).
  { induction l as [|[currency text] l IH]; intros acc tot Hnd Hfresh.
    - simpl. by rewrite app_nil_r.
    - apply NoDup_cons in Hnd as [Hnew Hnd]. cbn [fold_left].
      unfold listedAssets. cbn [List.filter snd].
      destruct (parseFloat text >? Num 0.0001)%num eqn:Hlisted.
      + assert (Hstep : step (acc, tot) (currency, text)
                        = (acc ++ (if negb (String.eqb currency "__proto__")
                                   then [holdingOf prices (currency, text)] else []),
                           (tot + parseFloat text * priceOf prices currency)%num)).
        { unfold step. cbv zeta. rewrite Hlisted.
          rewrite obj_set_fresh by (apply Hfresh; left). reflexivity. }
        rewrite Hstep. fold (listedAssets l).
        rewrite IH; [|done|].
        * unfold assignable. cbn [List.filter fold_left fst snd].
          rewrite <- app_assoc. by destruct (negb (String.eqb currency "__proto__")).
        * intros k Hk. rewrite fmap_app. intros Hin.
          apply elem_of_app in Hin as [Hin|Hin]; [by apply (Hfresh k); [right|]|].
          destruct (negb (String.eqb currency "__proto__")); cbn in Hin;
            [|by apply elem_of_nil in Hin].
          apply list_elem_of_singleton in Hin. subst k. by apply Hnew.
      + assert (Hstep : step (acc, tot) (currency, text) = (acc, tot)).
        { unfold step. cbv zeta. by rewrite Hlisted. }
        rewrite Hstep. apply IH; [done|]. intros k Hk. apply Hfresh. by right. }
  intros Hnd. rewrite General; [done|done|]. intros k _. apply not_elem_of_nil.
Qed.

(** X12.  When the asset codes are distinct, the service's
    [getPortfolioSummary] lists assets whose balance is above 0.0001; when
    none of those is named ["__proto__"], its [totalUsdValue] is the sum of
    the [usdValue] it lists, added in order; and when no positive balance is
    0.0001 or less, that total is the portfolio value the validator built
    from the same balances and prices works with. *)
Theorem service_summary_adds_up (s : KrakenService.t) :
  NoDup (KrakenService.cachedBalances s).*1 ->
  let summary := (KrakenService.getPortfolioSummary s).1 in
  let totalUsdValue := (KrakenService.getPortfolioSummary s).2 in
  Forall (fun e => (Num 0.0001 < balance e.2)%num) summary
  /\ ("__proto__" ∉ (listedAssets (KrakenService.cachedBalances s)).*1 ->
      totalUsdValue = sumUsdValue summary)
  /\ ((forall e, e ∈ KrakenService.cachedBalances s ->
         (parseFloat e.2 >? Num 0)%num = true -> (parseFloat e.2 >? Num 0.0001)%num = true) ->
      totalUsdValue
      = getTotalPortfolioValueInUsd
          (new (KrakenService.cachedBalances s) (Some (KrakenService.cryptoPrices s)))).
Proof.
  intros Hnd summary totalUsdValue. unfold summary, totalUsdValue.
  rewrite (service_summary_fold s Hnd). cbn [fst snd].
  split; [|split].
  - apply Forall_forall. intros e He.
    apply list_elem_of_fmap in He as (x & -> & Hx).
    unfold assignable, listedAssets in Hx.
    apply list_elem_of_In, filter_In in Hx as [Hx _].
    apply filter_In in Hx as [_ Hx]. exact Hx.
  - intros Hproto. rewrite assignable_all by done.
    unfold sumUsdValue. by rewrite sumUsdValue_fold.
  - intros Hnodust.
    assert (Hsame : listedAssets (KrakenService.cachedBalances s)
                    = heldAssets (KrakenService.cachedBalances s)).
    { unfold listedAssets, heldAssets. apply filter_ext_in. intros e He.
      apply list_elem_of_In in He.
      destruct (parseFloat e.2 >? Num 0)%num eqn:Hpos; [by apply Hnodust|].
      destruct (parseFloat e.2 >? Num 0.0001)%num eqn:Hbig; [|reflexivity].
      exfalso. destruct (ltb_true_inv _ _ Hbig) as (z & x & [= <-] & Hx & Hlt).
      rewrite Hx in Hpos. apply (ltb_Num_false 0 x) in Hpos.
      apply (Qlt_not_le _ _ Hlt). eapply Qle_trans; [exact Hpos|]. done. }
    rewrite Hsame. unfold getTotalPortfolioValueInUsd.
    cbn [balances cryptoPrices new default]. by rewrite total_fold.
Qed.

End Summaries.

(** * Further properties of the service *)

Section ServiceFacts.
Import KrakenService.
Context `{rt : JsRuntime}.

(** X13.  [placeValidatedOrder] never throws.  Its response either carries
    a result and no error text, and then comes from a submission the
    gateway accepted, or is exactly one error message and no result. *)
Theorem placeValidatedOrder_response_shape (order : loc) (env : Env) (w : World) :
  exists response,
    (placeValidatedOrder order env w).1 = Returned response
    /\ (is_Some (result response)
          /\ (error response = None \/ error response = Some [])
          /\ lastBalanceUpdate (service (placeValidatedOrder order env w).2) = 0%Z
        \/ exists msg, response = {| error := Some [msg]; result := None |}).
Proof.
  destruct (placeValidatedOrder_returns order env w) as (response & Hres).
  exists response. split; [exact Hres|].
  destruct (placeValidatedOrder order env w) as [out w1] eqn:Hrun.
  simpl in Hres. subst out.
  destruct (placeValidatedOrder_returned order env w w1 response Hrun)
    as [(w0 & Hsub)|Hmsg]; [left|by right].
  destruct (placeOrder_returned order env w0 w1 response Hsub) as (Hzero & _ & Hsome & _).
  split; [exact Hsome|]. split; [|exact Hzero].
  exact (placeOrder_returned_error order env w0 w1 response Hsub).
Qed.

(** X14.  When [placeOrder] throws, the service's fields and the order
    objects are as before: the balance cache is invalidated by a successful
    submission only. *)
Theorem placeOrder_failure_changes_nothing
    (order : loc) (env : Env) (w w1 : World) (msg : string) :
  placeOrder order env w = (Thrown msg, w1) ->
  service w1 = service w /\ heap w1 = heap w.
Proof. apply placeOrder_thrown. Qed.

(** X15.  A balance read that has to fetch returns exactly when the gateway
    resolves without a function error, without error text and with a
    result; otherwise it throws the message read off the answer, unmatched
    gateway text with "Kraken Error: " in front.  When it throws, the cached
    balances and their time stamp are untouched. *)
Theorem getAccountBalance_failure_is_loud (env : Env) (w : World) :
  balance_cache_fresh w = false ->
  let reply :=
    getBalanceReply env
      (InvokeGetBalance (apiKey (service w)) (apiSecret (service w)) :: trace w) in
  let run := getAccountBalance env w in
  match reply with
  | InvokeRejected msg => run.1 = Thrown msg
  | InvokeResolved (Some e) _ =>
      run.1 = Thrown ("Function invocation failed: " +:+ or_string (message e) "Unknown error")
  | InvokeResolved None data =>
      match data ≫= KrakenService.error with
      | Some (krakenError :: _) => run.1 = Thrown (balanceErrorMessage krakenError)
      | _ =>
          match data ≫= KrakenService.result with
          | Some balances => run.1 = Returned balances
          | None => run.1 = Thrown "No balance data received from Kraken"
          end
      end
  end
  /\ (forall krakenError,
        includes krakenError "Invalid key" = false ->
        includes krakenError "Permission denied" = false ->
        includes krakenError "Invalid signature" = false ->
        includes krakenError "Invalid nonce" = false ->
        balanceErrorMessage krakenError = "Kraken Error: " +:+ krakenError)
  /\ (forall msg, run.1 = Thrown msg -> service run.2 = service w).
Proof.
  intros Hmiss reply run. split; [exact (getAccountBalance_answer env w Hmiss)|]. split.
  - intros krakenError H1 H2 H3 H4. unfold balanceErrorMessage. by rewrite H1, H2, H3, H4.
  - intros msg Hthrown. unfold run in *.
    destruct (getAccountBalance env w) as [out w1] eqn:Hrun. simpl in *. subst out.
    by destruct (getAccountBalance_thrown env w w1 msg Hrun) as (Hs & _).
Qed.

(** X16.  An empty balance object is never served from the cache: after a
    read that returned no balances, the next read fetches from the gateway,
    however soon it comes. *)
Theorem empty_balances_are_refetched (env : Env) (w w1 : World) (t : Z) :
  getAccountBalance env w = (Returned [], w1) ->
  cachedBalances (service w1) = []
  /\ balanceFetches (trace (getAccountBalance env (at_time t w1)).2)
     = S (balanceFetches (trace w1)).
Proof.
  intros Hrun.
  assert (Hempty : cachedBalances (service w1) = []).
  { destruct (balance_cache_fresh w) eqn:Hfresh.
    - rewrite (getAccountBalance_cached env w Hfresh) in Hrun.
      injection Hrun as Hnil <-. exfalso.
      unfold balance_cache_fresh in Hfresh. rewrite Hnil in Hfresh.
      by rewrite andb_false_r in Hfresh.
    - by destruct (getAccountBalance_fetched env w w1 [] Hfresh Hrun) as (Hc & _). }
  split; [exact Hempty|].
  rewrite getAccountBalance_fetches.
  - by apply balanceFetches_cons.
  - unfold balance_cache_fresh. simpl. rewrite Hempty. by rewrite andb_false_r.
Qed.

(** X17.  [testConnection] never throws; it answers [true] exactly when the
    balance read returns.  While the balance cache is fresh it answers
    [true] without calling the gateway. *)
Theorem testConnection_outcome (env : Env) (w : World) :
  let read := getAccountBalance env (log_line log_info "Testing Kraken connection..." w) in
  (exists answer, (testConnection env w).1 = Returned answer
                  /\ (answer = true <-> exists balances, read.1 = Returned balances))
  /\ (balance_cache_fresh w = true ->
      (testConnection env w).1 = Returned true
      /\ trace (testConnection env w).2 = trace w).
Proof.
  intros read. rewrite testConnection_run. unfold read. split.
  - destruct (getAccountBalance env _) as [[b|e] w1]; simpl.
    + exists true. split; [done|]. split; [by eexists|done].
    + exists false. split; [done|]. split; [done|]. by intros [? ?].
  - intros Hfresh.
    rewrite getAccountBalance_cached by exact Hfresh. done.
Qed.

Lemma or_number_truthy (o : option number) (d : number) :
  truthy d = true -> truthy (or_number o d) = true.
Proof.
  intros Hd. destruct o as [x|]; simpl; [|done]. by destruct (truthy x) eqn:Hx.
Qed.

Lemma pricesOf_complete (data : PriceData) :
  Forall (fun code => exists p, pricesOf data !! code = Some p /\ truthy p = true) pricedCodes.
Proof.
  unfold pricedCodes.
  repeat (apply Forall_cons; split;
          [eexists; split; [reflexivity|first [by apply or_number_truthy|reflexivity]]|]).
  by apply Forall_nil.
Qed.

Lemma fallbackPrices_complete :
  Forall (fun code => exists p, fallbackPrices !! code = Some p /\ truthy p = true) pricedCodes.
Proof.
  unfold pricedCodes.
  repeat (apply Forall_cons; split; [eexists; split; reflexivity|]).
  by apply Forall_nil.
Qed.

(** X18.  After any run of [initializeCryptoPrices], whether the feed
    answered or failed and whatever fields its answer lacks, the price table
    holds a non-zero number for each of the twelve asset codes, the two
    codes of an asset have the same price, and USD is 1. *)
Theorem price_table_is_complete (env : Env) (w : World) :
  let prices := cryptoPrices (service (initializeCryptoPrices env w).2) in
  Forall (fun code => exists p, prices !! code = Some p /\ truthy p = true) pricedCodes
  /\ prices !! "XBT" = prices !! "XXBT"
  /\ prices !! "ETH" = prices !! "XETH"
  /\ prices !! "XRP" = prices !! "XXRP"
  /\ prices !! "LTC" = prices !! "XLTC"
  /\ prices !! "USD" = Some (Num 1)
  /\ prices !! "ZUSD" = Some (Num 1).
Proof.
  intros prices. unfold prices.
  destruct (priceFeed env (FetchPrices priceUrl :: trace w)) as [msg|data] eqn:Hfeed.
  - rewrite (initializeCryptoPrices_failed env w msg Hfeed). simpl.
    split; [apply fallbackPrices_complete|]. by repeat split.
  - rewrite (initializeCryptoPrices_succeeded env w data Hfeed). simpl.
    split; [apply pricesOf_complete|]. by repeat split.
Qed.

(** X19.  When the feed answers, the cache is fresh from the moment the
    answer arrived: a read no later than one refresh interval after it does
    not fetch and changes nothing. *)
Theorem price_cache_fresh_after_success
    (env : Env) (w : World) (data : PriceData) (t : Z) :
  priceFeed env (FetchPrices priceUrl :: trace w) = FeedJson data ->
  let w1 := (initializeCryptoPrices env w).2 in
  (t - clock w1 <= priceUpdateInterval (service w))%Z ->
  cryptoPrices (service w1) = pricesOf data
  /\ lastPriceUpdate (service w1) = clock w1
  /\ updateCryptoPricesIfNeeded env (at_time t w1) = (Returned tt, at_time t w1).
Proof.
  intros Hfeed w1 Hsoon. unfold w1 in *.
  rewrite (initializeCryptoPrices_succeeded env w data Hfeed) in *. simpl in *.
  split; [reflexivity|]. split; [reflexivity|].
  apply updateCryptoPricesIfNeeded_fresh.
  unfold price_cache_stale. simpl. rewrite Z.gtb_ltb. apply Z.ltb_ge. exact Hsoon.
Qed.

(** X20.  When the prices or the balances cannot be had, the order is not
    submitted: the response is the error of the failed read, and the order
    object is untouched. *)
Theorem placeValidatedOrder_fails_closed
    (order : loc) (o : KrakenOrderRequest) (env : Env) (w w1 : World) (msg : string) :
  heap w !! order = Some o ->
  (updateCryptoPricesIfNeeded;; getAccountBalance) env (log_line log_info (placing o) w)
    = (Thrown msg, w1) ->
  let run := placeValidatedOrder order env w in
  run.1 = Returned {| error := Some [msg]; result := None |}
  /\ submissions (trace run.2) = submissions (trace w)
  /\ heap run.2 = heap w.
Proof.
  intros Ho Hprep run. unfold run.
  rewrite (placeValidatedOrder_unprepared order o env w w1 msg Ho Hprep). simpl.
  split; [reflexivity|].
  destruct (prepare_frame env (log_line log_info (placing o) w)) as [Hh Hs].
  rewrite Hprep in Hh, Hs. split; [exact Hs|exact Hh].
Qed.

Lemma settle_keeps_trace (run : Outcome KrakenOrderResponse * World) :
  trace (settle run).2 = trace run.2.
Proof. by destruct run as [[r|e] w]. Qed.

(** X21.  What the gateway is asked to place: the order as it was given
    when the first validation passes, and the order with its [volume]
    replaced by the text of the adjusted amount when the amount was adjusted
    and the second validation passes. *)
Theorem gateway_receives_adjusted_volume
    (order : loc) (o : KrakenOrderRequest) (env : Env) (w w1 : World)
    (balances : TradeValidator.Balances) :
  heap w !! order = Some o ->
  (updateCryptoPricesIfNeeded;; getAccountBalance) env (log_line log_info (placing o) w)
    = (Returned balances, w1) ->
  let validator := TradeValidator.new balances (Some (cryptoPrices (service w1))) in
  let validation :=
    TradeValidator.validateTrade validator (request_of o (parseFloat (volume o))) in
  let sent := trace (placeValidatedOrder order env w).2 in
  let key := apiKey (service w1) in
  let secret := apiSecret (service w1) in
  (TradeValidator.isValid validation = true ->
   sent = InvokePlaceOrder key secret o :: trace w1)
  /\ (forall adjusted,
        TradeValidator.isValid validation = false ->
        TradeValidator.adjustedAmount validation = Some adjusted ->
        truthy adjusted && (adjusted >? Num 0)%num = true ->
        TradeValidator.isValid
          (TradeValidator.validateTrade validator (request_of o adjusted)) = true ->
        sent = InvokePlaceOrder key secret (with_volume (Number_toString adjusted) o)
               :: trace w1).
Proof.
  intros Ho Hprep validator validation sent key secret. unfold sent.
  rewrite (placeValidatedOrder_prepared order o env w w1 balances Ho Hprep).
  fold validator. fold validation.
  destruct (prepared_heap _ _ _ _ Hprep) as [Hheap _]. simpl in Hheap.
  assert (Ho1 : heap w1 !! order = Some o) by (by rewrite Hheap).
  split.
  - intros ->. rewrite settle_keeps_trace. by apply placeOrder_submits.
  - intros adjusted -> -> -> Hsecond. cbv zeta. rewrite Hsecond, settle_keeps_trace.
    rewrite (placeOrder_submits order (with_volume (Number_toString adjusted) o)).
    + reflexivity.
    + simpl. apply lookup_insert_eq.
Qed.

(** X22.  An order whose [volume] does not read as a number is not held
    back: it passes validation and is sent to the gateway as it is. *)
Theorem unreadable_volume_is_submitted
    (order : loc) (o : KrakenOrderRequest) (env : Env) (w w1 : World)
    (balances : TradeValidator.Balances) :
  heap w !! order = Some o ->
  (updateCryptoPricesIfNeeded;; getAccountBalance) env (log_line log_info (placing o) w)
    = (Returned balances, w1) ->
  parseFloat (volume o) = NaN ->
  let run := placeValidatedOrder order env w in
  run = settle (placeOrder order env w1)
  /\ trace run.2
     = InvokePlaceOrder (apiKey (service w1)) (apiSecret (service w1)) o :: trace w1
  /\ heap run.2 !! order = Some o.
Proof.
  intros Ho Hprep Hnan run. unfold run.
  rewrite (placeValidatedOrder_prepared order o env w w1 balances Ho Hprep).
  rewrite (validateTrade_NaN _ (request_of o (parseFloat (volume o)))) by exact Hnan.
  cbn [TradeValidator.isValid].
  destruct (prepared_heap _ _ _ _ Hprep) as [Hheap _]. simpl in Hheap.
  assert (Ho1 : heap w1 !! order = Some o) by (by rewrite Hheap).
  split; [reflexivity|]. split.
  - rewrite settle_keeps_trace. by apply placeOrder_submits.
  - rewrite settle_heap.
    pose proof (placeOrder_same_heap order env w1) as Hsame. unfold same_heap in Hsame.
    by rewrite Hsame.
Qed.

(** X23.  No method changes the credentials or the two refresh
    intervals. *)
Theorem settings_are_kept (order : loc) (env : Env) (w : World) :
  same_settings w (placeValidatedOrder order env w).2
  /\ same_settings w (placeOrder order env w).2
  /\ same_settings w (getAccountBalance env w).2
  /\ same_settings w (updateCryptoPricesIfNeeded env w).2
  /\ same_settings w (testConnection env w).2.
Proof.
  split; [apply placeValidatedOrder_settings|].
  split; [apply placeOrder_settings|].
  split; [apply getAccountBalance_settings|].
  split; [apply updateCryptoPricesIfNeeded_settings|apply testConnection_settings].
Qed.

(** X24.  [getTradeValidator] gives nothing while no balances are cached;
    after a balance read that returned some balances it gives the validator
    over those balances and the cached prices, the one [placeValidatedOrder]
    would build. *)
Theorem getTradeValidator_after_read
    (env : Env) (w w1 : World) (balances : TradeValidator.Balances) :
  (cachedBalances (service w) = [] -> (getTradeValidator env w).1 = Returned None)
  /\ (getAccountBalance env w = (Returned balances, w1) ->
      balances <> [] ->
      getTradeValidator env w1
      = (Returned (Some (TradeValidator.new balances (Some (cryptoPrices (service w1))))),
         w1)).
Proof.
  split.
  - intros Hempty. rewrite getTradeValidator_run, Hempty. reflexivity.
  - intros Hrun Hsome. rewrite getTradeValidator_run.
    assert (Hc : cachedBalances (service w1) = balances).
    { destruct (balance_cache_fresh w) eqn:Hfresh.
      - rewrite (getAccountBalance_cached env w Hfresh) in Hrun. by injection Hrun as <- <-.
      - by destruct (getAccountBalance_fetched env w w1 balances Hfresh Hrun) as (Hc & _). }
    rewrite Hc. by destruct balances.
Qed.

End ServiceFacts.

(** * The callers' pair conversion *)

Section CallerPairs.
Import TradeValidator.

Lemma includes_slash (s : string) : includes s "/" = occurs "/" s.
Proof.
  unfold includes. induction s as [|c s IH]; [reflexivity|].
  change (String.index 0 "/" (String c s))
    with (if String.prefix "/" (String c s) then Some 0%nat
          else match String.index 0 "/" s with
               | Some n => Some (S n)
               | None => None
               end).
  change (String.prefix "/" (String c s))
    with (if ascii_dec "/" c then String.prefix "" s else false).
  cbn [occurs]. destruct (ascii_dec "/" c) as [<-|Hc].
  - by destruct s.
  - destruct (Ascii.eqb_spec c "/") as [->|_]; [done|]. simpl.
    rewrite <- IH. by destruct (String.index 0 "/" s).
Qed.

Lemma occurs_app (c : ascii) (s t : string) : occurs c (s +:+ t) = occurs c s || occurs c t.
Proof.
  induction s as [|a s IH]; [reflexivity|]. simpl. by rewrite IH, orb_assoc.
Qed.

Lemma upper_ascii_slash (c : ascii) : Ascii.eqb (upper_ascii c) "/" = Ascii.eqb c "/".
Proof. destruct c as [[] [] [] [] [] [] [] []]; reflexivity. Qed.

Lemma occurs_toUpperCase (s : string) : occurs "/" (toUpperCase s) = occurs "/" s.
Proof.
  induction s as [|a s IH]; [reflexivity|]. simpl. by rewrite upper_ascii_slash, IH.
Qed.

Lemma toUpperCase_app (s t : string) :
  toUpperCase (s +:+ t) = toUpperCase s +:+ toUpperCase t.
Proof. induction s as [|a s IH]; [reflexivity|]. simpl. by rewrite IH. Qed.

Lemma remove_first_slash (base rest : string) :
  occurs "/" base = false ->
  Callers.remove_first "/" (base +:+ String "/" rest) = base +:+ rest.
Proof.
  induction base as [|a base IH]; [reflexivity|]. simpl.
  destruct (Ascii.eqb a "/"); [discriminate|]. simpl. intros Hb. by rewrite IH.
Qed.

Lemma split_slash (base rest : string) :
  occurs "/" base = false ->
  split "/" (base +:+ String "/" rest) = base :: split "/" rest.
Proof.
  induction base as [|a base IH]; [reflexivity|]. simpl.
  destruct (Ascii.eqb a "/"); [discriminate|]. simpl. intros Hb. by rewrite IH.
Qed.

Lemma length_app (s t : string) :
  String.length (s +:+ t) = (String.length s + String.length t)%nat.
Proof. induction s as [|a s IH]; [reflexivity|]. simpl. by rewrite IH. Qed.

Lemma app_inv_tail (s1 s2 t : string) : s1 +:+ t = s2 +:+ t -> s1 = s2.
Proof.
  revert s2. induction s1 as [|a s1 IH]; intros [|b s2] Heq; simpl in Heq.
  - reflexivity.
  - apply (f_equal String.length) in Heq. rewrite !length_app in Heq. simpl in Heq. lia.
  - apply (f_equal String.length) in Heq. rewrite !length_app in Heq. simpl in Heq. lia.
  - injection Heq as -> Heq. f_equal. by apply IH.
Qed.

Lemma eqb_app_tail (s1 s2 t : string) : String.eqb (s1 +:+ t) (s2 +:+ t) = String.eqb s1 s2.
Proof.
  destruct (String.eqb_spec s1 s2) as [->|Hne]; [apply String.eqb_refl|].
  apply String.eqb_neq. intros Heq. apply Hne. by eapply app_inv_tail.
Qed.

Lemma substring_app_head (s t : string) :
  String.substring 0 (String.length s) (s +:+ t) = s.
Proof.
  induction s as [|a s IH]; simpl; [by destruct t|]. by rewrite IH.
Qed.

Lemma substring_app_tail (s t : string) :
  String.substring (String.length s) (String.length t) (s +:+ t) = t.
Proof.
  induction s as [|a s IH]; simpl; [|exact IH].
  change ("" +:+ t) with t.
  induction t as [|b t IHt]; [reflexivity|]. simpl. by rewrite IHt.
Qed.

Lemma endsWith_app (s t : string) : endsWith (s +:+ t) t = true.
Proof.
  unfold endsWith. rewrite length_app.
  replace (String.length s + String.length t - String.length t)%nat
    with (String.length s) by lia.
  rewrite substring_app_tail, String.eqb_refl, andb_true_r.
  apply Nat.leb_le. lia.
Qed.

Lemma slice_app (s : string) : slice_to_minus 3 (s +:+ "USD") = s.
Proof.
  unfold slice_to_minus. rewrite length_app.
  replace (String.length s + String.length "USD" - 3)%nat with (String.length s)
    by (simpl; lia).
  apply substring_app_head.
Qed.

(** The human pair [base/USD]. *)
Lemma parsePair_human_usd (base : string) :
  occurs "/" base = false ->
  parsePair (base +:+ "/USD") = (normalizeCurrency base, "ZUSD").
Proof.
  intros Hb. unfold parsePair.
  assert (Hslash : includes (base +:+ "/USD") "/" = true).
  { rewrite includes_slash, occurs_app, Hb. reflexivity. }
  rewrite Hslash.
  change (base +:+ "/USD") with (base +:+ String "/" "USD").
  rewrite split_slash by done. reflexivity.
Qed.

(** What the callers make of [base/USD]. *)
Lemma krakenPair_human_usd (base : string) :
  occurs "/" base = false ->
  Callers.krakenPair (base +:+ "/USD")
  = if String.eqb (toUpperCase base) "BTC" then "XBTUSD" else toUpperCase base +:+ "USD".
Proof.
  intros Hb. unfold Callers.krakenPair.
  change (base +:+ "/USD") with (base +:+ String "/" "USD").
  rewrite remove_first_slash by done. rewrite toUpperCase_app.
  change (toUpperCase "USD") with "USD".
  change "BTCUSD" with ("BTC" +:+ "USD"). rewrite eqb_app_tail.
  destruct (String.eqb (toUpperCase base) "BTC"); [reflexivity|].
  by destruct (String.eqb_spec (toUpperCase base +:+ "USD") "ETHUSD") as [->|].
Qed.

(** X25.  For a base without a slash whose upper-case form is not XBT, the
    pair the callers put in the order names the same assets, for the
    validator, as the human pair [base/USD] they started from. *)
Theorem krakenPair_names_same_assets (base : string) :
  includes base "/" = false ->
  toUpperCase base <> "XBT" ->
  parsePair (Callers.krakenPair (base +:+ "/USD")) = parsePair (base +:+ "/USD").
Proof.
  rewrite includes_slash. intros Hb Hxbt.
  rewrite parsePair_human_usd, krakenPair_human_usd by done.
  set (U := toUpperCase base) in *.
  assert (HU : normalizeCurrency base = normalizeCurrency U)
    by (symmetry; apply normalizeCurrency_upper).
  destruct (String.eqb_spec U "BTC") as [Hbtc|Hbtc].
  { rewrite HU, Hbtc. reflexivity. }
  unfold parsePair.
  assert (Hslash : includes (U +:+ "USD") "/" = false).
  { rewrite includes_slash, occurs_app. unfold U. by rewrite occurs_toUpperCase, Hb. }
  rewrite Hslash.
  change "XBTUSD" with ("XBT" +:+ "USD"). change "ETHUSD" with ("ETH" +:+ "USD").
  change "XRPUSD" with ("XRP" +:+ "USD"). change "LTCUSD" with ("LTC" +:+ "USD").
  change "ADAUSD" with ("ADA" +:+ "USD"). change "DOTUSD" with ("DOT" +:+ "USD").
  rewrite !eqb_app_tail.
  destruct (String.eqb_spec U "XBT") as [|_]; [done|].
  repeat match goal with
         | |- context [String.eqb U ?k] =>
             destruct (String.eqb_spec U k) as [Hk|_]; [by rewrite HU, Hk|]
         end.
  by rewrite endsWith_app, slice_app, HU.
Qed.

End CallerPairs.

(** * The further properties, run *)

Lemma parsePair_canonical_witness :
  endsWith "SOLUSD" "USD" = true
  /\ TradeValidator.normalizeCurrency (TradeValidator.parsePair "SOLUSD").1
     = (TradeValidator.parsePair "SOLUSD").1.
Proof.
  split; [reflexivity|].
  apply (proj2 (parsePair_canonical "SOLUSD")). right. reflexivity.
Defined.

Lemma valid_verdict_has_no_correction_witness :
  let v := TradeValidator.new [("XXBT", "0.02")] None in
  let trade :=
    {| TradeValidator.pair := "XBTUSD"; TradeValidator.side := TradeValidator.sell;
       TradeValidator.amount := Num 0.01; TradeValidator.price := None |} in
  let verdict := TradeValidator.validateTrade (rt:=Reference.runtime) v trade in
  TradeValidator.isValid verdict = true
  /\ TradeValidator.adjustedAmount verdict = None
  /\ TradeValidator.requiredBalance verdict = None
  /\ TradeValidator.availableBalance verdict = None.
Proof.
  intros v trade verdict. split; [reflexivity|].
  apply (valid_verdict_has_no_correction (rt:=Reference.runtime) v trade). reflexivity.
Defined.

Lemma invalid_verdict_has_message_witness :
  let v := TradeValidator.new [("XXBT", "0.02")] None in
  let trade :=
    {| TradeValidator.pair := "XBTUSD"; TradeValidator.side := TradeValidator.sell;
       TradeValidator.amount := Num 0.05; TradeValidator.price := None |} in
  let verdict := TradeValidator.validateTrade (rt:=Reference.runtime) v trade in
  TradeValidator.isValid verdict = false
  /\ exists msg,
       TradeValidator.error verdict = Some msg
       /\ truthy_string msg = true
       /\ KrakenService.validation_failed verdict
          = {| KrakenService.error := Some [msg]; KrakenService.result := None |}.
Proof.
  intros v trade verdict. split; [reflexivity|].
  apply (invalid_verdict_has_message (rt:=Reference.runtime) v trade). reflexivity.
Defined.

Lemma NaN_amount_is_accepted_witness :
  TradeValidator.validateTrade (rt:=Reference.runtime)
    (TradeValidator.new [] None)
    {| TradeValidator.pair := "ETH/USD"; TradeValidator.side := TradeValidator.buy;
       TradeValidator.amount := NaN; TradeValidator.price := None |}
  = {| TradeValidator.isValid := true; TradeValidator.error := None;
       TradeValidator.adjustedAmount := None; TradeValidator.requiredBalance := None;
       TradeValidator.availableBalance := None |}.
Proof. apply (NaN_amount_is_accepted (rt:=Reference.runtime)). reflexivity. Defined.

Lemma sell_valid_iff_witness :
  let v := TradeValidator.new [("XXBT", "0.02")] None in
  let trade :=
    {| TradeValidator.pair := "XBTUSD"; TradeValidator.side := TradeValidator.sell;
       TradeValidator.amount := Num 0.01; TradeValidator.price := None |} in
  TradeValidator.baseBalance (rt:=Reference.runtime) v "XXBT" = Num (1 # 50)
  /\ TradeValidator.isValid (TradeValidator.validateTrade (rt:=Reference.runtime) v trade)
     = true.
Proof.
  intros v trade. split; [reflexivity|].
  apply (sell_valid_iff (rt:=Reference.runtime) [("XXBT", "0.02")] None trade 0.01 (1 # 50));
    [reflexivity|reflexivity|reflexivity|reflexivity|split; reflexivity].
Defined.

Lemma buy_valid_iff_witness :
  let v := TradeValidator.new [("ZUSD", "100.00"); ("XETH", "1")] None in
  let trade :=
    {| TradeValidator.pair := "ETH/USD"; TradeValidator.side := TradeValidator.buy;
       TradeValidator.amount := Num 0.1; TradeValidator.price := None |} in
  let verdict := TradeValidator.validateTrade (rt:=Reference.runtime) v trade in
  TradeValidator.isValid verdict = true /\ is_Some (TradeValidator.error verdict).
Proof.
  intros v trade verdict.
  destruct (buy_valid_iff (rt:=Reference.runtime) [("ZUSD", "100.00"); ("XETH", "1")] None
              trade 0.1 eq_refl) as [Hvalid Hmessage]; [|reflexivity|reflexivity|].
  { intros e He. vm_compute in He.
    repeat (apply elem_of_cons in He as [->|He]; [reflexivity|]).
    by apply elem_of_nil in He. }
  assert (Hv : TradeValidator.isValid verdict = true).
  { apply Hvalid. split; reflexivity. }
  split; [exact Hv|]. apply (Hmessage Hv). reflexivity.
Defined.

Lemma sell_against_unreadable_balance_witness :
  let v := TradeValidator.new [("XXBT", "n/a")] None in
  let trade :=
    {| TradeValidator.pair := "XBTUSD"; TradeValidator.side := TradeValidator.sell;
       TradeValidator.amount := Num 0.01; TradeValidator.price := None |} in
  Reference.parseFloat "n/a" = NaN
  /\ TradeValidator.validateTrade (rt:=Reference.runtime) v trade
     = {| TradeValidator.isValid := true; TradeValidator.error := None;
          TradeValidator.adjustedAmount := None; TradeValidator.requiredBalance := None;
          TradeValidator.availableBalance := None |}.
Proof.
  intros v trade. split; [reflexivity|].
  apply (sell_against_unreadable_balance (rt:=Reference.runtime) [("XXBT", "n/a")] None trade);
    [reflexivity|left; reflexivity|reflexivity].
Defined.

Lemma sell_adjustment_revalidates_iff_witness :
  let v := TradeValidator.new [("XXBT", "0.02")] None in
  let trade :=
    {| TradeValidator.pair := "XBTUSD"; TradeValidator.side := TradeValidator.sell;
       TradeValidator.amount := Num 0.05; TradeValidator.price := None |} in
  let second :=
    TradeValidator.validateTrade (rt:=Reference.runtime) v
      {| TradeValidator.pair := "XBTUSD"; TradeValidator.side := TradeValidator.sell;
         TradeValidator.amount := Num 0.019; TradeValidator.price := None |} in
  TradeValidator.adjustedAmount (TradeValidator.validateTrade (rt:=Reference.runtime) v trade)
  = Some (Num 0.019)
  /\ TradeValidator.isValid second = true.
Proof.
  intros v trade second.
  destruct (sell_adjustment_revalidates_iff (rt:=Reference.runtime) [("XXBT", "0.02")] None
              trade eq_refl eq_refl eq_refl) as (Hadjusted & Hsecond & _).
  split; [exact Hadjusted|]. apply Hsecond. reflexivity.
Defined.

Lemma portfolio_summary_adds_up_witness :
  let v :=
    TradeValidator.new
      [("XXBT", "0.02"); ("ZUSD", "1000.00"); ("XETH", "0"); ("XXRP", "250")] None in
  (TradeValidator.getPortfolioSummary (rt:=Reference.runtime) v).*1 = ["XXBT"; "ZUSD"; "XXRP"]
  /\ (TradeValidator.getBalanceSummary (rt:=Reference.runtime) v).*1 = ["XXBT"; "ZUSD"; "XXRP"]
  /\ sumUsdValue (TradeValidator.getPortfolioSummary (rt:=Reference.runtime) v)
     = TradeValidator.getTotalPortfolioValueInUsd (rt:=Reference.runtime) v.
Proof.
  intros v. split; [reflexivity|]. split; [reflexivity|].
  apply (portfolio_summary_adds_up (rt:=Reference.runtime) v).
  - apply (bool_decide_unpack _). vm_compute. exact I.
  - apply (bool_decide_unpack _). vm_compute. exact I.
Defined.

Lemma service_summary_adds_up_witness :
  let env :=
    Scenario.answering Scenario.feedDown
      (Scenario.holding
         [("XXBT", "0.02"); ("ZUSD", "1000.00"); ("XXRP", "0.00005"); ("XETH", "0.5")])
      Scenario.accepted in
  let w := Scenario.started (Scenario.marketOrder "XBTUSD" TradeValidator.sell "0.01") in
  let s := KrakenService.service (KrakenService.getAccountBalance env w).2 in
  let summary := (KrakenService.getPortfolioSummary (rt:=Reference.runtime) s).1 in
  let totalUsdValue := (KrakenService.getPortfolioSummary (rt:=Reference.runtime) s).2 in
  summary.*1 = ["XXBT"; "ZUSD"; "XETH"]
  /\ Forall (fun e => (Num 0.0001 < TradeValidator.balance e.2)%num) summary
  /\ totalUsdValue = sumUsdValue summary.
Proof.
  intros env w s summary totalUsdValue. split; [reflexivity|].
  destruct (service_summary_adds_up (rt:=Reference.runtime) s) as (Hlisted & Hsum & _).
  { apply (bool_decide_unpack _). vm_compute. exact I. }
  split; [exact Hlisted|]. apply Hsum.
  apply (bool_decide_unpack _). vm_compute. exact I.
Defined.

Lemma placeOrder_failure_changes_nothing_witness :
  let o := Scenario.marketOrder "XBTUSD" TradeValidator.sell "0.01" in
  let env :=
    Scenario.answering Scenario.feedDown (Scenario.holding [("XXBT", "0.02")])
      (Scenario.refused "Insufficient funds") in
  let w := Scenario.started o in
  let run := KrakenService.placeOrder 1%nat env w in
  run.1 = KrakenService.Thrown "Insufficient funds for this trade"
  /\ KrakenService.service run.2 = KrakenService.service w
  /\ KrakenService.heap run.2 = KrakenService.heap w.
Proof.
  intros o env w run. split; [reflexivity|].
  apply (placeOrder_failure_changes_nothing 1%nat env w run.2
           "Insufficient funds for this trade").
  reflexivity.
Defined.

Lemma getAccountBalance_failure_is_loud_witness :
  let o := Scenario.marketOrder "XBTUSD" TradeValidator.sell "0.01" in
  let env :=
    Scenario.answering Scenario.feedDown
      (KrakenService.InvokeResolved None
         (Some {| KrakenService.error := Some ["EGeneral:Temporary lockout"];
                  KrakenService.result := None |}))
      Scenario.accepted in
  let w := Scenario.started o in
  let run := KrakenService.getAccountBalance env w in
  run.1 = KrakenService.Thrown "Kraken Error: EGeneral:Temporary lockout"
  /\ KrakenService.service run.2 = KrakenService.service w.
Proof.
  intros o env w run.
  destruct (getAccountBalance_failure_is_loud env w eq_refl) as (Hanswer & Hmessage & Hkept).
  assert (Hthrown : run.1 = KrakenService.Thrown "Kraken Error: EGeneral:Temporary lockout").
  { exact Hanswer. }
  split; [exact Hthrown|]. exact (Hkept _ Hthrown).
Defined.

Lemma empty_balances_are_refetched_witness :
  let o := Scenario.marketOrder "XBTUSD" TradeValidator.sell "0.01" in
  let env := Scenario.answering Scenario.feedDown (Scenario.holding []) Scenario.accepted in
  let w := Scenario.started o in
  let w1 := (KrakenService.getAccountBalance env w).2 in
  KrakenService.cachedBalances (KrakenService.service w1) = []
  /\ balanceFetches
       (KrakenService.trace
          (KrakenService.getAccountBalance env (at_time (KrakenService.clock w1 + 1) w1)).2)
     = S (balanceFetches (KrakenService.trace w1)).
Proof.
  intros o env w w1.
  apply (empty_balances_are_refetched env w w1 (KrakenService.clock w1 + 1)). reflexivity.
Defined.

Lemma testConnection_outcome_witness :
  let o := Scenario.marketOrder "XBTUSD" TradeValidator.sell "0.01" in
  let env :=
    Scenario.answering Scenario.feedDown (Scenario.holding [("XXBT", "0.02")])
      Scenario.accepted in
  let w := (KrakenService.getAccountBalance env (Scenario.started o)).2 in
  balance_cache_fresh w = true
  /\ (KrakenService.testConnection env w).1 = KrakenService.Returned true
  /\ KrakenService.trace (KrakenService.testConnection env w).2 = KrakenService.trace w.
Proof.
  intros o env w. split; [reflexivity|].
  apply (proj2 (testConnection_outcome env w)). reflexivity.
Defined.

Lemma price_cache_fresh_after_success_witness :
  let o := Scenario.marketOrder "XBTUSD" TradeValidator.sell "0.01" in
  let data :=
    {| KrakenService.bitcoin := Some (Num 60000); KrakenService.ethereum := Some (Num 3000);
       KrakenService.ripple := None; KrakenService.litecoin := None;
       KrakenService.cardano := None; KrakenService.polkadot := None |} in
  let env :=
    Scenario.answering (KrakenService.FeedJson data) (Scenario.holding [("XXBT", "0.02")])
      Scenario.accepted in
  let w := Scenario.started o in
  let w1 := (KrakenService.initializeCryptoPrices env w).2 in
  KrakenService.cryptoPrices (KrakenService.service w1) = KrakenService.pricesOf data
  /\ KrakenService.lastPriceUpdate (KrakenService.service w1) = KrakenService.clock w1
  /\ KrakenService.updateCryptoPricesIfNeeded env (at_time (KrakenService.clock w1 + 60000) w1)
     = (KrakenService.Returned tt, at_time (KrakenService.clock w1 + 60000) w1).
Proof.
  intros o data env w w1.
  apply (price_cache_fresh_after_success env w data (KrakenService.clock w1 + 60000));
    [reflexivity|]. vm_compute. discriminate.
Defined.

Lemma placeValidatedOrder_fails_closed_witness :
  let o := Scenario.marketOrder "XBTUSD" TradeValidator.sell "0.01" in
  let env :=
    Scenario.answering Scenario.feedDown (KrakenService.InvokeRejected "Failed to fetch")
      Scenario.accepted in
  let w := Scenario.started o in
  let run := KrakenService.placeValidatedOrder (rt:=Reference.runtime) 1%nat env w in
  run.1 = KrakenService.Returned
            {| KrakenService.error := Some ["Failed to fetch"];
               KrakenService.result := None |}
  /\ submissions (KrakenService.trace run.2) = submissions (KrakenService.trace w)
  /\ KrakenService.heap run.2 = KrakenService.heap w.
Proof.
  intros o env w run.
  apply (placeValidatedOrder_fails_closed (rt:=Reference.runtime) 1%nat o env w
           ((KrakenService.updateCryptoPricesIfNeeded;; KrakenService.getAccountBalance) env
              (KrakenService.log_line KrakenService.log_info (placing o) w)).2
           "Failed to fetch"); reflexivity.
Defined.

Lemma gateway_receives_adjusted_volume_witness :
  let o := Scenario.marketOrder "XBTUSD" TradeValidator.sell "0.05" in
  let env :=
    Scenario.answering Scenario.feedDown (Scenario.holding [("XXBT", "0.02")])
      Scenario.accepted in
  let w := Scenario.started o in
  let w1 :=
    ((KrakenService.updateCryptoPricesIfNeeded;; KrakenService.getAccountBalance) env
       (KrakenService.log_line KrakenService.log_info (placing o) w)).2 in
  KrakenService.trace (KrakenService.placeValidatedOrder (rt:=Reference.runtime) 1%nat env w).2
  = KrakenService.InvokePlaceOrder "key" "secret"
      (Scenario.marketOrder "XBTUSD" TradeValidator.sell "0.019")
    :: KrakenService.trace w1.
Proof.
  intros o env w w1.
  exact (proj2 (gateway_receives_adjusted_volume (rt:=Reference.runtime) 1%nat o env w w1
                  [("XXBT", "0.02")] eq_refl eq_refl)
           (Num 0.019) eq_refl eq_refl eq_refl eq_refl).
Defined.

Lemma unreadable_volume_is_submitted_witness :
  let o := Scenario.marketOrder "XBTUSD" TradeValidator.sell "all" in
  let env :=
    Scenario.answering Scenario.feedDown (Scenario.holding [("XXBT", "0.02")])
      Scenario.accepted in
  let w := Scenario.started o in
  let w1 :=
    ((KrakenService.updateCryptoPricesIfNeeded;; KrakenService.getAccountBalance) env
       (KrakenService.log_line KrakenService.log_info (placing o) w)).2 in
  let run := KrakenService.placeValidatedOrder (rt:=Reference.runtime) 1%nat env w in
  Reference.parseFloat "all" = NaN
  /\ KrakenService.trace run.2
     = KrakenService.InvokePlaceOrder "key" "secret" o :: KrakenService.trace w1
  /\ KrakenService.heap run.2 !! 1%nat = Some o.
Proof.
  intros o env w w1 run. split; [reflexivity|].
  apply (proj2 (unreadable_volume_is_submitted (rt:=Reference.runtime) 1%nat o env w w1
                  [("XXBT", "0.02")] eq_refl eq_refl eq_refl)).
Defined.

Lemma getTradeValidator_after_read_witness :
  let o := Scenario.marketOrder "XBTUSD" TradeValidator.sell "0.01" in
  let env :=
    Scenario.answering Scenario.feedDown (Scenario.holding [("XXBT", "0.02")])
      Scenario.accepted in
  let w := Scenario.started o in
  let w1 := (KrakenService.getAccountBalance env w).2 in
  (KrakenService.getTradeValidator env w).1 = KrakenService.Returned None
  /\ KrakenService.getTradeValidator env w1
     = (KrakenService.Returned
          (Some (TradeValidator.new [("XXBT", "0.02")]
                   (Some (KrakenService.cryptoPrices (KrakenService.service w1))))), w1).
Proof.
  intros o env w w1. split.
  - apply (proj1 (getTradeValidator_after_read env w w1 [("XXBT", "0.02")])). reflexivity.
  - apply (proj2 (getTradeValidator_after_read env w w1 [("XXBT", "0.02")]));
      [reflexivity|discriminate].
Defined.

Lemma krakenPair_names_same_assets_witness :
  Callers.krakenPair "eth/USD" = "ETHUSD"
  /\ TradeValidator.parsePair (Callers.krakenPair "eth/USD")
     = TradeValidator.parsePair "eth/USD".
Proof.
  split; [reflexivity|].
  apply (krakenPair_names_same_assets "eth"); [reflexivity|discriminate].
Defined.
